(** * documentextraction.py: PDF text extraction, agent tools and output normalisation

    A shallow embedding of [documentextraction.py].  The functions of the
    script are translated one by one; the Python library calls they make
    ([str.strip], [re.search], [float], [datetime.strptime], ...) are modelled
    in the modules that come first.  The services that leave the process
    (PyMuPDF, Pillow, Tesseract, hashlib, the JSON decoder, the hosted agent)
    are interfaces, given as type classes.

    Text is modelled as [string], that is as Python [str] values whose code
    points are all below U+0100.  On that domain the Unicode tables Python
    consults are small: the decimal digits are [0-9] and the white space
    characters are U+0009..U+000D, U+001C..U+0020, U+0085 and U+00A0. *)

From Stdlib Require Import ZArith List Bool Ascii String Lia Floats DecimalString.
From Stdlib.Strings Require Import Byte.
Import ListNotations.

#[local] Set Warnings "-register-all,-inexact-float".

#[local] Open Scope string_scope.
#[local] Open Scope Z_scope.

(** ** Exceptions and results *)

Inductive exn : Type :=
| JSONDecodeError (msg : string)
| ValueError (msg : string)
| AttributeError (msg : string)
| OverflowError (msg : string)
| IndexError (msg : string)
| RuntimeError (msg : string)
| OtherException (msg : string).

(** [str(e)] *)
Definition str_exn (e : exn) : string :=
  match e with
  | JSONDecodeError m | ValueError m | AttributeError m | OverflowError m
  | IndexError m | RuntimeError m | OtherException m => m
  end.

Inductive result (A : Type) : Type :=
| Ok (a : A)
| Raise (e : exn).

Arguments Ok {A} a.
Arguments Raise {A} e.

Definition bind {A B : Type} (m : result A) (k : A -> result B) : result B :=
  match m with
  | Ok a => k a
  | Raise e => Raise e
  end.

Notation "x <- m ;; k" := (bind m (fun x => k))
  (at level 61, m at next level, right associativity).

(** ** [str] methods *)

Module PyStr.

(** One-character strings that cannot be written inside a literal. *)
Definition nl : string := String "010"%char EmptyString.
Definition dq : string := String "034"%char EmptyString.

(** [str.isspace] for one character, also the class [\s] of [re]. *)
Definition isspace (c : ascii) : bool :=
  let n := nat_of_ascii c in
  ((9 <=? n) && (n <=? 13) || (28 <=? n) && (n <=? 32) || (n =? 133) || (n =? 160))%nat.

Definition isdigit (c : ascii) : bool :=
  let n := nat_of_ascii c in ((48 <=? n) && (n <=? 57))%nat.

Definition digit_value (c : ascii) : Z := Z.of_nat (nat_of_ascii c) - 48.

Section StripBy.

Variable space : ascii -> bool.

Fixpoint lstrip_by (s : string) : string :=
  match s with
  | String c s' => if space c then lstrip_by s' else s
  | EmptyString => EmptyString
  end.

Fixpoint rstrip_by (s : string) : string :=
  match s with
  | EmptyString => EmptyString
  | String c s' =>
      match rstrip_by s' with
      | EmptyString => if space c then EmptyString else String c EmptyString
      | r => String c r
      end
  end.

Definition strip_by (s : string) : string := rstrip_by (lstrip_by s).

End StripBy.

(** [s.strip()] *)
Definition strip (s : string) : string := strip_by isspace s.

(** [s.replace(old, new)] for a one-character [old]. *)
Fixpoint replace_char (old : ascii) (new : string) (s : string) : string :=
  match s with
  | EmptyString => EmptyString
  | String c s' =>
      if Ascii.eqb c old then new ++ replace_char old new s'
      else String c (replace_char old new s')
  end.

(** [len(s)] *)
Definition len (s : string) : Z := Z.of_nat (String.length s).

(** [sep.join(parts)] *)
Definition join (sep : string) (parts : list string) : string :=
  String.concat sep parts.

(** [str(n)] for an [int]. *)
Definition str_int (n : Z) : string := NilZero.string_of_int (Z.to_int n).

(** ASCII lower-casing, the case folding that matters for the patterns of
    this program (their literals are ASCII letters, digits and punctuation). *)
Definition lower (c : ascii) : ascii :=
  let n := nat_of_ascii c in
  if ((65 <=? n) && (n <=? 90))%nat then ascii_of_nat (n + 32) else c.

Fixpoint starts_with (p s : string) : bool :=
  match p, s with
  | EmptyString, _ => true
  | String a p', String b s' => Ascii.eqb a b && starts_with p' s'
  | String _ _, EmptyString => false
  end.

End PyStr.

(** ** The fragment of [re] the program uses

    Patterns are kept as syntax trees; the matcher is the backtracking one of
    [re]: alternatives are tried left to right, [*] is greedy, [*?] is lazy,
    and the first successful path is the match.  Repetition is only over
    one-character atoms, which is all this program and [_strptime] need. *)

Module Re.

Inductive atom : Type :=
| Chr (c : ascii)          (* a literal character *)
| Rng (lo hi : ascii)      (* [lo-hi] *)
| Space                    (* \s *)
| Digit                    (* \d *)
| Dot.                     (* . under DOTALL *)

Inductive regex : Type :=
| Eps
| Atom (a : atom)
| Seq (r1 r2 : regex)
| Alt (r1 r2 : regex)
| Star (a : atom)              (* a*  *)
| LazyStar (a : atom)          (* a*? *)
| Group (name : string) (r : regex).

(** The literal string [s] as a pattern. *)
Fixpoint lit (s : string) : regex :=
  match s with
  | EmptyString => Eps
  | String c s' => Seq (Atom (Chr c)) (lit s')
  end.

(** [r?] *)
Definition Opt (r : regex) : regex := Alt r Eps.

Definition atom_match (ic : bool) (a : atom) (c : ascii) : bool :=
  match a with
  | Chr x => if ic then Ascii.eqb (PyStr.lower x) (PyStr.lower c) else Ascii.eqb x c
  | Rng lo hi => ((nat_of_ascii lo <=? nat_of_ascii c) && (nat_of_ascii c <=? nat_of_ascii hi))%nat
  | Space => PyStr.isspace c
  | Digit => PyStr.isdigit c
  | Dot => true
  end.

(** Captured groups, most recent first. *)
Definition caps : Type := list (string * string).

Fixpoint group (cs : caps) (name : string) : option string :=
  match cs with
  | [] => None
  | (n, v) :: cs' => if String.eqb n name then Some v else group cs' name
  end.

(** The text consumed between the input [s] and its suffix [s']. *)
Definition consumed (s s' : string) : string :=
  String.substring 0 (String.length s - String.length s') s.

Section Matcher.

Variable ic : bool.   (* re.IGNORECASE *)
Context {R : Type}.

Fixpoint star_greedy (a : atom) (s : string) (k : string -> option R) : option R :=
  match s with
  | String c s' =>
      if atom_match ic a c then
        match star_greedy a s' k with
        | Some x => Some x
        | None => k s
        end
      else k s
  | EmptyString => k s
  end.

Fixpoint star_lazy (a : atom) (s : string) (k : string -> option R) : option R :=
  match k s with
  | Some x => Some x
  | None =>
      match s with
      | String c s' => if atom_match ic a c then star_lazy a s' k else None
      | EmptyString => None
      end
  end.

Fixpoint rmatch (r : regex) (s : string) (cs : caps)
  (k : string -> caps -> option R) : option R :=
  match r with
  | Eps => k s cs
  | Atom a =>
      match s with
      | String c s' => if atom_match ic a c then k s' cs else None
      | EmptyString => None
      end
  | Seq r1 r2 => rmatch r1 s cs (fun s' cs' => rmatch r2 s' cs' k)
  | Alt r1 r2 =>
      match rmatch r1 s cs k with
      | Some x => Some x
      | None => rmatch r2 s cs k
      end
  | Star a => star_greedy a s (fun s' => k s' cs)
  | LazyStar a => star_lazy a s (fun s' => k s' cs)
  | Group name r' =>
      rmatch r' s cs (fun s' cs' => k s' ((name, consumed s s') :: cs'))
  end.

End Matcher.

(** [re.match]: the unmatched rest of the input and the groups. *)
Definition re_match (ic : bool) (r : regex) (s : string) : option (string * caps) :=
  rmatch ic r s [] (fun s' cs => Some (s', cs)).

(** [re.search]: the leftmost position at which [re.match] succeeds. *)
Fixpoint re_search (ic : bool) (r : regex) (s : string) : option (string * caps) :=
  match re_match ic r s with
  | Some m => Some m
  | None =>
      match s with
      | String _ s' => re_search ic r s'
      | EmptyString => None
      end
  end.

End Re.

(** ** [extract_json] *)

(** The pattern [```(?:json)?\s*(\{.*?\})\s*```]. *)
Definition fence_pattern : Re.regex :=
  Re.Seq (Re.lit "```")
   (Re.Seq (Re.Opt (Re.lit "json"))
     (Re.Seq (Re.Star Re.Space)
       (Re.Seq (Re.Group "1"
                  (Re.Seq (Re.Atom (Re.Chr "{"))
                     (Re.Seq (Re.LazyStar Re.Dot) (Re.Atom (Re.Chr "}")))))
          (Re.Seq (Re.Star Re.Space) (Re.lit "```"))))).

Definition extract_json (text : string) : string :=
  match text with
  | EmptyString => text
  | _ =>
      match Re.re_search true fence_pattern text with
      | Some (_, cs) =>
          match Re.group cs "1" with
          | Some g => PyStr.strip g
          | None => PyStr.strip text
          end
      | None => PyStr.strip text
      end
  end.

(** ** [int] and [float] conversions

    A Python [float] is an IEEE 754 binary64 value, modelled by [spec_float]
    with 53 bits of precision; conversions round to nearest, ties to even. *)

Module PyNum.

Definition prec : Z := 53.
Definition emax : Z := 1024.

(** The white space [int()] and [float()] skip around their argument: a
    white space character above U+007F is first turned into a blank, and then
    the C locale's blanks are stripped. *)
Definition c_isspace (c : ascii) : bool :=
  let n := nat_of_ascii c in
  ((9 <=? n) && (n <=? 13) || (n =? 32) || (n =? 133) || (n =? 160))%nat.

Definition is_underscore (c : ascii) : bool := Ascii.eqb c "_".

(** Numeric literals may group digits with single underscores: an underscore
    must have a digit on both sides.  [prev] is the previous character. *)
Fixpoint drop_underscores (prev : option ascii) (s : string) : option string :=
  match s with
  | EmptyString =>
      match prev with
      | Some p => if is_underscore p then None else Some EmptyString
      | None => Some EmptyString
      end
  | String c s' =>
      let prev_digit := match prev with Some p => PyStr.isdigit p | None => false end in
      let prev_under := match prev with Some p => is_underscore p | None => false end in
      if is_underscore c then
        if prev_digit then drop_underscores (Some c) s' else None
      else if prev_under && negb (PyStr.isdigit c) then None
      else option_map (String c) (drop_underscores (Some c) s')
  end.

(** The leading digits of [s] and what follows them. *)
Fixpoint take_digits (s : string) : string * string :=
  match s with
  | String c s' =>
      if PyStr.isdigit c then
        let (d, r) := take_digits s' in (String c d, r)
      else (EmptyString, s)
  | EmptyString => (EmptyString, EmptyString)
  end.

Fixpoint digits_value_from (acc : Z) (ds : string) : Z :=
  match ds with
  | String c ds' => digits_value_from (10 * acc + PyStr.digit_value c) ds'
  | EmptyString => acc
  end.

Definition digits_value (ds : string) : Z := digits_value_from 0 ds.

(** An optional sign: [true] for [-]. *)
Definition take_sign (s : string) : bool * string :=
  match s with
  | String "-" s' => (true, s')
  | String "+" s' => (false, s')
  | _ => (false, s)
  end.

(** [int(s)] in base 10; [None] stands for [ValueError]. *)
Definition int_of_string (s : string) : option Z :=
  match drop_underscores None (PyStr.strip_by c_isspace s) with
  | None => None
  | Some t =>
      let (neg, body) := take_sign t in
      match take_digits body with
      | (EmptyString, _) => None
      | (ds, EmptyString) => Some (if neg then - digits_value ds else digits_value ds)
      | (_, String _ _) => None
      end
  end.

(** The binary64 value nearest to [m * 10 ^ e10], for [m >= 0]. *)
Definition of_decimal (neg : bool) (m e10 : Z) : spec_float :=
  match m with
  | Zpos p =>
      if 0 <=? e10 then
        match m * 10 ^ e10 with
        | Zpos q => binary_round prec emax neg q 0
        | _ => S754_zero neg
        end
      else
        let '(q, e, l) := SFdiv_core_binary prec emax m 0 (10 ^ (- e10)) 0 in
        binary_round_aux prec emax neg q e l
  | _ => S754_zero neg
  end.

Definition lower_string (s : string) : string :=
  String.string_of_list_ascii (List.map PyStr.lower (String.list_ascii_of_string s)).

(** The decimal part of the grammar of [float()]:
    digits [. digits] [e [sign] digits], with at least one digit before the
    exponent.  The result is the mantissa and the decimal exponent. *)
Definition parse_decimal (s : string) : option (Z * Z) :=
  let (d1, r1) := take_digits s in
  let '(d2, r2) :=
    match r1 with
    | String "." r => take_digits r
    | _ => (EmptyString, r1)
    end in
  match d1 ++ d2 with
  | EmptyString => None
  | ds =>
      let m := digits_value ds in
      let frac := Z.of_nat (String.length d2) in
      match r2 with
      | EmptyString => Some (m, - frac)
      | String c r =>
          if Ascii.eqb (PyStr.lower c) "e" then
            let (eneg, r') := take_sign r in
            match take_digits r' with
            | (EmptyString, _) => None
            | (d3, EmptyString) =>
                Some (m, (if eneg then - digits_value d3 else digits_value d3) - frac)
            | (_, String _ _) => None
            end
          else None
      end
  end.

(** [float(s)] for a string; [None] stands for [ValueError]. *)
Definition float_of_string (s : string) : option spec_float :=
  match drop_underscores None (PyStr.strip_by c_isspace s) with
  | None => None
  | Some t =>
      let (neg, body) := take_sign t in
      let w := lower_string body in
      if String.eqb w "inf" || String.eqb w "infinity" then Some (S754_infinity neg)
      else if String.eqb w "nan" then Some S754_nan
      else
        match parse_decimal body with
        | Some (m, e10) => Some (of_decimal neg m e10)
        | None => None
        end
  end.

(** The binary64 value nearest to the integer [n]. *)
Definition round_int (n : Z) : spec_float := binary_normalize prec emax n 0 false.

(** [float(n)] for an [int]: integers that round beyond the largest finite
    binary64 raise. *)
Definition float_of_int (n : Z) : result spec_float :=
  match round_int n with
  | S754_infinity _ => Raise (OverflowError "int too large to convert to float")
  | f => Ok f
  end.

End PyNum.

(** ** [datetime.strptime] and [datetime.strftime]

    [strptime] compiles the format to a pattern, matches it at the start of
    the text, refuses unconverted trailing text, converts the groups and
    builds a date.  [None] stands for [ValueError]. *)

Module Datetime.

Record date : Type := mkdate { year : Z; month : Z; day : Z }.

Definition rng (lo hi : ascii) : Re.regex := Re.Atom (Re.Rng lo hi).
Definition chr (c : ascii) : Re.regex := Re.Atom (Re.Chr c).
Definition digit : Re.regex := Re.Atom Re.Digit.

(** The entries of the directive table of [_strptime.TimeRE] that the
    formats of this program use:
    [%d] is [3[0-1]|[1-2]\d|0[1-9]|[1-9]| [1-9]], [%m] is [1[0-2]|0[1-9]|[1-9]],
    [%y] is [\d\d] and [%Y] is [\d\d\d\d]. *)
Definition directive (c : ascii) : option Re.regex :=
  if Ascii.eqb c "d" then
    Some (Re.Group "d"
      (Re.Alt (Re.Seq (chr "3") (rng "0" "1"))
      (Re.Alt (Re.Seq (rng "1" "2") digit)
      (Re.Alt (Re.Seq (chr "0") (rng "1" "9"))
      (Re.Alt (rng "1" "9")
              (Re.Seq (chr " ") (rng "1" "9")))))))
  else if Ascii.eqb c "m" then
    Some (Re.Group "m"
      (Re.Alt (Re.Seq (chr "1") (rng "0" "2"))
      (Re.Alt (Re.Seq (chr "0") (rng "1" "9"))
              (rng "1" "9"))))
  else if Ascii.eqb c "y" then
    Some (Re.Group "y" (Re.Seq digit digit))
  else if Ascii.eqb c "Y" then
    Some (Re.Group "Y" (Re.Seq digit (Re.Seq digit (Re.Seq digit digit))))
  else if Ascii.eqb c "%" then
    Some (chr "%")
  else None.

(** [TimeRE.pattern]: a directive becomes its table entry, a run of white
    space becomes [\s+], any other character stands for itself.  [in_ws]
    tells that the previous character of the format was white space. *)
Fixpoint pattern_from (in_ws : bool) (fmt : string) : option Re.regex :=
  match fmt with
  | EmptyString => Some Re.Eps
  | String c rest =>
      if Ascii.eqb c "%" then
        match rest with
        | String d rest' =>
            match directive d, pattern_from false rest' with
            | Some r, Some rs => Some (Re.Seq r rs)
            | _, _ => None
            end
        | EmptyString => None
        end
      else if PyStr.isspace c then
        match pattern_from true rest with
        | Some rs =>
            Some (if in_ws then rs
                  else Re.Seq (Re.Seq (Re.Atom Re.Space) (Re.Star Re.Space)) rs)
        | None => None
        end
      else
        match pattern_from false rest with
        | Some rs => Some (Re.Seq (chr c) rs)
        | None => None
        end
  end.

Definition pattern (fmt : string) : option Re.regex := pattern_from false fmt.

Definition is_leap (y : Z) : bool :=
  (y mod 4 =? 0) && (negb (y mod 100 =? 0) || (y mod 400 =? 0)).

Definition days_in_month (y m : Z) : Z :=
  if m =? 2 then (if is_leap y then 29 else 28)
  else if (m =? 4) || (m =? 6) || (m =? 9) || (m =? 11) then 30
  else 31.

(** The checks of the [date] constructor. *)
Definition valid_date (y m d : Z) : bool :=
  (1 <=? y) && (y <=? 9999) && (1 <=? m) && (m <=? 12)
  && (1 <=? d) && (d <=? days_in_month y m).

(** The fields [_strptime] collects: the year starts unset, month and day
    start at 1. *)
Record fields : Type := mkfields { f_year : option Z; f_month : Z; f_day : Z }.

Definition set_group (acc : option fields) (g : string * string) : option fields :=
  match acc with
  | None => None
  | Some a =>
      let (key, text) := g in
      match PyNum.int_of_string text with
      | None => None
      | Some n =>
          if String.eqb key "y" then
            Some (mkfields (Some (if n <=? 68 then n + 2000 else n + 1900))
                           (f_month a) (f_day a))
          else if String.eqb key "Y" then Some (mkfields (Some n) (f_month a) (f_day a))
          else if String.eqb key "m" then Some (mkfields (f_year a) n (f_day a))
          else if String.eqb key "d" then Some (mkfields (f_year a) (f_month a) n)
          else Some a
      end
  end.

Definition strptime (data fmt : string) : option date :=
  match pattern fmt with
  | None => None
  | Some rx =>
      match Re.re_match true rx data with
      | None => None
      | Some (String _ _, _) => None           (* unconverted data remains *)
      | Some (EmptyString, cs) =>
          match fold_left set_group (rev cs) (Some (mkfields None 1 1)) with
          | None => None
          | Some a =>
              let y := match f_year a with Some y => y | None => 1900 end in
              if valid_date y (f_month a) (f_day a)
              then Some (mkdate y (f_month a) (f_day a))
              else None
          end
      end
  end.

(** A number in at least [width] digits, padded with zeros. *)
Definition zero_pad (width : nat) (n : Z) : string :=
  let s := PyStr.str_int n in
  String.concat "" (repeat "0" (width - String.length s)) ++ s.

(** [dt.strftime("%Y-%m-%d")].  The C library formats [%Y]: some pad the
    year to four digits and some do not, hence [pads_year]. *)
Definition strftime_ymd (pads_year : bool) (d : date) : string :=
  (if pads_year then zero_pad 4 (year d) else PyStr.str_int (year d))
  ++ "-" ++ zero_pad 2 (month d) ++ "-" ++ zero_pad 2 (day d).

End Datetime.

(** ** The values [json.loads] returns *)

Inductive json : Type :=
| JNull
| JBool (b : bool)
| JInt (n : Z)
| JFloat (f : spec_float)
| JStr (s : string)
| JList (l : list json)
| JObj (members : list (string * json)).

Module PyVal.

(** Truth value of an object. *)
Definition truthy (v : json) : bool :=
  match v with
  | JNull => false
  | JBool b => b
  | JInt n => negb (n =? 0)
  | JFloat (S754_zero _) => false
  | JFloat _ => true
  | JStr EmptyString => false
  | JStr _ => true
  | JList [] => false
  | JList _ => true
  | JObj [] => false
  | JObj _ => true
  end.

(** [type(v).__name__] *)
Definition type_name (v : json) : string :=
  match v with
  | JNull => "NoneType"
  | JBool _ => "bool"
  | JInt _ => "int"
  | JFloat _ => "float"
  | JStr _ => "str"
  | JList _ => "list"
  | JObj _ => "dict"
  end.

Definition is_dict (v : json) : bool :=
  match v with JObj _ => true | _ => false end.

Definition is_str (v : json) : bool :=
  match v with JStr _ => true | _ => false end.

(** A [dict] keeps its keys in insertion order. *)
Fixpoint lookup (d : list (string * json)) (k : string) : option json :=
  match d with
  | [] => None
  | (k', v) :: d' => if String.eqb k' k then Some v else lookup d' k
  end.

(** [d[k] = v]: an existing key keeps its place, a new key goes last. *)
Fixpoint store (d : list (string * json)) (k : string) (v : json) : list (string * json) :=
  match d with
  | [] => [(k, v)]
  | (k', v') :: d' =>
      if String.eqb k' k then (k', v) :: d' else (k', v') :: store d' k v
  end.

Definition no_attribute (v : json) (attr : string) : exn :=
  AttributeError ("'" ++ type_name v ++ "' object has no attribute '" ++ attr ++ "'").

(** [x.get(k, default)]; only a [dict] has the method. *)
Definition get (x : json) (k : string) (default : json) : result json :=
  match x with
  | JObj d => Ok (match lookup d k with Some v => v | None => default end)
  | _ => Raise (no_attribute x "get")
  end.

(** [k in x] for a [dict]. *)
Definition has_key (x : json) (k : string) : bool :=
  match x with
  | JObj d => match lookup d k with Some _ => true | None => false end
  | _ => false
  end.

(** [x[k] = v] for a [dict] [x]. *)
Definition setitem (x : json) (k : string) (v : json) : json :=
  match x with
  | JObj d => JObj (store d k v)
  | _ => x
  end.

Definition of_opt_str (o : option string) : json :=
  match o with Some s => JStr s | None => JNull end.

Definition of_opt_float (o : option spec_float) : json :=
  match o with Some f => JFloat f | None => JNull end.

(** [l[i]] with Python's negative indices. *)
Definition index {A : Type} (l : list A) (i : Z) : result A :=
  let n := Z.of_nat (List.length l) in
  let j := if i <? 0 then i + n else i in
  if (j <? 0) || (n <=? j) then Raise (IndexError "list index out of range")
  else
    match nth_error l (Z.to_nat j) with
    | Some x => Ok x
    | None => Raise (IndexError "list index out of range")
    end.

End PyVal.

(** ** The libraries that leave the process *)

(** [hashlib.sha256(b).hexdigest()] *)
Class Hashlib : Type := {
  sha256_hexdigest : list byte -> string }.

(** PyMuPDF: [fitz.open(stream=..., filetype="pdf")] gives the pages of the
    document or raises; [page.get_text], [page.get_pixmap], [pix.tobytes]. *)
Class Fitz : Type := {
  page : Type;
  pixmap : Type;
  fitz_open : list byte -> result (list page);
  get_text : page -> string -> option string;
  get_pixmap : page -> Z -> pixmap;
  tobytes : pixmap -> string -> list byte }.

(** Pillow: [Image.open], [Image.convert], [ImageOps.exif_transpose],
    [ImageOps.autocontrast], [Image.filter], [Image.point]. *)
Class Pillow : Type := {
  image : Type;
  image_open : list byte -> image;
  convert : image -> string -> image;
  exif_transpose : image -> image;
  autocontrast : image -> image;
  image_filter : image -> string -> image;
  point : image -> (Z -> Z) -> string -> image }.

(** [pytesseract.image_to_string(img, config=...)] *)
Class Tesseract `{Pillow} : Type := {
  image_to_string : image -> string -> string }.

(** [json.loads] *)
Class JsonDecoder : Type := {
  json_loads : string -> result json }.

(** Whether the C library's [strftime] pads [%Y] to four digits. *)
Class CLib : Type := {
  strftime_pads_year : bool }.

(** The hosted agent and its credential: the environment variable, the
    secrets file, and what
    [agent.invoke({"messages": [...]})["messages"][-1].content] evaluates to
    for a task. *)
Class AgentHost : Type := {
  env_api_key : option string;
  secrets_api_key : option string;
  agent_answer : string -> result string }.

(** ** The document store *)

Record page_record : Type := mkpage {
  pr_page : Z;
  pr_used_ocr : bool;
  pr_text : string }.

Record doc_store `{Pillow} : Type := mkstore {
  doc_id : option string;
  pages : option (list page_record);
  images : option (list image);
  full_text : option string }.

(** [DOC_STORE] as the script creates it. *)
Definition DOC_STORE `{Pillow} : doc_store :=
  {| doc_id := None; pages := None; images := None; full_text := None |}.

(** ** Helpers *)

Definition compute_doc_id `{Hashlib} (pdf_bytes : list byte) : string :=
  sha256_hexdigest pdf_bytes.

Definition page_to_image `{Fitz} `{Pillow} (p : page) (dpi : Z) : image :=
  let pix := get_pixmap p dpi in
  convert (image_open (tobytes pix "png")) "RGB".

(** [lambda x: 0 if x < 160 else 255] *)
Definition binarize (x : Z) : Z := if x <? 160 then 0 else 255.

Definition preprocess_for_ocr `{Pillow} (img : image) : image :=
  let img := exif_transpose img in
  let img := convert img "L" in
  let img := autocontrast img in
  let img := image_filter img "SHARPEN" in
  let img := point img binarize "1" in
  img.

(** [x or ""] *)
Definition or_empty (x : option string) : string :=
  match x with
  | Some (String c s) => String c s
  | _ => EmptyString
  end.

Definition extract_text_from_page `{Fitz} `{Tesseract} (p : page) (img : image)
  : string * bool :=
  let text_layer := PyStr.strip (or_empty (get_text p "text")) in
  if 30 <=? PyStr.len text_layer then (text_layer, false)
  else
    let ocr_img := preprocess_for_ocr img in
    let text := image_to_string ocr_img "--psm 6" in
    (text, true).

Definition get_anthropic_key `{AgentHost} : option string :=
  match env_api_key with
  | Some (String c k) => Some (String c k)
  | _ => secrets_api_key
  end.

Definition date_formats : list string := ["%m/%d/%y"; "%m/%d/%Y"; "%Y-%m-%d"].

(** The loop over the formats: the first format that parses returns. *)
Fixpoint first_format `{CLib} (s : string) (fmts : list string) : option string :=
  match fmts with
  | [] => None
  | fmt :: rest =>
      match Datetime.strptime s fmt with
      | Some dt => Some (Datetime.strftime_ymd strftime_pads_year dt)
      | None => first_format s rest
      end
  end.

Definition normalize_date_to_iso `{CLib} (date_str : json) : option string :=
  if negb (PyVal.truthy date_str) || negb (PyVal.is_str date_str) then None
  else
    match date_str with
    | JStr s => first_format (PyStr.strip s) date_formats
    | _ => None
    end.

(** [re.sub(r"^\$", "", s)] *)
Definition strip_dollar (s : string) : string :=
  match Re.re_match false (Re.lit "$") s with
  | Some (rest, _) => rest
  | None => s
  end.

Definition coerce_number (x : json) : result (option spec_float) :=
  match x with
  | JNull => Ok None
  | JBool b => f <- PyNum.float_of_int (if b then 1 else 0) ;; Ok (Some f)
  | JInt n => f <- PyNum.float_of_int n ;; Ok (Some f)
  | JFloat f => Ok (Some f)
  | JStr x =>
      let s := PyStr.replace_char "," "" (PyStr.strip x) in
      let s := strip_dollar s in
      Ok (PyNum.float_of_string s)
  | _ => Ok None
  end.

(** ** Tools *)

Definition no_text_error : string :=
  "ERROR: No document text loaded. Upload and process a PDF first.".

Definition no_pages_error : string :=
  "ERROR: No pages loaded. Upload and process a PDF first.".

Definition no_images_error : string :=
  "ERROR: No document images loaded. Upload and process a PDF first.".

Definition out_of_range_error (n : Z) : string :=
  "ERROR: page_number out of range. Must be 1.." ++ PyStr.str_int n.

Definition list_len {A : Type} (l : list A) : Z := Z.of_nat (List.length l).

Definition get_full_text `{Pillow} (store : doc_store) : string :=
  match full_text store with
  | Some (String c t) =>
      match PyStr.strip (String c t) with
      | String _ _ => String c t
      | EmptyString => no_text_error
      end
  | _ => no_text_error
  end.

Definition get_page_text `{Pillow} (store : doc_store) (page_number : Z)
  : result string :=
  match pages store with
  | None | Some [] => Ok no_pages_error
  | Some pages =>
      if (page_number <? 1) || (list_len pages <? page_number)
      then Ok (out_of_range_error (list_len pages))
      else r <- PyVal.index pages (page_number - 1) ;; Ok (pr_text r)
  end.

Definition ocr_page `{Tesseract} (store : doc_store) (page_number : Z)
  : result string :=
  match images store with
  | None | Some [] => Ok no_images_error
  | Some images =>
      if (page_number <? 1) || (list_len images <? page_number)
      then Ok (out_of_range_error (list_len images))
      else
        img <- PyVal.index images (page_number - 1) ;;
        let ocr_img := preprocess_for_ocr img in
        Ok (image_to_string ocr_img "--psm 6")
  end.

Definition build_agent `{AgentHost} : result (string -> result string) :=
  match get_anthropic_key with
  | Some (String _ _) => Ok agent_answer
  | _ =>
      Raise (RuntimeError
        "ANTHROPIC_API_KEY not set. Set it as an environment variable or in .streamlit/secrets.toml")
  end.

(** ** The upload handler

    The handler is a transition on the store it finds; next to the new store
    it reports which pages it rendered and which it sent to the OCR engine. *)

Inductive event : Type :=
| Rendered (page_number : Z) (dpi : Z)
| Recognised (page_number : Z).

Record loop_state `{Pillow} : Type := mkloop {
  ls_pages : list page_record;
  ls_images : list image;
  ls_parts : list string;
  ls_trace : list event }.

Definition loop_body `{Fitz} `{Tesseract} (dpi : Z) (acc : loop_state)
  (ip : Z * page) : loop_state :=
  let (i, p) := ip in
  let img := page_to_image p dpi in
  let (text, used_ocr) := extract_text_from_page p img in
  {| ls_images := ls_images acc ++ [img];
     ls_pages := ls_pages acc ++ [mkpage (i + 1) used_ocr text];
     ls_parts := ls_parts acc ++ [text];
     ls_trace := ls_trace acc ++ Rendered (i + 1) dpi
                   :: (if used_ocr then [Recognised (i + 1)] else []) |}.

(** The pairs [(i, doc[i])] for [i in range(len(doc))]. *)
Fixpoint enumerate_from {A : Type} (i : Z) (l : list A) : list (Z * A) :=
  match l with
  | [] => []
  | x :: l' => (i, x) :: enumerate_from (i + 1) l'
  end.

Definition process_pages `{Fitz} `{Tesseract} (doc : list page) (dpi : Z)
  : loop_state :=
  fold_left (loop_body dpi) (enumerate_from 0 doc)
    {| ls_pages := []; ls_images := []; ls_parts := []; ls_trace := [] |}.

Definition opt_string_eqb (a b : option string) : bool :=
  match a, b with
  | Some x, Some y => String.eqb x y
  | None, None => true
  | _, _ => false
  end.

Definition is_none {A : Type} (o : option A) : bool :=
  match o with None => true | Some _ => false end.

Definition upload `{Hashlib} `{Fitz} `{Tesseract} (store : doc_store)
  (pdf_bytes : list byte) (dpi : Z) : result (doc_store * list event) :=
  let id := compute_doc_id pdf_bytes in
  if negb (opt_string_eqb (doc_id store) (Some id)) || is_none (pages store) then
    doc <- fitz_open pdf_bytes ;;
    let done := process_pages doc dpi in
    Ok ({| doc_id := Some id;
           pages := Some (ls_pages done);
           images := Some (ls_images done);
           full_text := Some (PyStr.join (PyStr.nl ++ PyStr.nl) (ls_parts done)) |},
        ls_trace done)
  else Ok (store, []).

(** The stores the handler can leave behind, starting from [DOC_STORE]. *)
Inductive reachable `{Hashlib} `{Fitz} `{Tesseract} : doc_store -> Prop :=
| reach_init : reachable DOC_STORE
| reach_upload store pdf_bytes dpi store' trace :
    reachable store ->
    upload store pdf_bytes dpi = Ok (store', trace) ->
    reachable store'.

(** ** The extraction run: parse, normalise, report *)

(** [if node and node.get("value") and not node.get("value_iso"):
       node["value_iso"] = normalize_date_to_iso(node.get("value"))].
    The result is the object [node] after the statement. *)
Definition fill_iso `{CLib} (node : json) : result json :=
  if negb (PyVal.truthy node) then Ok node
  else
    v <- PyVal.get node "value" JNull ;;
    if negb (PyVal.truthy v) then Ok node
    else
      iso <- PyVal.get node "value_iso" JNull ;;
      if PyVal.truthy iso then Ok node
      else
        v' <- PyVal.get node "value" JNull ;;
        Ok (PyVal.setitem node "value_iso"
              (PyVal.of_opt_str (normalize_date_to_iso v'))).

(** [if isinstance(node, dict): node["value"] = coerce_number(node.get("value"))] *)
Definition coerce_value (node : json) : result json :=
  if PyVal.is_dict node then
    v <- PyVal.get node "value" JNull ;;
    c <- coerce_number v ;;
    Ok (PyVal.setitem node "value" (PyVal.of_opt_float c))
  else Ok node.

(** The nodes are updated in place: when [k] is a key of [f], the object
    [f[k]] is the one the statement changed, and [f] shows the change.  When
    [k] is missing, [f.get(k, {})] made a fresh object that [f] does not hold. *)
Definition updated (f : json) (k : string) (node : json) : json :=
  if PyVal.has_key f k then PyVal.setitem f k node else f.

(** [for k in (...): node = f.get(k); ...]: the mapping [f] as the loop
    leaves it, and the exception that stopped it, if any. *)
Fixpoint coerce_loop (ks : list string) (f : json) : json * option exn :=
  match ks with
  | [] => (f, None)
  | k :: ks' =>
      match PyVal.get f k JNull with
      | Raise e => (f, Some e)
      | Ok node =>
          match coerce_value node with
          | Raise e => (f, Some e)
          | Ok node' => coerce_loop ks' (updated f k node')
          end
      end
  end.

Definition normalize_fields `{CLib} (f : json) : json * option exn :=
  match PyVal.get f "invoice_date" (JObj []) with
  | Raise e => (f, Some e)
  | Ok inv =>
  match PyVal.get f "due_date" (JObj []) with
  | Raise e => (f, Some e)
  | Ok due =>
  match fill_iso inv with
  | Raise e => (f, Some e)
  | Ok inv' =>
  let f := updated f "invoice_date" inv' in
  match fill_iso due with
  | Raise e => (f, Some e)
  | Ok due' =>
  let f := updated f "due_date" due' in
  coerce_loop ["tax"; "total"; "balance_due"] f
  end end end end.

(** The post-normalisation block, from [f = extracted_fields.get("fields", {})]
    to [extracted_fields["fields"] = f]: the object [extracted_fields] as the
    block leaves it, and the exception that stopped it, if any. *)
Definition normalize_output `{CLib} (extracted_fields : json) : json * option exn :=
  match PyVal.get extracted_fields "fields" (JObj []) with
  | Raise e => (extracted_fields, Some e)
  | Ok f =>
      match normalize_fields f with
      | (f', Some e) => (updated extracted_fields "fields" f', Some e)
      | (f', None) => (PyVal.setitem extracted_fields "fields" f', None)
      end
  end.

Record run_result : Type := mkrun {
  extracted_fields : json;
  agent_output_text : option string;
  error_msg : option string }.

Definition invalid_json_error : string :=
  "Claude did not return valid JSON. See agent_output_raw for details.".

(** The two handlers: [except json.JSONDecodeError] and [except Exception]. *)
Definition handler (e : exn) : string :=
  match e with
  | JSONDecodeError _ => invalid_json_error
  | _ => str_exn e
  end.

Definition extraction_run `{AgentHost} `{JsonDecoder} `{CLib}
  (run : bool) (task : string) : run_result :=
  if run then
    match build_agent with
    | Raise e => mkrun (JObj []) None (Some (handler e))
    | Ok agent =>
        match agent task with
        | Raise e => mkrun (JObj []) None (Some (handler e))
        | Ok text =>
            match json_loads (extract_json text) with
            | Raise e => mkrun (JObj []) (Some text) (Some (handler e))
            | Ok parsed =>
                match normalize_output parsed with
                | (fields, Some e) => mkrun fields (Some text) (Some (handler e))
                | (fields, None) => mkrun fields (Some text) None
                end
            end
        end
    end
  else mkrun (JObj []) None None.

Definition CLAUDE_SONNET_MODEL : string := "claude-sonnet-4-5".

Record payload : Type := mkpayload {
  out_text : option string;
  out_pages : option (list page_record);
  out_extraction : json;
  out_agent_output_raw : option string;
  out_error : option string;
  out_llm_provider : string;
  out_llm_model : string;
  out_llm_temperature : spec_float }.

Definition final_payload `{Pillow} (store : doc_store) (r : run_result)
  (temperature : spec_float) : payload :=
  {| out_text := full_text store;
     out_pages := pages store;
     out_extraction := extracted_fields r;
     out_agent_output_raw := agent_output_text r;
     out_error := error_msg r;
     out_llm_provider := "anthropic";
     out_llm_model := CLAUDE_SONNET_MODEL;
     out_llm_temperature := temperature |}.

(** The agent answer [```json\n<inner>\n```]. *)
Definition fenced (inner : string) : string :=
  "```json" ++ PyStr.nl ++ inner ++ PyStr.nl ++ "```".

(** ** Instances of the interfaces, to run the model on concrete inputs *)

(** A decoder for the JSON grammar as [json.loads] reads it ([NaN] and
    [Infinity] included), on the text domain of this development.  A [\u]
    escape above U+00FF leaves that domain and is reported as an error of
    the instance; the length limit of integer literals is not modelled. *)
Module JsonText.

Definition is_ws (c : ascii) : bool :=
  let n := nat_of_ascii c in ((n =? 32) || (n =? 9) || (n =? 10) || (n =? 13))%nat.

Fixpoint skip_ws (s : string) : string :=
  match s with
  | String c s' => if is_ws c then skip_ws s' else s
  | EmptyString => EmptyString
  end.

Definition fail {A : Type} (msg : string) : result A := Raise (JSONDecodeError msg).

Definition hex_value (c : ascii) : option nat :=
  let n := nat_of_ascii c in
  if ((48 <=? n) && (n <=? 57))%nat then Some (n - 48)%nat
  else if ((65 <=? n) && (n <=? 70))%nat then Some (n - 55)%nat
  else if ((97 <=? n) && (n <=? 102))%nat then Some (n - 87)%nat
  else None.

Definition hex4 (a b c d : ascii) : option nat :=
  match hex_value a, hex_value b, hex_value c, hex_value d with
  | Some x, Some y, Some z, Some w => Some (((x * 16 + y) * 16 + z) * 16 + w)%nat
  | _, _, _, _ => None
  end.

Definition simple_escape (c : ascii) : option ascii :=
  if Ascii.eqb c "034" then Some "034"%char
  else if Ascii.eqb c "\" then Some "\"%char
  else if Ascii.eqb c "/" then Some "/"%char
  else if Ascii.eqb c "b" then Some "008"%char
  else if Ascii.eqb c "f" then Some "012"%char
  else if Ascii.eqb c "n" then Some "010"%char
  else if Ascii.eqb c "r" then Some "013"%char
  else if Ascii.eqb c "t" then Some "009"%char
  else None.

(** The body of a string literal, after its opening quote. *)
Fixpoint scan_string (s : string) : result (string * string) :=
  match s with
  | EmptyString => fail "Unterminated string starting at"
  | String c r =>
      if Ascii.eqb c "034" then Ok (EmptyString, r)
      else if Ascii.eqb c "\" then
        match r with
        | String "u" (String h1 (String h2 (String h3 (String h4 r')))) =>
            match hex4 h1 h2 h3 h4 with
            | Some n =>
                if (n <? 256)%nat then
                  p <- scan_string r' ;;
                  Ok (String (ascii_of_nat n) (fst p), snd p)
                else Raise (OtherException "escape above U+00FF")
            | None => fail "Invalid \uXXXX escape"
            end
        | String e r' =>
            match simple_escape e with
            | Some x => p <- scan_string r' ;; Ok (String x (fst p), snd p)
            | None => fail "Invalid \escape"
            end
        | EmptyString => fail "Unterminated string starting at"
        end
      else if (nat_of_ascii c <? 32)%nat then fail "Invalid control character at"
      else p <- scan_string r ;; Ok (String c (fst p), snd p)
  end.

(** A number literal: an optional minus, then 0 or a digit string that does
    not start with 0, then an optional fraction (a dot and digits) and an
    optional exponent (e or E, an optional sign, digits). *)
Definition scan_number (s : string) : option (json * string) :=
  let (sign, r0) :=
    match s with String "-" r => ("-", r) | _ => (EmptyString, s) end in
  let int_part :=
    match r0 with
    | String "0" r => Some ("0", r)
    | _ => match PyNum.take_digits r0 with
           | (EmptyString, _) => None
           | (ds, r) => Some (ds, r)
           end
    end in
  match int_part with
  | None => None
  | Some (ds, r1) =>
      let '(frac, r2) :=
        match r1 with
        | String "." r =>
            match PyNum.take_digits r with
            | (EmptyString, _) => (EmptyString, r1)
            | (fs, r') => ("." ++ fs, r')
            end
        | _ => (EmptyString, r1)
        end in
      let '(expo, r3) :=
        match r2 with
        | String c r =>
            if Ascii.eqb (PyStr.lower c) "e" then
              let '(sg, r') :=
                match r with
                | String "-" t => ("-", t)
                | String "+" t => ("+", t)
                | _ => (EmptyString, r)
                end in
              match PyNum.take_digits r' with
              | (EmptyString, _) => (EmptyString, r2)
              | (es, r'') => (String c sg ++ es, r'')
              end
            else (EmptyString, r2)
        | EmptyString => (EmptyString, r2)
        end in
      match frac ++ expo with
      | EmptyString =>
          let n := PyNum.digits_value ds in
          Some (JInt (if String.eqb sign "-" then - n else n), r3)
      | _ =>
          match PyNum.float_of_string (sign ++ ds ++ frac ++ expo) with
          | Some f => Some (JFloat f, r3)
          | None => None
          end
      end
  end.

(** [dict(pairs)]: a repeated key keeps its first place and its last value. *)
Definition dict_of_pairs (ps : list (string * json)) : list (string * json) :=
  fold_left (fun d kv => PyVal.store d (fst kv) (snd kv)) ps [].

Definition expect_prefix (p : string) (v : json) (s : string)
  : result (json * string) :=
  if PyStr.starts_with p s
  then Ok (v, String.substring (String.length p) (String.length s - String.length p) s)
  else fail "Expecting value".

Fixpoint scan_value (fuel : nat) (s : string) : result (json * string) :=
  match fuel with
  | O => Raise (OtherException "out of fuel")
  | S n =>
      match s with
      | String "034" r => p <- scan_string r ;; Ok (JStr (fst p), snd p)
      | String "{" r =>
          match skip_ws r with
          | String "}" r' => Ok (JObj [], r')
          | r' => p <- scan_members n r' [] ;; Ok (JObj (dict_of_pairs (fst p)), snd p)
          end
      | String "[" r =>
          match skip_ws r with
          | String "]" r' => Ok (JList [], r')
          | r' => p <- scan_elements n r' [] ;; Ok (JList (fst p), snd p)
          end
      | String "n" _ => expect_prefix "null" JNull s
      | String "t" _ => expect_prefix "true" (JBool true) s
      | String "f" _ => expect_prefix "false" (JBool false) s
      | String "N" _ => expect_prefix "NaN" (JFloat S754_nan) s
      | String "I" _ => expect_prefix "Infinity" (JFloat (S754_infinity false)) s
      | _ =>
          if PyStr.starts_with "-Infinity" s
          then expect_prefix "-Infinity" (JFloat (S754_infinity true)) s
          else
            match scan_number s with
            | Some p => Ok p
            | None => fail "Expecting value"
            end
      end
  end
with scan_elements (fuel : nat) (s : string) (acc : list json)
  : result (list json * string) :=
  match fuel with
  | O => Raise (OtherException "out of fuel")
  | S n =>
      p <- scan_value n s ;;
      let acc := (acc ++ [fst p])%list in
      match skip_ws (snd p) with
      | String "]" r => Ok (acc, r)
      | String "," r => scan_elements n (skip_ws r) acc
      | _ => fail "Expecting ',' delimiter"
      end
  end
with scan_members (fuel : nat) (s : string) (acc : list (string * json))
  : result (list (string * json) * string) :=
  match fuel with
  | O => Raise (OtherException "out of fuel")
  | S n =>
      match s with
      | String "034" r =>
          k <- scan_string r ;;
          match skip_ws (snd k) with
          | String ":" r' =>
              p <- scan_value n (skip_ws r') ;;
              let acc := (acc ++ [(fst k, fst p)])%list in
              match skip_ws (snd p) with
              | String "}" r'' => Ok (acc, r'')
              | String "," r'' => scan_members n (skip_ws r'') acc
              | _ => fail "Expecting ',' delimiter"
              end
          | _ => fail "Expecting ':' delimiter"
          end
      | _ => fail "Expecting property name enclosed in double quotes"
      end
  end.

Definition loads (s : string) : result json :=
  p <- scan_value (2 * String.length s + 2) (skip_ws s) ;;
  match skip_ws (snd p) with
  | EmptyString => Ok (fst p)
  | String _ _ => fail "Extra data"
  end.

End JsonText.

#[export] Instance json_text : JsonDecoder := {| json_loads := JsonText.loads |}.

(** Small stand-ins for the remaining services.  A sample document is the
    magic [%PDF] followed by the text layers of its pages, separated by form
    feeds; a page is rendered to the bytes of its text layer; the sample OCR
    engine prints one mark per pixel.  The sample digest is the hexadecimal
    dump of the bytes, and the sample agent answers with the task text. *)
Module Sample.

Definition hex_digit (n : N) : ascii :=
  ascii_of_N (if (n <? 10)%N then 48 + n else 87 + n)%N.

Definition hex_dump (bs : list byte) : string :=
  String.string_of_list_ascii
    (flat_map (fun b => let n := Byte.to_N b in
                        [hex_digit (n / 16)%N; hex_digit (n mod 16)%N]) bs).

Fixpoint split_pages (bs : list byte) (cur : string) : list string :=
  match bs with
  | [] => [cur]
  | b :: bs' =>
      if Byte.eqb b x0c then cur :: split_pages bs' EmptyString
      else split_pages bs' (cur ++ String (ascii_of_byte b) EmptyString)
  end.

Definition open_pdf (bs : list byte) : result (list string) :=
  match bs with
  | x25 :: x50 :: x44 :: x46 :: rest => Ok (split_pages rest EmptyString)
  | _ => Raise (OtherException "Failed to open stream")
  end.

Definition pdf (content : string) : list byte :=
  String.list_byte_of_string ("%PDF" ++ content).

End Sample.

#[export] Instance sample_hashlib : Hashlib :=
  {| sha256_hexdigest := Sample.hex_dump |}.

#[export] Instance sample_fitz : Fitz :=
  {| page := string;
     pixmap := string;
     fitz_open := Sample.open_pdf;
     get_text := fun p _ => Some p;
     get_pixmap := fun p _ => p;
     tobytes := fun pix _ => String.list_byte_of_string pix |}.

#[export] Instance sample_pillow : Pillow :=
  {| image := list Z;
     image_open := List.map (fun b => Z.of_N (Byte.to_N b));
     convert := fun img _ => img;
     exif_transpose := fun img => img;
     autocontrast := fun img => img;
     image_filter := fun img _ => img;
     point := fun img f _ => List.map f img |}.

#[export] Instance sample_tesseract : Tesseract :=
  {| image_to_string := fun img _ =>
       String.concat "" (List.map (fun x => if x =? 0 then "#" else ".") img) |}.

#[export] Instance sample_clib : CLib := {| strftime_pads_year := false |}.

#[export] Instance sample_agent : AgentHost :=
  {| env_api_key := Some "sk-ant-sample";
     secrets_api_key := None;
     agent_answer := fun task => Ok task |}.

(** ** Vocabulary of the statements *)

(** [x["fields"][field][attr]], when every step is a key of a [dict]. *)
Definition member (x : json) (k : string) : option json :=
  match x with
  | JObj d => PyVal.lookup d k
  | _ => None
  end.


Definition is_date_field (k : string) : bool :=
  String.eqb k "invoice_date" || String.eqb k "due_date".

Definition is_number_field (k : string) : bool :=
  String.eqb k "tax" || String.eqb k "total" || String.eqb k "balance_due".

Definition date_fields : list string := ["invoice_date"; "due_date"].
Definition number_fields : list string := ["tax"; "total"; "balance_due"].

(** The statement the block applies to the node at key [k]. *)
Definition node_fix `{CLib} (k : string) : json -> result json :=
  if is_date_field k then fill_iso else coerce_value.

(** The node at key [k] before and after: a node that is there is replaced
    by what its statement makes of it, a missing one stays missing. *)
Definition node_normalised `{CLib} (k : string) (before after : option json) : Prop :=
  match before with
  | Some node => exists node', after = Some node' /\ node_fix k node = Ok node'
  | None => after = None
  end.

(** The mapping [fi] is [f] with the keys in [done] normalised and every
    other key as it was. *)
Definition fields_inv `{CLib} (done : list string) (f fi : json) : Prop :=
  forall k,
    (In k done -> node_normalised k (member f k) (member fi k))
    /\ (~ In k done -> member fi k = member f k).

(** The text after white space starts with a closing fence. *)
Definition closes_fence (s : string) : bool :=
  PyStr.starts_with "```" (PyStr.lstrip_by PyStr.isspace s).

(** No closing brace inside [body] is followed by optional white space and a
    fence, in the object [{body}] written before [tail]. *)
Fixpoint no_early_close (body tail : string) : bool :=
  match body with
  | EmptyString => true
  | String c q =>
      (if Ascii.eqb c "}" then negb (closes_fence (q ++ tail)) else true)
      && no_early_close q tail
  end.

(** The store an upload of the pages [doc] builds. *)
Definition fresh_store `{Hashlib} `{Fitz} `{Tesseract} (pdf_bytes : list byte)
  (doc : list page) (dpi : Z) : doc_store :=
  let done := process_pages doc dpi in
  {| doc_id := Some (compute_doc_id pdf_bytes);
     pages := Some (ls_pages done);
     images := Some (ls_images done);
     full_text := Some (PyStr.join (PyStr.nl ++ PyStr.nl) (ls_parts done)) |}.

(** What the loop stores for page [i] (0-based) of the document. *)
Definition page_entry `{Fitz} `{Tesseract} (dpi : Z) (ip : Z * page) : page_record :=
  let r := extract_text_from_page (snd ip) (page_to_image (snd ip) dpi) in
  mkpage (fst ip + 1) (snd r) (fst r).

(** What the loop reports for page [i] (0-based) of the document. *)
Definition page_trace `{Fitz} `{Tesseract} (dpi : Z) (ip : Z * page) : list event :=
  Rendered (fst ip + 1) dpi
    :: (if pr_used_ocr (page_entry dpi ip) then [Recognised (fst ip + 1)] else []).

(** The largest finite binary64 is [2^1024 - 2^971]; integers below
    [2^1024 - 2^970] in magnitude round to a finite value. *)
Definition fits_float (n : Z) : bool :=
  match PyNum.round_int n with
  | S754_infinity _ => false
  | _ => true
  end.

(** ** Sample inputs *)

Module Example.

Definition form_feed : string := String "012"%char EmptyString.

(** A text layer with a leading blank, 34 characters long once trimmed. *)
Definition padded_layer : string := " Invoice 0001 for ACME Corporation".

Definition padded_page : page := padded_layer.

Definition no_pixels : image := [].

(** The pages of [two_pages] and of [blank_page] below. *)
Definition two_pages_doc : list page :=
  ["Invoice 0001 for ACME Corporation, total due"; "x"].

Definition blank_page_doc : list page := [""].

(** Two pages: a text page and a page whose text layer is too short. *)
Definition two_pages : list byte :=
  Sample.pdf ("Invoice 0001 for ACME Corporation, total due" ++ form_feed ++ "x").

(** One page without any text, on which the sample OCR finds nothing. *)
Definition blank_page : list byte := Sample.pdf "".

Definition key (name : string) : string := PyStr.dq ++ name ++ PyStr.dq.

(** The object [{"a":"}```"}]. *)
Definition brace_in_string : string :=
  "{" ++ key "a" ++ ":" ++ key "}```" ++ "}".


(** [{"fields": {"invoice_date": {"value": "03/15/24", "value_iso": null},
                 "tax": {"value": 42, "evidence": "Tax 42"}}}] *)
Definition small_invoice : json :=
  JObj [("fields",
         JObj [("invoice_date", JObj [("value", JStr "03/15/24"); ("value_iso", JNull)]);
               ("tax", JObj [("value", JInt 42); ("evidence", JStr "Tax 42")])])].

End Example.

(** ** The page preview

    The loop [for p in pages: i = p["page"] - 1; ... images[i] ...] of the
    main script, as the rows it hands to the page: the image, its caption,
    the heading and the label and content of the text area. *)

(** [str(b)] for a [bool]. *)
Definition str_bool (b : bool) : string := if b then "True" else "False".

Record preview_row `{Pillow} : Type := mkrow {
  row_image : image;
  row_caption : string;
  row_heading : string;
  row_label : string;
  row_text : string }.

Fixpoint preview_loop `{Pillow} (pages : list page_record)
  (images : option (list image)) : result (list preview_row) :=
  match pages with
  | [] => Ok []
  | p :: rest =>
      let i := pr_page p - 1 in
      img <- match images with
             | Some l => PyVal.index l i
             | None => Raise (OtherException "'NoneType' object is not subscriptable")
             end ;;
      rows <- preview_loop rest images ;;
      Ok ({| row_image := img;
             row_caption := "Page " ++ PyStr.str_int (pr_page p);
             row_heading := "**Text (used OCR: " ++ str_bool (pr_used_ocr p) ++ ")**";
             row_label := "Extracted Text Page " ++ PyStr.str_int (pr_page p);
             row_text := pr_text p |} :: rows)
  end.

Definition preview `{Pillow} (store : doc_store) : result (list preview_row) :=
  match pages store with
  | Some ps => preview_loop ps (images store)
  | None => Raise (OtherException "'NoneType' object is not iterable")
  end.

(** ** Further vocabulary *)

(** The row the preview shows for page [i] (0-based) of a document. *)
Definition preview_entry `{Fitz} `{Tesseract} (dpi : Z) (ip : Z * page) : preview_row :=
  let r := page_entry dpi ip in
  {| row_image := page_to_image (snd ip) dpi;
     row_caption := "Page " ++ PyStr.str_int (pr_page r);
     row_heading := "**Text (used OCR: " ++ str_bool (pr_used_ocr r) ++ ")**";
     row_label := "Extracted Text Page " ++ PyStr.str_int (pr_page r);
     row_text := pr_text r |}.

(** The page numbers [1, 2, ..., n]. *)
Definition page_numbers (n : nat) : list Z := List.map Z.of_nat (seq 1 n).


(** A host without a key: the variable is set but empty and there is no
    secrets file. *)
Definition keyless_agent : AgentHost :=
  {| env_api_key := Some EmptyString;
     secrets_api_key := None;
     agent_answer := fun task => Ok task |}.


(** Some closing brace of the text is followed by optional white space and
    three backquotes. *)
Fixpoint has_close (s : string) : bool :=
  match s with
  | String c q => (Ascii.eqb c "}" && closes_fence q) || has_close q
  | EmptyString => false
  end.

(** The fence pattern from the object on: [(\{.*?\})\s*```]. *)
Definition object_group : Re.regex :=
  Re.Seq (Re.Group "1"
            (Re.Seq (Re.Atom (Re.Chr "{"))
               (Re.Seq (Re.LazyStar Re.Dot) (Re.Atom (Re.Chr "}")))))
    (Re.Seq (Re.Star Re.Space) (Re.lit "```")).

Fixpoint no_backquote (s : string) : bool :=
  match s with
  | String c s' => negb (Ascii.eqb c "`") && no_backquote s'
  | EmptyString => true
  end.

Fixpoint all_space (s : string) : bool :=
  match s with
  | String c s' => PyStr.isspace c && all_space s'
  | EmptyString => true
  end.

(** The language tag of a fence: none, or [json] in any case. *)
Definition is_json_tag (lang : string) : bool :=
  String.eqb lang "" || String.eqb (PyNum.lower_string lang) "json".

(** Renderings of a date: [MM/DD/YY], [MM/DD/YYYY] and [YYYY-MM-DD]. *)
Definition mdy_short (y m d : Z) : string :=
  Datetime.zero_pad 2 m ++ "/" ++ Datetime.zero_pad 2 d ++ "/"
  ++ Datetime.zero_pad 2 (y mod 100).

Definition mdy_long (y m d : Z) : string :=
  Datetime.zero_pad 2 m ++ "/" ++ Datetime.zero_pad 2 d ++ "/"
  ++ Datetime.zero_pad 4 y.

Definition iso_date (y m d : Z) : string :=
  Datetime.zero_pad 4 y ++ "-" ++ Datetime.zero_pad 2 m ++ "-"
  ++ Datetime.zero_pad 2 d.

(** The decimal digits, and the character of a digit. *)
Definition digits10 : list Z := [0; 1; 2; 3; 4; 5; 6; 7; 8; 9].

Definition digit_char (a : Z) : ascii := ascii_of_N (Z.to_N (48 + a)).

(** [zero_pad 2] writes [10 a + b] as the digits [a b], which [int] reads
    back. *)
Definition two_digit_ok (a b : Z) : bool :=
  let n := 10 * a + b in
  let s := String (digit_char a) (String (digit_char b) EmptyString) in
  String.eqb (Datetime.zero_pad 2 n) s
  && match PyNum.int_of_string s with Some k => k =? n | None => false end.

(** [zero_pad 4] writes [1000 a + 100 b + 10 c + d] as the digits [a b c d],
    which [int] reads back; from 1000 on [str] writes the same four digits. *)
Definition four_digit_ok (a b c d : Z) : bool :=
  let n := 1000 * a + 100 * b + 10 * c + d in
  let s := String (digit_char a) (String (digit_char b)
             (String (digit_char c) (String (digit_char d) EmptyString))) in
  String.eqb (Datetime.zero_pad 4 n) s
  && match PyNum.int_of_string s with Some k => k =? n | None => false end
  && ((n <? 1000) || String.eqb (PyStr.str_int n) s).

(** [str] writes a number below 1000 in at most three digits. *)
Definition three_digit_ok (a b c : Z) : bool :=
  (String.length (PyStr.str_int (100 * a + 10 * b + c)) <=? 3)%nat.

(** ** The library calls of a run

    The upload handler once more, with the calls to PyMuPDF's renderer and to
    the OCR engine logged where the code makes them: [page.get_pixmap] in
    [page_to_image], [pytesseract.image_to_string] in the OCR branch of
    [extract_text_from_page].  A value comes with the calls made to compute
    it, in order. *)

Inductive call `{Fitz} `{Pillow} : Type :=
| GetPixmap (p : page) (dpi : Z)
| ImageToString (img : image) (config : string).

Module Logged.

Section Calls.

Context `{Hashlib} `{Fitz} `{Tesseract}.

Definition page_to_image (p : page) (dpi : Z) : image * list call :=
  let pix := get_pixmap p dpi in
  (convert (image_open (tobytes pix "png")) "RGB", [GetPixmap p dpi]).

Definition extract_text_from_page (p : page) (img : image)
  : (string * bool) * list call :=
  let text_layer := PyStr.strip (or_empty (get_text p "text")) in
  if 30 <=? PyStr.len text_layer then ((text_layer, false), [])
  else
    let ocr_img := preprocess_for_ocr img in
    let text := image_to_string ocr_img "--psm 6" in
    ((text, true), [ImageToString ocr_img "--psm 6"]).

Record loop_state : Type := mkloop {
  ls_pages : list page_record;
  ls_images : list image;
  ls_parts : list string;
  ls_calls : list call }.

Definition loop_body (dpi : Z) (acc : loop_state) (ip : Z * page) : loop_state :=
  let (i, p) := ip in
  let (img, rendering) := page_to_image p dpi in
  let (extracted, recognition) := extract_text_from_page p img in
  let (text, used_ocr) := extracted in
  {| ls_images := ls_images acc ++ [img];
     ls_pages := ls_pages acc ++ [mkpage (i + 1) used_ocr text];
     ls_parts := ls_parts acc ++ [text];
     ls_calls := ls_calls acc ++ rendering ++ recognition |}.

Definition process_pages (doc : list page) (dpi : Z) : loop_state :=
  fold_left (loop_body dpi) (enumerate_from 0 doc)
    {| ls_pages := []; ls_images := []; ls_parts := []; ls_calls := [] |}.

(** Lines 198-221 on the store they find. *)
Definition upload (store : doc_store) (pdf_bytes : list byte) (dpi : Z)
  : result (doc_store * list call) :=
  let id := compute_doc_id pdf_bytes in
  if negb (opt_string_eqb (doc_id store) (Some id)) || is_none (pages store) then
    doc <- fitz_open pdf_bytes ;;
    let done := process_pages doc dpi in
    Ok ({| doc_id := Some id;
           pages := Some (ls_pages done);
           images := Some (ls_images done);
           full_text := Some (PyStr.join (PyStr.nl ++ PyStr.nl) (ls_parts done)) |},
        ls_calls done)
  else Ok (store, []).

(** One run of the script.  The host executes the script from its first
    line on every interaction, so each run executes line 37, which binds
    [DOC_STORE] to a new dict, before it reaches line 198; the store that the
    run before left behind, [left_behind], is not the one the handler finds.
    [uploaded] is the value of the file uploader: [None], or a file with its
    bytes. *)
Definition script_run (left_behind : doc_store)
  (uploaded : option (list byte)) (dpi : Z) : result (doc_store * list call) :=
  let store := DOC_STORE in
  match uploaded with
  | Some pdf_bytes => upload store pdf_bytes dpi
  | None => Ok (store, [])
  end.

End Calls.

End Logged.

(** The calls the loop makes for one page. *)
Definition page_calls `{Fitz} `{Tesseract} (dpi : Z) (p : page) : list call :=
  GetPixmap p dpi
    :: (if 30 <=? PyStr.len (PyStr.strip (or_empty (get_text p "text"))) then []
        else [ImageToString (preprocess_for_ocr (page_to_image p dpi)) "--psm 6"]).

Definition is_get_pixmap `{Fitz} `{Pillow} (c : call) : bool :=
  match c with GetPixmap _ _ => true | ImageToString _ _ => false end.

(** ** The Output Normalizer as its statement describes it

    These definitions follow the words of the statement, not the code: what a
    date step and a numeric step make of a node, and the fields after the
    steps in [done]. *)


(** [node.get(k)] for an object with the entries [d]. *)
Definition attr (d : list (string * json)) (k : string) : json :=
  match PyVal.lookup d k with Some v => v | None => JNull end.








(** * Properties *)

(** ** Dates *)

Section Dates.

Context `{CLib}.

Lemma first_format_nil (s : string) : first_format s [] = None.
Proof. reflexivity. Qed.

Lemma first_format_cons (s fmt : string) (rest : list string) :
  first_format s (fmt :: rest) =
  match Datetime.strptime s fmt with
  | Some dt => Some (Datetime.strftime_ymd strftime_pads_year dt)
  | None => first_format s rest
  end.
Proof. reflexivity. Qed.

Lemma strftime_2024_03_15 :
  Datetime.strftime_ymd strftime_pads_year (Datetime.mkdate 2024 3 15) = "2024-03-15".
Proof. destruct strftime_pads_year; reflexivity. Qed.

(** The loop over the formats, the values that are not strings, and three
    texts: the formats are tried in the order MM/DD/YY, MM/DD/YYYY, YYYY-MM-DD
    on the trimmed text, and what is returned is [strftime]'s rendering of the
    first parse. *)
Theorem normalize_date_to_iso_spec :
  (forall s : string,
     normalize_date_to_iso (JStr s) =
     match Datetime.strptime (PyStr.strip s) "%m/%d/%y" with
     | Some dt => Some (Datetime.strftime_ymd strftime_pads_year dt)
     | None =>
         match Datetime.strptime (PyStr.strip s) "%m/%d/%Y" with
         | Some dt => Some (Datetime.strftime_ymd strftime_pads_year dt)
         | None =>
             match Datetime.strptime (PyStr.strip s) "%Y-%m-%d" with
             | Some dt => Some (Datetime.strftime_ymd strftime_pads_year dt)
             | None => None
             end
         end
     end)
  /\ normalize_date_to_iso JNull = None
  /\ (forall b, normalize_date_to_iso (JBool b) = None)
  /\ (forall n, normalize_date_to_iso (JInt n) = None)
  /\ (forall f, normalize_date_to_iso (JFloat f) = None)
  /\ (forall l, normalize_date_to_iso (JList l) = None)
  /\ (forall d, normalize_date_to_iso (JObj d) = None)
  /\ normalize_date_to_iso (JStr "03/15/24") = Some "2024-03-15"
  /\ normalize_date_to_iso (JStr "2024-03-15") = Some "2024-03-15"
  /\ normalize_date_to_iso (JStr "not a date") = None.
Proof.
  assert (G : forall s : string,
     normalize_date_to_iso (JStr s) =
     match Datetime.strptime (PyStr.strip s) "%m/%d/%y" with
     | Some dt => Some (Datetime.strftime_ymd strftime_pads_year dt)
     | None =>
         match Datetime.strptime (PyStr.strip s) "%m/%d/%Y" with
         | Some dt => Some (Datetime.strftime_ymd strftime_pads_year dt)
         | None =>
             match Datetime.strptime (PyStr.strip s) "%Y-%m-%d" with
             | Some dt => Some (Datetime.strftime_ymd strftime_pads_year dt)
             | None => None
             end
         end
     end).
  { intros s. destruct s as [|c s].
    - reflexivity.
    - unfold normalize_date_to_iso, date_formats.
      cbn [PyVal.truthy PyVal.is_str negb orb].
      rewrite !first_format_cons, first_format_nil. reflexivity. }
  split; [exact G|].
  split; [reflexivity|].
  split; [intros b; unfold normalize_date_to_iso; destruct b; reflexivity|].
  split; [intros n; unfold normalize_date_to_iso; cbn;
          destruct (negb (n =? 0)); reflexivity|].
  split; [intros f; unfold normalize_date_to_iso; cbn;
          destruct f; reflexivity|].
  split; [intros l; unfold normalize_date_to_iso; destruct l; reflexivity|].
  split; [intros d; unfold normalize_date_to_iso; destruct d; reflexivity|].
  split; [|split].
  - rewrite G.
    replace (Datetime.strptime (PyStr.strip "03/15/24") "%m/%d/%y")
      with (Some (Datetime.mkdate 2024 3 15)) by (vm_compute; reflexivity).
    now rewrite strftime_2024_03_15.
  - rewrite G.
    replace (Datetime.strptime (PyStr.strip "2024-03-15") "%m/%d/%y")
      with (@None Datetime.date) by (vm_compute; reflexivity).
    replace (Datetime.strptime (PyStr.strip "2024-03-15") "%m/%d/%Y")
      with (@None Datetime.date) by (vm_compute; reflexivity).
    replace (Datetime.strptime (PyStr.strip "2024-03-15") "%Y-%m-%d")
      with (Some (Datetime.mkdate 2024 3 15)) by (vm_compute; reflexivity).
    now rewrite strftime_2024_03_15.
  - rewrite G.
    replace (Datetime.strptime (PyStr.strip "not a date") "%m/%d/%y")
      with (@None Datetime.date) by (vm_compute; reflexivity).
    replace (Datetime.strptime (PyStr.strip "not a date") "%m/%d/%Y")
      with (@None Datetime.date) by (vm_compute; reflexivity).
    replace (Datetime.strptime (PyStr.strip "not a date") "%Y-%m-%d")
      with (@None Datetime.date) by (vm_compute; reflexivity).
    reflexivity.
Qed.

End Dates.

(** ** Numbers *)

Lemma coerce_number_null : coerce_number JNull = Ok None.
Proof. reflexivity. Qed.

Lemma coerce_number_float (f : spec_float) : coerce_number (JFloat f) = Ok (Some f).
Proof. reflexivity. Qed.

Lemma coerce_number_str (s : string) :
  coerce_number (JStr s) =
  Ok (PyNum.float_of_string
        (strip_dollar (PyStr.replace_char "," "" (PyStr.strip s)))).
Proof. reflexivity. Qed.

Lemma float_of_int_fits (n : Z) :
  fits_float n = true -> PyNum.float_of_int n = Ok (PyNum.round_int n).
Proof.
  unfold fits_float, PyNum.float_of_int.
  destruct (PyNum.round_int n); intros E; try reflexivity; discriminate.
Qed.

Lemma coerce_number_int (n : Z) :
  fits_float n = true -> coerce_number (JInt n) = Ok (Some (PyNum.round_int n)).
Proof.
  intros E. unfold coerce_number. now rewrite (float_of_int_fits n E).
Qed.

Lemma coerce_number_examples :
  coerce_number (JStr "$1,234.56") = Ok (Some (Prim2SF 1234.56))
  /\ coerce_number JNull = Ok None
  /\ coerce_number (JStr "abc") = Ok None
  /\ coerce_number (JInt 42) = Ok (Some (Prim2SF 42.0)).
Proof. repeat split; vm_compute; reflexivity. Qed.

(** C5: the code raises where the claim promises a float.  An integer that
    rounds beyond the largest finite binary64, here [10 ** 400], makes
    [float(x)] raise [OverflowError], which [coerce_number] does not catch. *)
Theorem coerce_number_huge_int_raises :
  coerce_number (JInt (10 ^ 400)) =
  Raise (OverflowError "int too large to convert to float").
Proof. vm_compute. reflexivity. Qed.

(** ** The document store and the tools *)

Lemma opt_string_eqb_eq (a b : option string) :
  opt_string_eqb a b = true <-> a = b.
Proof.
  destruct a as [x|], b as [y|]; simpl; split; intros E;
    try discriminate; try reflexivity.
  - apply String.eqb_eq in E. now subst.
  - inversion E. apply String.eqb_refl.
Qed.

Lemma enumerate_from_length {A : Type} (l : list A) (k : Z) :
  List.length (enumerate_from k l) = List.length l.
Proof.
  revert k. induction l as [|x l IH]; intros k; simpl; [reflexivity|].
  now rewrite IH.
Qed.

Lemma enumerate_from_In {A : Type} (l : list A) (k i : Z) :
  k <= i < k + list_len l -> exists x, In (i, x) (enumerate_from k l).
Proof.
  unfold list_len. revert k.
  induction l as [|x l IH]; intros k Hi; simpl in *; [lia|].
  destruct (Z.eq_dec i k) as [->|Hne].
  - exists x. now left.
  - destruct (IH (k + 1)) as [y Hy]; [lia|].
    exists y. now right.
Qed.

Section Store.

Context `{Hashlib} `{Fitz} `{Tesseract}.

Lemma loop_body_eq (dpi : Z) (acc : loop_state) (ip : Z * page) :
  loop_body dpi acc ip =
  {| ls_pages := ls_pages acc ++ [page_entry dpi ip];
     ls_images := ls_images acc ++ [page_to_image (snd ip) dpi];
     ls_parts := ls_parts acc ++ [pr_text (page_entry dpi ip)];
     ls_trace := ls_trace acc ++ page_trace dpi ip |}.
Proof.
  destruct ip as [i p]. unfold loop_body, page_trace, page_entry. simpl.
  destruct (extract_text_from_page p (page_to_image p dpi)) as [text used_ocr].
  reflexivity.
Qed.

Lemma loop_fold (dpi : Z) (l : list (Z * page)) (acc : loop_state) :
  fold_left (loop_body dpi) l acc =
  {| ls_pages := ls_pages acc ++ map (page_entry dpi) l;
     ls_images := ls_images acc ++ map (fun ip => page_to_image (snd ip) dpi) l;
     ls_parts := ls_parts acc ++ map (fun ip => pr_text (page_entry dpi ip)) l;
     ls_trace := ls_trace acc ++ flat_map (page_trace dpi) l |}.
Proof.
  revert acc. induction l as [|ip l IH]; intros acc; simpl.
  - rewrite !app_nil_r. now destruct acc.
  - rewrite IH, loop_body_eq. simpl.
    now rewrite <- !app_assoc.
Qed.

Lemma process_pages_eq (doc : list page) (dpi : Z) :
  process_pages doc dpi =
  {| ls_pages := map (page_entry dpi) (enumerate_from 0 doc);
     ls_images := map (fun ip => page_to_image (snd ip) dpi) (enumerate_from 0 doc);
     ls_parts := map (fun ip => pr_text (page_entry dpi ip)) (enumerate_from 0 doc);
     ls_trace := flat_map (page_trace dpi) (enumerate_from 0 doc) |}.
Proof. unfold process_pages. now rewrite loop_fold. Qed.

Lemma process_pages_lengths (doc : list page) (dpi : Z) :
  List.length (ls_pages (process_pages doc dpi)) = List.length doc
  /\ List.length (ls_images (process_pages doc dpi)) = List.length doc.
Proof.
  rewrite process_pages_eq. simpl.
  now rewrite !length_map, enumerate_from_length.
Qed.

Lemma process_pages_renders_all (doc : list page) (dpi i : Z) :
  1 <= i <= list_len doc -> In (Rendered i dpi) (ls_trace (process_pages doc dpi)).
Proof.
  intros Hi. rewrite process_pages_eq. simpl.
  destruct (enumerate_from_In doc 0 (i - 1)) as [p Hp]; [lia|].
  apply in_flat_map. exists (i - 1, p). split; [exact Hp|].
  unfold page_trace. simpl. left. f_equal. lia.
Qed.

Lemma upload_hit (store : doc_store) (b : list byte) (dpi : Z) :
  doc_id store = Some (compute_doc_id b) -> pages store <> None ->
  upload store b dpi = Ok (store, []).
Proof.
  intros Hid Hp. unfold upload.
  replace (opt_string_eqb (doc_id store) (Some (compute_doc_id b))) with true
    by (symmetry; now apply opt_string_eqb_eq).
  destruct (pages store); [reflexivity|congruence].
Qed.

Lemma upload_miss (store : doc_store) (b : list byte) (dpi : Z) (doc : list page) :
  doc_id store <> Some (compute_doc_id b) -> fitz_open b = Ok doc ->
  upload store b dpi = Ok (fresh_store b doc dpi, ls_trace (process_pages doc dpi)).
Proof.
  intros Hid Hopen. unfold upload.
  destruct (opt_string_eqb (doc_id store) (Some (compute_doc_id b))) eqn:E.
  - apply opt_string_eqb_eq in E. contradiction.
  - simpl. rewrite Hopen. reflexivity.
Qed.

(** After any successful upload the store holds the digest of the uploaded
    bytes and a list of pages. *)
Lemma upload_post (store store' : doc_store) (b : list byte) (dpi : Z)
  (trace : list event) :
  upload store b dpi = Ok (store', trace) ->
  doc_id store' = Some (compute_doc_id b) /\ pages store' <> None.
Proof.
  unfold upload.
  destruct (opt_string_eqb (doc_id store) (Some (compute_doc_id b))) eqn:E; simpl.
  - destruct (pages store) as [ps|] eqn:P; simpl.
    + intros Q. inversion Q; subst.
      apply opt_string_eqb_eq in E. split; [exact E|congruence].
    + destruct (fitz_open b); simpl; intros Q; inversion Q; subst; simpl.
      split; [reflexivity|discriminate].
  - destruct (fitz_open b); simpl; intros Q; inversion Q; subst; simpl.
    split; [reflexivity|discriminate].
Qed.

(** Every store the handler can leave behind is the initial one or the one
    built from some document. *)
Lemma reachable_shape (store : doc_store) :
  reachable store ->
  store = DOC_STORE \/ exists b doc dpi, store = fresh_store b doc dpi.
Proof.
  induction 1 as [|store b dpi store' trace R IH U].
  - now left.
  - unfold upload in U.
    destruct (negb (opt_string_eqb (doc_id store) (Some (compute_doc_id b)))
              || is_none (pages store)).
    + destruct (fitz_open b) as [doc|e] eqn:O; simpl in U; [|discriminate].
      inversion U; subst. right. exists b, doc, dpi. reflexivity.
    + inversion U; subst. exact IH.
Qed.

Lemma reachable_lengths (store : doc_store) (ps : list page_record) :
  reachable store -> pages store = Some ps ->
  exists ims, images store = Some ims /\ List.length ims = List.length ps.
Proof.
  intros R P. destruct (reachable_shape store R) as [->|(b & doc & dpi & ->)].
  - discriminate.
  - simpl in *. inversion P; subst.
    eexists. split; [reflexivity|].
    destruct (process_pages_lengths doc dpi) as [L1 L2]. congruence.
Qed.

(** C1 (amended): with the text layer trimmed, a length of at least 30 gives
    [used_ocr = false] and the stored text is the trimmed text layer; a
    shorter one gives [used_ocr = true] and the stored text is the OCR
    output on the preprocessed image; and the upload stores exactly these
    results, page by page. *)
Theorem extract_text_from_page_spec (p : page) (img : image) :
  (30 <= PyStr.len (PyStr.strip (or_empty (get_text p "text"))) ->
   extract_text_from_page p img
   = (PyStr.strip (or_empty (get_text p "text")), false))
  /\ (PyStr.len (PyStr.strip (or_empty (get_text p "text"))) < 30 ->
      extract_text_from_page p img
      = (image_to_string (preprocess_for_ocr img) "--psm 6", true))
  /\ (forall doc dpi,
        ls_pages (process_pages doc dpi)
        = map (fun ip =>
                 let r := extract_text_from_page (snd ip) (page_to_image (snd ip) dpi) in
                 mkpage (fst ip + 1) (snd r) (fst r))
              (enumerate_from 0 doc)).
Proof.
  split; [|split].
  - intros L. unfold extract_text_from_page.
    apply Z.leb_le in L. now rewrite L.
  - intros L. unfold extract_text_from_page.
    apply Z.leb_gt in L. now rewrite L.
  - intros doc dpi. now rewrite process_pages_eq.
Qed.

Lemma get_page_text_out_of_range (store : doc_store) (ps : list page_record) (n : Z) :
  pages store = Some ps -> ps <> [] -> n < 1 \/ list_len ps < n ->
  get_page_text store n = Ok (out_of_range_error (list_len ps)).
Proof.
  intros P NE Hn. unfold get_page_text. rewrite P.
  destruct ps as [|r ps]; [contradiction|].
  replace ((n <? 1) || (list_len (r :: ps) <? n)) with true; [reflexivity|].
  symmetry. apply orb_true_iff. destruct Hn as [Hn|Hn].
  - left. now apply Z.ltb_lt.
  - right. now apply Z.ltb_lt.
Qed.

Lemma ocr_page_out_of_range (store : doc_store) (ims : list image) (n : Z) :
  images store = Some ims -> ims <> [] -> n < 1 \/ list_len ims < n ->
  ocr_page store n = Ok (out_of_range_error (list_len ims)).
Proof.
  intros P NE Hn. unfold ocr_page. rewrite P.
  destruct ims as [|r ims]; [contradiction|].
  replace ((n <? 1) || (list_len (r :: ims) <? n)) with true; [reflexivity|].
  symmetry. apply orb_true_iff. destruct Hn as [Hn|Hn].
  - left. now apply Z.ltb_lt.
  - right. now apply Z.ltb_lt.
Qed.

Lemma index_in_range {A : Type} (l : list A) (i : Z) :
  0 <= i < list_len l -> exists x, PyVal.index l i = Ok x.
Proof.
  unfold list_len, PyVal.index. intros Hi.
  replace (i <? 0) with false by (symmetry; apply Z.ltb_ge; lia).
  replace ((i <? 0) || (Z.of_nat (List.length l) <=? i)) with false.
  - destruct (nth_error l (Z.to_nat i)) as [x|] eqn:E.
    + now exists x.
    + apply nth_error_None in E. lia.
  - symmetry. apply orb_false_iff. split; [apply Z.ltb_ge|apply Z.leb_gt]; lia.
Qed.

(** Both tools return a string, whatever the store and the page number. *)
Lemma page_tools_return (store : doc_store) (n : Z) :
  (exists s, get_page_text store n = Ok s) /\ (exists s, ocr_page store n = Ok s).
Proof.
  split.
  - unfold get_page_text. destruct (pages store) as [[|r ps]|]; try (eexists; reflexivity).
    destruct ((n <? 1) || (list_len (r :: ps) <? n)) eqn:E; [eexists; reflexivity|].
    apply orb_false_iff in E. destruct E as [E1 E2].
    apply Z.ltb_ge in E1, E2.
    destruct (index_in_range (r :: ps) (n - 1)) as [x Hx]; [lia|].
    rewrite Hx. simpl. eexists; reflexivity.
  - unfold ocr_page. destruct (images store) as [[|r ps]|]; try (eexists; reflexivity).
    destruct ((n <? 1) || (list_len (r :: ps) <? n)) eqn:E; [eexists; reflexivity|].
    apply orb_false_iff in E. destruct E as [E1 E2].
    apply Z.ltb_ge in E1, E2.
    destruct (index_in_range (r :: ps) (n - 1)) as [x Hx]; [lia|].
    rewrite Hx. simpl. eexists; reflexivity.
Qed.

(** On a store the handler left behind, the two range checks see lists of
    the same length. *)
Lemma out_of_range_messages (store : doc_store) (ps : list page_record) (n : Z) :
  reachable store -> pages store = Some ps -> ps <> [] ->
  n < 1 \/ list_len ps < n ->
  get_page_text store n = Ok (out_of_range_error (list_len ps))
  /\ ocr_page store n = Ok (out_of_range_error (list_len ps)).
Proof.
  intros R P NE Hn. split.
  - now apply get_page_text_out_of_range.
  - destruct (reachable_lengths store ps R P) as (ims & I & L).
    assert (LL : list_len ims = list_len ps) by (unfold list_len; now rewrite L).
    rewrite <- LL. apply ocr_page_out_of_range; [exact I| |now rewrite LL].
    intros ->. destruct ps; [contradiction|discriminate].
Qed.

(** C7: for a loaded document with N pages, a page number outside [1, N]
    makes both [get_page_text] and [ocr_page] return
    "ERROR: page_number out of range. Must be 1..N"; neither raises. *)
Theorem page_tools_out_of_range (store : doc_store) (ps : list page_record) (n : Z) :
  reachable store -> pages store = Some ps -> ps <> [] ->
  n < 1 \/ list_len ps < n ->
  get_page_text store n
  = Ok ("ERROR: page_number out of range. Must be 1.." ++ PyStr.str_int (list_len ps))
  /\ ocr_page store n
  = Ok ("ERROR: page_number out of range. Must be 1.." ++ PyStr.str_int (list_len ps)).
Proof. exact (out_of_range_messages store ps n). Qed.

(** C8 (amended): for an out-of-range page number on a loaded document the
    two tools return the same string; on a store without pages each tool
    returns its own message, "ERROR: No pages loaded. ..." for
    [get_page_text] and "ERROR: No document images loaded. ..." for
    [ocr_page]. *)
Theorem page_tools_error_strings (store : doc_store) (n : Z) :
  reachable store ->
  (forall ps, pages store = Some ps -> ps <> [] -> n < 1 \/ list_len ps < n ->
     get_page_text store n = ocr_page store n)
  /\ (pages store = None \/ pages store = Some [] ->
      get_page_text store n
      = Ok "ERROR: No pages loaded. Upload and process a PDF first."
      /\ ocr_page store n
      = Ok "ERROR: No document images loaded. Upload and process a PDF first.").
Proof.
  intros R. split.
  - intros ps P NE Hn.
    destruct (out_of_range_messages store ps n R P NE Hn) as [E1 E2].
    now rewrite E1, E2.
  - intros E.
    destruct (reachable_shape store R) as [->|(b & doc & dpi & ->)].
    + split; reflexivity.
    + destruct E as [E|E]; simpl in E; [discriminate|].
      inversion E as [E'].
      destruct (process_pages_lengths doc dpi) as [L1 L2].
      unfold get_page_text, ocr_page. simpl. rewrite E'.
      destruct (ls_images (process_pages doc dpi)) as [|im ims] eqn:I.
      * split; reflexivity.
      * rewrite E' in L1. simpl in *. congruence.
Qed.

(** C9 (amended): [get_full_text] returns the cached [full_text] when it has
    a character that is not white space, and the error string when the store
    has no text, or a text that is empty or all white space. *)
Theorem get_full_text_spec (store : doc_store) :
  (forall t, full_text store = Some t -> PyStr.strip t <> "" ->
     get_full_text store = t)
  /\ (forall t, full_text store = Some t -> PyStr.strip t = "" ->
        get_full_text store
        = "ERROR: No document text loaded. Upload and process a PDF first.")
  /\ (full_text store = None ->
        get_full_text store
        = "ERROR: No document text loaded. Upload and process a PDF first.").
Proof.
  unfold get_full_text. split; [|split].
  - intros t E NE. rewrite E. destruct t as [|c t].
    + now contradiction NE.
    + destruct (PyStr.strip (String c t)); [now contradiction NE|reflexivity].
  - intros t E S. rewrite E. destruct t as [|c t]; [reflexivity|].
    now rewrite S.
  - intros E. now rewrite E.
Qed.

End Store.

(** ** The output normaliser *)

Lemma lookup_store (d : list (string * json)) (k k' : string) (v : json) :
  PyVal.lookup (PyVal.store d k v) k'
  = if String.eqb k k' then Some v else PyVal.lookup d k'.
Proof.
  induction d as [|[k0 v0] d IH]; simpl; [reflexivity|].
  destruct (String.eqb k0 k) eqn:E; simpl.
  - apply String.eqb_eq in E. subst k0. destruct (String.eqb k k'); reflexivity.
  - rewrite IH. destruct (String.eqb k0 k') eqn:E'; [|reflexivity].
    apply String.eqb_eq in E'. subst k'.
    replace (String.eqb k k0) with false; [reflexivity|].
    now rewrite String.eqb_sym, E.
Qed.

Lemma member_setitem (d : list (string * json)) (k k' : string) (v : json) :
  member (PyVal.setitem (JObj d) k v) k'
  = if String.eqb k k' then Some v else member (JObj d) k'.
Proof. simpl. apply lookup_store. Qed.

Lemma member_updated (f : json) (k k' : string) (n : json) :
  member (updated f k n) k'
  = if String.eqb k k'
    then match member f k with Some _ => Some n | None => None end
    else member f k'.
Proof.
  unfold updated, PyVal.has_key.
  destruct f as [| | | | | |d]; simpl; try (destruct (String.eqb k k'); reflexivity).
  destruct (PyVal.lookup d k) eqn:L; simpl.
  - apply lookup_store.
  - destruct (String.eqb k k') eqn:E; [|reflexivity].
    apply String.eqb_eq in E. now subst k'.
Qed.

Lemma get_member (x : json) (k : string) (dflt node : json) :
  PyVal.get x k dflt = Ok node ->
  member x k = Some node \/ (member x k = None /\ node = dflt).
Proof.
  destruct x as [| | | | | |d]; simpl; try discriminate.
  destruct (PyVal.lookup d k); intros E; inversion E; subst; auto.
Qed.

Lemma get_of_member (x : json) (k : string) (dflt node : json) :
  member x k = Some node -> PyVal.get x k dflt = Ok node.
Proof.
  destruct x as [| | | | | |d]; simpl; try discriminate.
  now intros ->.
Qed.

Lemma is_date_field_In (k : string) :
  is_date_field k = true <-> In k date_fields.
Proof.
  unfold is_date_field, date_fields. rewrite orb_true_iff, !String.eqb_eq.
  simpl. intuition congruence.
Qed.

Lemma is_number_field_In (k : string) :
  is_number_field k = true <-> In k number_fields.
Proof.
  unfold is_number_field, number_fields. rewrite !orb_true_iff, !String.eqb_eq.
  simpl. intuition congruence.
Qed.

Section Normaliser.

Context `{CLib}.

Lemma fill_iso_frame (node node' : json) :
  fill_iso node = Ok node' ->
  (forall a, a <> "value_iso" -> member node' a = member node a)
  /\ (forall v, member node "value_iso" = Some v -> PyVal.truthy v = true ->
        node' = node).
Proof.
  unfold fill_iso.
  destruct (negb (PyVal.truthy node)).
  { intros E. inversion E. subst. split; auto. }
  destruct node as [| | | | | |d]; simpl; try discriminate.
  destruct (negb (PyVal.truthy
             match PyVal.lookup d "value" with Some v => v | None => JNull end)).
  { intros E. inversion E. subst. split; auto. }
  destruct (PyVal.lookup d "value_iso") as [iso|] eqn:I.
  - destruct (PyVal.truthy iso) eqn:T.
    + intros E. inversion E. subst. split; auto.
    + intros E. inversion E. subst. split.
      * intros a Ha. cbn [member PyVal.setitem]. rewrite lookup_store.
        destruct (String.eqb "value_iso" a) eqn:Q; [|reflexivity].
        apply String.eqb_eq in Q. congruence.
      * intros v Hv Tv. inversion Hv. congruence.
  - simpl. intros E. inversion E. subst. split.
    + intros a Ha. cbn [member PyVal.setitem]. rewrite lookup_store.
      destruct (String.eqb "value_iso" a) eqn:Q; [|reflexivity].
      apply String.eqb_eq in Q. congruence.
    + intros v Hv. discriminate.
Qed.

Lemma coerce_value_frame (node node' : json) :
  coerce_value node = Ok node' ->
  (forall a, a <> "value" -> member node' a = member node a)
  /\ (forall v, member node "value" = Some v ->
        exists c, coerce_number v = Ok c
                  /\ member node' "value" = Some (PyVal.of_opt_float c)).
Proof.
  unfold coerce_value.
  destruct node as [| | | | | |d]; simpl;
    try (intros E; inversion E; subst; split; [auto|intros v Hv; discriminate]).
  destruct (coerce_number
              match PyVal.lookup d "value" with Some v => v | None => JNull end)
    as [c|e] eqn:C; simpl; [|discriminate].
  intros E. inversion E. subst. split.
  - intros a Ha. cbn [member PyVal.setitem]. rewrite lookup_store.
    destruct (String.eqb "value" a) eqn:Q; [|reflexivity].
    apply String.eqb_eq in Q. congruence.
  - intros v Hv. rewrite Hv in C. exists c. split; [exact C|].
    cbn [member PyVal.setitem]. rewrite lookup_store. reflexivity.
Qed.

Lemma fields_inv_refl (f : json) : fields_inv [] f f.
Proof. intros k. split; [intros []|reflexivity]. Qed.

Lemma fields_inv_step (done : list string) (f fi : json) (k0 : string)
  (node node' : json) :
  fields_inv done f fi -> ~ In k0 done ->
  (member fi k0 = Some node /\ node_fix k0 node = Ok node') \/ member fi k0 = None ->
  fields_inv (k0 :: done) f (updated fi k0 node').
Proof.
  intros I N C k. rewrite member_updated.
  destruct (String.eqb k0 k) eqn:E.
  - apply String.eqb_eq in E. subst k. split.
    + intros _. destruct (I k0) as [_ Q]. rewrite <- (Q N).
      unfold node_normalised.
      destruct C as [[M F]|M]; rewrite M; [|reflexivity].
      exists node'. split; [reflexivity|exact F].
    + intros Q. contradiction Q. now left.
  - assert (NE : k0 <> k) by (intros ->; now rewrite String.eqb_refl in E).
    destruct (I k) as [Q1 Q2]. split.
    + intros [->|J]; [contradiction|]. now apply Q1.
    + intros J. apply Q2. intros J'. apply J. now right.
Qed.

Lemma coerce_loop_inv (ks : list string) :
  forall (done : list string) (f fi f' : json) (oe : option exn),
    NoDup ks ->
    (forall k, In k ks -> ~ In k done) ->
    (forall k, In k ks -> is_date_field k = false) ->
    fields_inv done f fi ->
    coerce_loop ks fi = (f', oe) ->
    exists done',
      fields_inv done' f f'
      /\ (forall k, In k done' -> In k done \/ In k ks)
      /\ (forall k, In k done -> In k done')
      /\ (oe = None -> forall k, In k ks -> In k done').
Proof.
  induction ks as [|k ks IH]; intros done f fi f' oe ND Fresh NotDate I E.
  - simpl in E. inversion E. subst. exists done.
    split; [exact I|]. split; [auto|]. split; [auto|].
    intros _ k0 [].
  - simpl in E.
    assert (Stop : forall e, (fi, Some e) = (f', oe) ->
      exists done',
        fields_inv done' f f'
        /\ (forall k', In k' done' -> In k' done \/ In k' (k :: ks))
        /\ (forall k', In k' done -> In k' done')
        /\ (oe = None -> forall k', In k' (k :: ks) -> In k' done')).
    { intros e Q. inversion Q. subst. exists done.
      split; [exact I|]. split; [auto|]. split; [auto|discriminate]. }
    destruct (PyVal.get fi k JNull) as [node|e] eqn:G; [|now apply (Stop e)].
    destruct (coerce_value node) as [node'|e] eqn:C; [|now apply (Stop e)].
    inversion ND as [|? ? NI ND']; subst.
    assert (S : fields_inv (k :: done) f (updated fi k node')).
    { apply (fields_inv_step done f fi k node node' I).
      - apply Fresh. now left.
      - destruct (get_member _ _ _ _ G) as [M|[M _]]; [left|now right].
        split; [exact M|]. unfold node_fix.
        rewrite (NotDate k) by now left. exact C. }
    destruct (IH (k :: done) f (updated fi k node') f' oe ND') as (done' & J1 & J2 & J3 & J4).
    + intros k' Hk' [->|Hd]; [contradiction|].
      apply (Fresh k'); [now right|exact Hd].
    + intros k' Hk'. apply NotDate. now right.
    + exact S.
    + exact E.
    + exists done'. split; [exact J1|]. split; [|split].
      * intros k' Hk'. destruct (J2 k' Hk') as [[->|Q]|Q]; auto.
        -- right. now left.
        -- right. now right.
      * intros k' Hk'. apply J3. now right.
      * intros O k' [->|Hk'].
        -- apply J3. now left.
        -- now apply J4.
Qed.

Lemma normalize_fields_inv (f f' : json) (oe : option exn) :
  normalize_fields f = (f', oe) ->
  exists done,
    fields_inv done f f'
    /\ (forall k, In k done -> In k date_fields \/ In k number_fields)
    /\ (oe = None -> forall k, In k date_fields \/ In k number_fields -> In k done).
Proof.
  unfold normalize_fields. intros E.
  assert (Stop : forall e, (f, Some e) = (f', oe) ->
    exists done,
      fields_inv done f f'
      /\ (forall k, In k done -> In k date_fields \/ In k number_fields)
      /\ (oe = None -> forall k, In k date_fields \/ In k number_fields -> In k done)).
  { intros e Q. inversion Q. subst. exists []. split; [apply fields_inv_refl|].
    split; [intros k []|discriminate]. }
  destruct (PyVal.get f "invoice_date" (JObj [])) as [inv|e] eqn:G1; [|now apply (Stop e)].
  destruct (PyVal.get f "due_date" (JObj [])) as [due|e] eqn:G2; [|now apply (Stop e)].
  destruct (fill_iso inv) as [inv'|e] eqn:F1; [|now apply (Stop e)].
  assert (S1 : fields_inv ["invoice_date"] f (updated f "invoice_date" inv')).
  { apply (fields_inv_step [] f f "invoice_date" inv inv' (fields_inv_refl f)).
    - intros [].
    - destruct (get_member _ _ _ _ G1) as [M|[M _]]; [left|now right].
      split; [exact M|exact F1]. }
  destruct (fill_iso due) as [due'|e] eqn:F2.
  2:{ inversion E. subst. exists ["invoice_date"]. split; [exact S1|].
      split; [|discriminate].
      intros k [<-|[]]. left. now left. }
  assert (S2 : fields_inv ["due_date"; "invoice_date"] f
                 (updated (updated f "invoice_date" inv') "due_date" due')).
  { apply (fields_inv_step ["invoice_date"] f _ "due_date" due due' S1).
    - intros [Q|[]]. discriminate.
    - rewrite member_updated. simpl.
      destruct (get_member _ _ _ _ G2) as [M|[M _]]; [left|now right].
      split; [exact M|exact F2]. }
  destruct (coerce_loop_inv number_fields ["due_date"; "invoice_date"] f
              (updated (updated f "invoice_date" inv') "due_date" due') f' oe)
    as (done' & J1 & J2 & J3 & J4); [| | |exact S2|exact E|].
  - unfold number_fields. repeat constructor; simpl; intuition discriminate.
  - unfold number_fields. simpl. intuition (subst; discriminate).
  - unfold number_fields. simpl. intuition (subst; reflexivity).
  - exists done'. split; [exact J1|]. split.
    + intros k Hk. destruct (J2 k Hk) as [Q|Q]; [left|now right].
      unfold date_fields. simpl in *. intuition.
    + intros O k [Hk|Hk].
      * apply J3. unfold date_fields in Hk. simpl in *. intuition.
      * now apply J4.
Qed.

End Normaliser.

Lemma number_field_not_date (k : string) :
  is_number_field k = true -> is_date_field k = false.
Proof.
  intros E. apply is_number_field_In in E. unfold number_fields in E.
  simpl in E. intuition (subst; reflexivity).
Qed.

Section NormaliserFrame.

Context `{CLib}.

Lemma normalize_fields_empty : normalize_fields (JObj []) = (JObj [], None).
Proof. reflexivity. Qed.

Lemma fill_iso_fills (node node' v : json) :
  fill_iso node = Ok node' ->
  member node "value" = Some v -> PyVal.truthy v = true ->
  (member node "value_iso" = None
   \/ exists w, member node "value_iso" = Some w /\ PyVal.truthy w = false) ->
  member node' "value_iso" = Some (PyVal.of_opt_str (normalize_date_to_iso v)).
Proof.
  intros F V T I. unfold fill_iso in F.
  destruct node as [| | | | | |d]; simpl in V; try discriminate.
  assert (TD : PyVal.truthy (JObj d) = true)
    by (destruct d; [discriminate|reflexivity]).
  rewrite TD in F. cbn [negb PyVal.get bind] in F. cbn [member] in I.
  rewrite V in F. rewrite T in F. cbn [negb] in F.
  destruct I as [I|(w & I & Tw)]; rewrite I in F.
  - cbn [PyVal.truthy] in F. injection F as <-.
    cbn [member]. rewrite lookup_store. reflexivity.
  - rewrite Tw in F. injection F as <-.
    cbn [member]. rewrite lookup_store. reflexivity.
Qed.

Lemma fields_frame (f f' : json) (done : list string) (oe : option exn) :
  fields_inv done f f' ->
  (forall k, In k done -> In k date_fields \/ In k number_fields) ->
  (oe = None -> forall k, In k date_fields \/ In k number_fields -> In k done) ->
  (forall field attr,
     is_date_field field && String.eqb attr "value_iso" = false ->
     is_number_field field && String.eqb attr "value" = false ->
     match member f' field with Some node => member node attr | None => None end
     = match member f field with Some node => member node attr | None => None end)
  /\ (forall field v, is_date_field field = true ->
        match member f field with Some node => member node "value_iso" | None => None end
        = Some v ->
        PyVal.truthy v = true ->
        match member f' field with Some node => member node "value_iso" | None => None end
        = Some v)
  /\ (forall field x, is_number_field field = true ->
        match member f field with Some node => member node "value" | None => None end
        = Some (JFloat x) ->
        match member f' field with Some node => member node "value" | None => None end
        = Some (JFloat x))
  /\ (oe = None -> forall field v, is_number_field field = true ->
        match member f field with Some node => member node "value" | None => None end
        = Some v ->
        exists c, coerce_number v = Ok c
          /\ match member f' field with Some node => member node "value" | None => None end
             = Some (PyVal.of_opt_float c))
  /\ (oe = None -> forall field v, is_date_field field = true ->
        match member f field with Some node => member node "value" | None => None end
        = Some v ->
        PyVal.truthy v = true ->
        (match member f field with Some node => member node "value_iso" | None => None end
         = None
         \/ exists w,
              match member f field with Some node => member node "value_iso" | None => None end
              = Some w /\ PyVal.truthy w = false) ->
        match member f' field with Some node => member node "value_iso" | None => None end
        = Some (PyVal.of_opt_str (normalize_date_to_iso v))).
Proof.
  intros I Sound Complete.
  assert (Step : forall field,
    member f' field = member f field
    \/ exists node node', member f field = Some node /\ member f' field = Some node'
         /\ In field done /\ node_fix field node = Ok node').
  { intros field. destruct (I field) as [Q1 Q2].
    destruct (in_dec string_dec field done) as [J|J].
    - specialize (Q1 J). unfold node_normalised in Q1.
      destruct (member f field) as [node|] eqn:M.
      + destruct Q1 as (node' & A & B). right. now exists node, node'.
      + now left.
    - left. now apply Q2. }
  assert (Full : oe = None -> forall field node,
    (is_date_field field = true \/ is_number_field field = true) ->
    member f field = Some node ->
    exists node', member f' field = Some node' /\ node_fix field node = Ok node').
  { intros O field node D M.
    assert (J : In field done).
    { apply (Complete O). destruct D as [D|D].
      - left. now apply is_date_field_In.
      - right. now apply is_number_field_In. }
    destruct (I field) as [Q1 _]. specialize (Q1 J).
    unfold node_normalised in Q1. now rewrite M in Q1. }
  split; [|split; [|split; [|split]]].
  - intros field attr H1 H2.
    destruct (Step field) as [->|(node & node' & M & M' & J & F)]; [reflexivity|].
    rewrite M, M'. unfold node_fix in F.
    destruct (is_date_field field) eqn:D.
    + apply fill_iso_frame in F. destruct F as [F _]. apply F.
      intros ->. discriminate.
    + assert (N : is_number_field field = true).
      { destruct (Sound field J) as [Q|Q].
        - apply is_date_field_In in Q. congruence.
        - now apply is_number_field_In. }
      rewrite N in H2. apply coerce_value_frame in F. destruct F as [F _].
      apply F. intros ->. discriminate.
  - intros field v D V T.
    destruct (Step field) as [->|(node & node' & M & M' & J & F)]; [exact V|].
    rewrite M in V. rewrite M'. unfold node_fix in F. rewrite D in F.
    apply fill_iso_frame in F. destruct F as [_ F].
    now rewrite (F v V T).
  - intros field x N V.
    destruct (Step field) as [->|(node & node' & M & M' & J & F)]; [exact V|].
    rewrite M in V. rewrite M'. unfold node_fix in F.
    rewrite (number_field_not_date field N) in F.
    apply coerce_value_frame in F. destruct F as [_ F].
    destruct (F _ V) as (c & C & Q). simpl in C. inversion C. subst.
    exact Q.
  - intros O field v N V.
    destruct (member f field) as [node|] eqn:M; [|discriminate].
    destruct (Full O field node (or_intror N) M) as (node' & M' & F).
    rewrite M'. unfold node_fix in F.
    rewrite (number_field_not_date field N) in F.
    apply coerce_value_frame in F. destruct F as [_ F]. now apply F.
  - intros O field v D V T W.
    destruct (member f field) as [node|] eqn:M; [|discriminate].
    destruct (Full O field node (or_introl D) M) as (node' & M' & F).
    rewrite M'. unfold node_fix in F. rewrite D in F.
    now apply (fill_iso_fills node node' v).
Qed.

End NormaliserFrame.

(** ** Text and patterns *)

Lemma append_assoc (a b c : string) : (a ++ b) ++ c = a ++ (b ++ c).
Proof. induction a as [|x a IH]; simpl; [reflexivity|now rewrite IH]. Qed.

Lemma length_append (a b : string) :
  String.length (a ++ b) = (String.length a + String.length b)%nat.
Proof. induction a as [|x a IH]; simpl; [reflexivity|now rewrite IH]. Qed.

Lemma substring_prefix (a b : string) :
  String.substring 0 (String.length a) (a ++ b) = a.
Proof.
  induction a as [|x a IH]; simpl.
  - now destruct b.
  - now rewrite IH.
Qed.

Lemma consumed_app (a b : string) : Re.consumed (a ++ b) b = a.
Proof.
  unfold Re.consumed. rewrite length_append.
  replace (String.length a + String.length b - String.length b)%nat
    with (String.length a) by lia.
  apply substring_prefix.
Qed.

Lemma rstrip_keeps_last (s : string) (c : ascii) :
  PyStr.isspace c = false ->
  PyStr.rstrip_by PyStr.isspace (s ++ String c EmptyString) = s ++ String c EmptyString.
Proof.
  intros N. induction s as [|x s IH]; simpl.
  - now rewrite N.
  - rewrite IH. destruct (s ++ String c EmptyString) eqn:E; [|reflexivity].
    destruct s; discriminate.
Qed.

(** An object text, which starts with [{] and ends with [}], is not changed
    by [strip]. *)
Lemma strip_object (body : string) :
  PyStr.strip ("{" ++ body ++ "}") = "{" ++ body ++ "}".
Proof.
  unfold PyStr.strip, PyStr.strip_by.
  change (PyStr.lstrip_by PyStr.isspace ("{" ++ body ++ "}"))
    with ("{" ++ body ++ "}").
  rewrite <- append_assoc. now apply rstrip_keeps_last.
Qed.

Lemma lower_fixes (x c : ascii) :
  PyStr.lower x = x -> (nat_of_ascii x < 97 \/ 122 < nat_of_ascii x)%nat ->
  Ascii.eqb (PyStr.lower x) (PyStr.lower c) = Ascii.eqb x c.
Proof.
  intros Lx Hx. rewrite Lx. unfold PyStr.lower.
  destruct ((65 <=? nat_of_ascii c)%nat && (nat_of_ascii c <=? 90)%nat) eqn:U;
    [|reflexivity].
  apply andb_true_iff in U. destruct U as [U1 U2].
  apply Nat.leb_le in U1, U2.
  assert (N1 : Ascii.eqb x c = false).
  { apply Ascii.eqb_neq. intros ->.
    revert Lx. unfold PyStr.lower.
    replace ((65 <=? nat_of_ascii c)%nat && (nat_of_ascii c <=? 90)%nat) with true.
    - intros Q. apply (f_equal nat_of_ascii) in Q.
      rewrite nat_ascii_embedding in Q; lia.
    - symmetry. apply andb_true_iff. split; now apply Nat.leb_le. }
  rewrite N1. apply Ascii.eqb_neq. intros ->.
  rewrite nat_ascii_embedding in Hx; lia.
Qed.

Section Patterns.

Context {R : Type}.

Lemma star_lazy_unfold (ic : bool) (a : Re.atom) (s : string)
  (k : string -> option R) :
  Re.star_lazy ic a s k =
  match k s with
  | Some x => Some x
  | None =>
      match s with
      | String c s' => if Re.atom_match ic a c then Re.star_lazy ic a s' k else None
      | EmptyString => None
      end
  end.
Proof. destruct s; reflexivity. Qed.

(** The lazy star hands over at the first position where the rest of the
    pattern matches. *)
Lemma star_lazy_dot (ic : bool) (body rest : string) (k : string -> option R) (x : R) :
  (forall p q, body = p ++ q -> q <> "" -> k (q ++ rest) = None) ->
  k rest = Some x ->
  Re.star_lazy ic Re.Dot (body ++ rest) k = Some x.
Proof.
  revert k x. induction body as [|c body IH]; intros k x Early Here.
  - simpl. rewrite star_lazy_unfold. now rewrite Here.
  - rewrite star_lazy_unfold.
    rewrite (Early "" (String c body) eq_refl) by discriminate.
    simpl. apply IH; [|exact Here].
    intros p q E NE. apply (Early (String c p) q); [|exact NE].
    simpl. now rewrite E.
Qed.

(** The greedy star over white space first tries the text with all its
    leading white space skipped. *)
Lemma star_greedy_lstrip (ic : bool) (s : string) (k : string -> option R) (x : R) :
  k (PyStr.lstrip_by PyStr.isspace s) = Some x ->
  Re.star_greedy ic Re.Space s k = Some x.
Proof.
  induction s as [|c s IH]; simpl; [auto|].
  destruct (PyStr.isspace c); [|auto].
  intros E. now rewrite (IH E).
Qed.

Lemma star_greedy_none (ic : bool) (s : string) (k : string -> option R) :
  (forall c s', PyStr.isspace c = true -> k (String c s') = None) ->
  k (PyStr.lstrip_by PyStr.isspace s) = None ->
  Re.star_greedy ic Re.Space s k = None.
Proof.
  intros Sp. induction s as [|c s IH]; simpl; [auto|].
  destruct (PyStr.isspace c) eqn:E; [|auto].
  intros Q. rewrite (IH Q). now apply Sp.
Qed.

Lemma rmatch_lit (ic : bool) (p s : string) (cs : Re.caps)
  (k : string -> Re.caps -> option R) :
  Re.rmatch ic (Re.lit p) (p ++ s) cs k = k s cs.
Proof.
  revert s. induction p as [|c p IH]; intros s; simpl; [reflexivity|].
  replace (if ic then Ascii.eqb (PyStr.lower c) (PyStr.lower c) else Ascii.eqb c c)
    with true; [apply IH|].
  destruct ic; now rewrite Ascii.eqb_refl.
Qed.

Lemma rmatch_fence_fail (s : string) (cs : Re.caps)
  (k : string -> Re.caps -> option R) :
  PyStr.starts_with "```" s = false ->
  Re.rmatch true (Re.lit "```") s cs k = None.
Proof.
  assert (B : forall c, Ascii.eqb (PyStr.lower "`") (PyStr.lower c) = Ascii.eqb "`" c).
  { intros c. apply lower_fixes; [reflexivity|].
    left. change (nat_of_ascii "`") with 96%nat. lia. }
  cbn [Re.lit Re.rmatch Re.atom_match PyStr.starts_with].
  destruct s as [|a s]; [reflexivity|].
  rewrite B. destruct (Ascii.eqb "`" a); [|reflexivity].
  destruct s as [|b s]; [reflexivity|].
  rewrite B. destruct (Ascii.eqb "`" b); [|reflexivity].
  destruct s as [|c s]; [reflexivity|].
  rewrite B. destruct (Ascii.eqb "`" c); [discriminate|reflexivity].
Qed.

End Patterns.

Lemma no_early_close_suffix (p q tail : string) :
  no_early_close (p ++ q) tail = true -> no_early_close q tail = true.
Proof.
  induction p as [|c p IH]; simpl; [auto|].
  intros E. apply andb_true_iff in E. now apply IH.
Qed.

Lemma closes_fence_lstrip (s : string) :
  closes_fence s = true ->
  exists rest, PyStr.lstrip_by PyStr.isspace s = "```" ++ rest.
Proof.
  unfold closes_fence.
  destruct (PyStr.lstrip_by PyStr.isspace s) as [|a [|b [|c r]]];
    cbn [PyStr.starts_with]; try discriminate;
    try (rewrite ?andb_false_r; discriminate).
  intros E. apply andb_true_iff in E. destruct E as [A E].
  apply andb_true_iff in E. destruct E as [B E].
  apply andb_true_iff in E. destruct E as [C _].
  apply Ascii.eqb_eq in A, B, C. subst. now exists r.
Qed.

(** The first closing brace of [body] that closes the fence early. *)
Lemma first_early_close (body tail : string) :
  no_early_close body tail = false ->
  exists p q,
    body = p ++ String "}" q
    /\ no_early_close p (String "}" q ++ tail) = true
    /\ closes_fence (q ++ tail) = true.
Proof.
  induction body as [|c body IH]; [discriminate|].
  cbn [no_early_close]. intros E.
  destruct (Ascii.eqb c "}" && closes_fence (body ++ tail)) eqn:Q.
  - apply andb_true_iff in Q. destruct Q as [Q1 Q2].
    apply Ascii.eqb_eq in Q1. subst c.
    exists "", body. repeat split. exact Q2.
  - assert (T : no_early_close body tail = false).
    { destruct (Ascii.eqb c "}"); simpl in Q, E; [|exact E].
      rewrite Q in E. exact E. }
    destruct (IH T) as (p & q & B & N & C).
    exists (String c p), q. split; [simpl; now rewrite B|]. split; [|exact C].
    cbn [no_early_close]. rewrite N, andb_true_r.
    destruct (Ascii.eqb c "}"); [|reflexivity].
    simpl in Q. rewrite B, append_assoc in Q. now rewrite Q.
Qed.

(** On a fenced text, the pattern matches at the start and its group runs
    from the opening brace to the first closing brace that is followed by
    optional white space and a fence. *)
Lemma fence_pattern_matches_upto (body rest rest' : string) :
  no_early_close body ("}" ++ rest) = true ->
  PyStr.lstrip_by PyStr.isspace rest = "```" ++ rest' ->
  Re.re_match true fence_pattern
    ("```" ++ "json" ++ PyStr.nl ++ "{" ++ body ++ "}" ++ rest)
  = Some (rest', [("1", "{" ++ body ++ "}")]).
Proof.
  intros NE Close. unfold Re.re_match, fence_pattern, Re.Opt.
  cbn [Re.rmatch]. rewrite rmatch_lit. rewrite rmatch_lit.
  match goal with
  | |- match ?t with Some x => Some x | None => _ end = _ =>
      assert (G : t = Some (rest', [("1", "{" ++ body ++ "}")]));
        [|now rewrite G]
  end.
  apply star_greedy_lstrip.
  change (PyStr.lstrip_by PyStr.isspace (PyStr.nl ++ "{" ++ body ++ "}" ++ rest))
    with ("{" ++ body ++ "}" ++ rest).
  cbn [Re.rmatch append Re.atom_match PyStr.lower nat_of_ascii].
  change (Ascii.eqb (PyStr.lower "{") (PyStr.lower "{")) with true. cbv iota.
  apply star_lazy_dot.
  - intros p q E Hq. destruct q as [|c q]; [contradiction|].
    cbn [append].
    assert (B : Ascii.eqb (PyStr.lower "}") (PyStr.lower c) = Ascii.eqb "}" c).
    { apply lower_fixes; [reflexivity|].
      right. change (nat_of_ascii "}") with 125%nat. lia. }
    rewrite B. destruct (Ascii.eqb "}" c) eqn:C; [|reflexivity].
    apply Ascii.eqb_eq in C. subst c.
    rewrite E in NE. apply no_early_close_suffix in NE.
    cbn [no_early_close] in NE. rewrite Ascii.eqb_refl in NE.
    apply andb_true_iff in NE. destruct NE as [NE _].
    apply negb_true_iff in NE. unfold closes_fence in NE.
    apply star_greedy_none.
    + intros c s' Sp. cbn [Re.rmatch Re.lit].
      replace (Re.atom_match true (Re.Chr "`") c) with false; [reflexivity|].
      symmetry. cbn [Re.atom_match].
      rewrite lower_fixes
        by (try reflexivity; left; change (nat_of_ascii "`") with 96%nat; lia).
      apply Ascii.eqb_neq. intros <-. discriminate.
    + now apply rmatch_fence_fail.
  - cbn [append Re.atom_match].
    change (Ascii.eqb (PyStr.lower "}") (PyStr.lower "}")) with true. cbv iota.
    apply star_greedy_lstrip. rewrite Close, rmatch_lit.
    replace (String "{" (body ++ String "}" rest))
      with (("{" ++ body ++ "}") ++ rest)
      by (cbn [append]; now rewrite append_assoc).
    now rewrite consumed_app.
Qed.

Lemma extract_json_upto (body rest rest' : string) :
  no_early_close body ("}" ++ rest) = true ->
  PyStr.lstrip_by PyStr.isspace rest = "```" ++ rest' ->
  extract_json ("```" ++ "json" ++ PyStr.nl ++ "{" ++ body ++ "}" ++ rest)
  = "{" ++ body ++ "}".
Proof.
  intros NE Close. unfold extract_json.
  assert (S : Re.re_search true fence_pattern
                ("```" ++ "json" ++ PyStr.nl ++ "{" ++ body ++ "}" ++ rest)
              = Some (rest', [("1", "{" ++ body ++ "}")])).
  { pose proof (fence_pattern_matches_upto body rest rest' NE Close) as M.
    cbn [append] in M |- *. unfold Re.re_search. now rewrite M. }
  cbn [append] in S |- *. rewrite S.
  cbn [Re.group String.eqb Ascii.eqb Bool.eqb].
  apply strip_object.
Qed.

Lemma extract_json_fenced (body : string) :
  no_early_close body ("}" ++ PyStr.nl ++ "```") = true ->
  extract_json (fenced ("{" ++ body ++ "}")) = "{" ++ body ++ "}".
Proof.
  intros NE.
  replace (fenced ("{" ++ body ++ "}"))
    with ("```" ++ "json" ++ PyStr.nl ++ "{" ++ body ++ "}" ++ PyStr.nl ++ "```").
  - now apply (extract_json_upto body (PyStr.nl ++ "```") "").
  - unfold fenced. cbn [append]. now rewrite !append_assoc.
Qed.

(** When a closing brace inside the object closes the fence early,
    [extract_json] returns the text up to the first such brace. *)
Lemma extract_json_fenced_early (body : string) :
  no_early_close body ("}" ++ PyStr.nl ++ "```") = false ->
  exists p q,
    body = p ++ String "}" q
    /\ extract_json (fenced ("{" ++ body ++ "}")) = "{" ++ p ++ "}".
Proof.
  intros E. destruct (first_early_close _ _ E) as (p & q & B & N & C).
  exists p, q. split; [exact B|].
  destruct (closes_fence_lstrip _ C) as [rest' L].
  replace (fenced ("{" ++ body ++ "}"))
    with ("```" ++ "json" ++ PyStr.nl ++ "{" ++ p ++ "}"
          ++ (q ++ "}" ++ PyStr.nl ++ "```")).
  - now apply (extract_json_upto p (q ++ "}" ++ PyStr.nl ++ "```") rest').
  - unfold fenced. rewrite B. cbn [append]. now rewrite !append_assoc.
Qed.

(** The condition of the amended statement is exact. *)
Lemma extract_json_fenced_iff (body : string) :
  extract_json (fenced ("{" ++ body ++ "}")) = "{" ++ body ++ "}"
  <-> no_early_close body ("}" ++ PyStr.nl ++ "```") = true.
Proof.
  split; [|apply extract_json_fenced].
  intros E. destruct (no_early_close body ("}" ++ PyStr.nl ++ "```")) eqn:N;
    [reflexivity|].
  destruct (extract_json_fenced_early body N) as (p & q & B & X).
  rewrite X in E. apply (f_equal String.length) in E.
  rewrite B in E. cbn [append String.length] in E.
  rewrite !length_append in E. cbn [String.length] in E.
  rewrite ?length_append in E. cbn [String.length] in E. lia.
Qed.

(** C6 (amended): when no closing brace inside the object is followed by
    optional white space and three backquotes, parsing what [extract_json]
    returns for the fenced answer gives what parsing the object gives. *)
Theorem fenced_parse_equals_inner_parse `{JsonDecoder} (body : string) :
  no_early_close body ("}" ++ PyStr.nl ++ "```") = true ->
  extract_json (fenced ("{" ++ body ++ "}")) = "{" ++ body ++ "}"
  /\ json_loads (extract_json (fenced ("{" ++ body ++ "}")))
     = json_loads ("{" ++ body ++ "}").
Proof.
  intros NE. rewrite (extract_json_fenced body NE). split; reflexivity.
Qed.

(** ** The extraction run *)

Section Run.

Context {host : AgentHost} {decoder : JsonDecoder} {clib : CLib} {pillow : Pillow}.

Lemma normalize_output_non_dict (v : json) :
  PyVal.is_dict v = false ->
  normalize_output v = (v, Some (PyVal.no_attribute v "get")).
Proof. destruct v; simpl; intros E; try discriminate; reflexivity. Qed.

Lemma build_agent_with_key (key : string) :
  get_anthropic_key = Some key -> key <> "" -> build_agent = Ok agent_answer.
Proof.
  intros K NE. unfold build_agent. rewrite K.
  destruct key; [contradiction|reflexivity].
Qed.

Lemma attribute_error_is_not_invalid_json (v : json) :
  "'" ++ PyVal.type_name v ++ "' object has no attribute 'get'" <> invalid_json_error.
Proof. destruct v; discriminate. Qed.

(** C10: when the answer parses to a JSON value that is not an object, the
    normalisation raises, the error message of the run is the text of that
    exception and not the "invalid JSON" message, and the payload's
    [extraction] is the parsed value, not [{}]. *)
Theorem non_object_answer_run (task text key : string) (v : json) :
  get_anthropic_key = Some key -> key <> "" ->
  agent_answer task = Ok text ->
  json_loads (extract_json text) = Ok v ->
  PyVal.is_dict v = false ->
  error_msg (extraction_run true task)
  = Some ("'" ++ PyVal.type_name v ++ "' object has no attribute 'get'")
  /\ error_msg (extraction_run true task) <> Some invalid_json_error
  /\ extracted_fields (extraction_run true task) = v
  /\ v <> JObj []
  /\ (forall store temperature,
        out_extraction (final_payload store (extraction_run true task) temperature) = v
        /\ out_error (final_payload store (extraction_run true task) temperature)
           = Some ("'" ++ PyVal.type_name v ++ "' object has no attribute 'get'")
        /\ out_agent_output_raw
             (final_payload store (extraction_run true task) temperature)
           = Some text).
Proof.
  intros K NE A L D.
  assert (E : extraction_run true task
              = mkrun v (Some text)
                  (Some ("'" ++ PyVal.type_name v ++ "' object has no attribute 'get'"))).
  { unfold extraction_run.
    rewrite (build_agent_with_key key K NE), A, L.
    rewrite (normalize_output_non_dict v D).
    destruct v; try discriminate; reflexivity. }
  rewrite E. cbn [error_msg extracted_fields agent_output_text].
  split; [reflexivity|]. split.
  - intros Q. apply (attribute_error_is_not_invalid_json v). congruence.
  - split; [reflexivity|]. split.
    + intros ->. discriminate.
    + intros store temperature. repeat split.
Qed.

End Run.

(** ** The statements on sample inputs *)

Lemma extract_text_from_page_spec_witness :
  30 <= PyStr.len (PyStr.strip (or_empty (get_text Example.padded_page "text")))
  /\ extract_text_from_page Example.padded_page Example.no_pixels
     = ("Invoice 0001 for ACME Corporation", false).
Proof.
  split.
  - apply Z.leb_le. reflexivity.
  - apply (proj1 (extract_text_from_page_spec Example.padded_page Example.no_pixels)).
    apply Z.leb_le. reflexivity.
Defined.

(** C1, as stated, fails: the stored text is the trimmed text layer, not the
    text layer as embedded. *)
Lemma stored_text_is_not_the_untrimmed_layer :
  30 <= PyStr.len (PyStr.strip (or_empty (get_text Example.padded_page "text")))
  /\ fst (extract_text_from_page Example.padded_page Example.no_pixels)
     <> or_empty (get_text Example.padded_page "text").
Proof.
  split.
  - apply Z.leb_le. reflexivity.
  - vm_compute. discriminate.
Qed.


Lemma fenced_parse_equals_inner_parse_witness :
  no_early_close (Example.key "a" ++ ": 1") ("}" ++ PyStr.nl ++ "```") = true
  /\ json_loads (extract_json (fenced ("{" ++ (Example.key "a" ++ ": 1") ++ "}")))
     = Ok (JObj [("a", JInt 1)]).
Proof.
  split; [reflexivity|].
  rewrite (proj2 (fenced_parse_equals_inner_parse (Example.key "a" ++ ": 1") eq_refl)).
  reflexivity.
Defined.

(** C6, as stated, fails: for the object [{"a":"}```"}] the pattern stops at
    the brace inside the string, and what is left does not parse. *)
Lemma fenced_parse_differs_from_inner_parse :
  json_loads Example.brace_in_string = Ok (JObj [("a", JStr "}```")])
  /\ extract_json (fenced Example.brace_in_string)
     = "{" ++ Example.key "a" ++ ":" ++ PyStr.dq ++ "}"
  /\ json_loads (extract_json (fenced Example.brace_in_string))
     = Raise (JSONDecodeError "Unterminated string starting at")
  /\ json_loads (extract_json (fenced Example.brace_in_string))
     <> json_loads Example.brace_in_string.
Proof.
  split; [vm_compute; reflexivity|].
  split; [vm_compute; reflexivity|].
  split; [vm_compute; reflexivity|].
  vm_compute. discriminate.
Qed.

Lemma reachable_two_pages :
  reachable (fresh_store Example.two_pages Example.two_pages_doc 200).
Proof.
  apply (reach_upload DOC_STORE Example.two_pages 200 _
           [Rendered 1 200; Rendered 2 200; Recognised 2] reach_init).
  reflexivity.
Defined.

Lemma page_tools_out_of_range_witness :
  get_page_text (fresh_store Example.two_pages Example.two_pages_doc 200) 0
  = Ok "ERROR: page_number out of range. Must be 1..2"
  /\ ocr_page (fresh_store Example.two_pages Example.two_pages_doc 200) 3
     = Ok "ERROR: page_number out of range. Must be 1..2".
Proof.
  split.
  - apply (proj1 (page_tools_out_of_range _
             [mkpage 1 false "Invoice 0001 for ACME Corporation, total due";
              mkpage 2 true "#"] 0 reachable_two_pages eq_refl
             ltac:(discriminate) ltac:(left; lia))).
  - apply (proj2 (page_tools_out_of_range _
             [mkpage 1 false "Invoice 0001 for ACME Corporation, total due";
              mkpage 2 true "#"] 3 reachable_two_pages eq_refl
             ltac:(discriminate) ltac:(right; unfold list_len; simpl; lia))).
Defined.

Lemma page_tools_error_strings_witness :
  get_page_text DOC_STORE 1
  = Ok "ERROR: No pages loaded. Upload and process a PDF first."
  /\ ocr_page DOC_STORE 1
     = Ok "ERROR: No document images loaded. Upload and process a PDF first.".
Proof.
  apply (proj2 (page_tools_error_strings DOC_STORE 1 reach_init)).
  left. reflexivity.
Defined.

(** C8, as stated, fails: on the empty store the two tools return different
    strings. *)
Lemma empty_store_errors_differ :
  get_page_text DOC_STORE 1 <> ocr_page DOC_STORE 1.
Proof. vm_compute. discriminate. Qed.

Lemma get_full_text_spec_witness :
  full_text (fresh_store Example.two_pages Example.two_pages_doc 200)
  = Some ("Invoice 0001 for ACME Corporation, total due"
          ++ PyStr.nl ++ PyStr.nl ++ "#")
  /\ get_full_text (fresh_store Example.two_pages Example.two_pages_doc 200)
     = "Invoice 0001 for ACME Corporation, total due"
       ++ PyStr.nl ++ PyStr.nl ++ "#".
Proof.
  split; [reflexivity|].
  apply (proj1 (get_full_text_spec _)); [reflexivity|].
  vm_compute. discriminate.
Defined.

(** C9, as stated, fails: a document of one blank page has been processed,
    its cached text is empty, and [get_full_text] returns the error string. *)
Lemma processed_blank_document_reports_no_text :
  upload DOC_STORE Example.blank_page 200
  = Ok (fresh_store Example.blank_page Example.blank_page_doc 200,
        [Rendered 1 200; Recognised 1])
  /\ pages (fresh_store Example.blank_page Example.blank_page_doc 200)
     = Some [mkpage 1 true ""]
  /\ full_text (fresh_store Example.blank_page Example.blank_page_doc 200)
     = Some ""
  /\ get_full_text (fresh_store Example.blank_page Example.blank_page_doc 200)
     = "ERROR: No document text loaded. Upload and process a PDF first."
  /\ Some (get_full_text (fresh_store Example.blank_page Example.blank_page_doc 200))
     <> full_text (fresh_store Example.blank_page Example.blank_page_doc 200).
Proof. repeat split. vm_compute. discriminate. Qed.

Lemma non_object_answer_run_witness :
  json_loads (extract_json "[1, 2]") = Ok (JList [JInt 1; JInt 2])
  /\ error_msg (extraction_run true "[1, 2]")
     = Some "'list' object has no attribute 'get'"
  /\ extracted_fields (extraction_run true "[1, 2]") = JList [JInt 1; JInt 2].
Proof.
  assert (L : json_loads (extract_json "[1, 2]") = Ok (JList [JInt 1; JInt 2]))
    by reflexivity.
  split; [exact L|].
  pose proof (non_object_answer_run (pillow := sample_pillow)
                "[1, 2]" "[1, 2]" "sk-ant-sample" (JList [JInt 1; JInt 2])
                eq_refl ltac:(discriminate) eq_refl L eq_refl)
    as (E & _ & F & _).
  split; [exact E|exact F].
Defined.

(** * Further properties of the code *)

(** ** Trimming *)

Section Strip.

Variable space : ascii -> bool.

Lemma rstrip_by_head (c : ascii) (s : string) :
  space c = false ->
  PyStr.rstrip_by space (String c s) = String c (PyStr.rstrip_by space s).
Proof.
  intros N. simpl. destruct (PyStr.rstrip_by space s); [now rewrite N|reflexivity].
Qed.

Lemma rstrip_by_idem (s : string) :
  PyStr.rstrip_by space (PyStr.rstrip_by space s) = PyStr.rstrip_by space s.
Proof.
  induction s as [|c s IH]; [reflexivity|]. simpl.
  destruct (PyStr.rstrip_by space s) as [|d r] eqn:E.
  - destruct (space c) eqn:Sc; [reflexivity|]. simpl. now rewrite Sc.
  - cbn [PyStr.rstrip_by]. cbn [PyStr.rstrip_by] in IH.
    destruct (PyStr.rstrip_by space r) as [|d' r'] eqn:E'.
    + destruct (space d); [discriminate|]. now rewrite IH.
    + now rewrite IH.
Qed.

Lemma lstrip_by_head (s : string) :
  match PyStr.lstrip_by space s with
  | String c _ => space c = false
  | EmptyString => True
  end.
Proof.
  induction s as [|c s IH]; simpl; [exact I|].
  destruct (space c) eqn:E; [exact IH|exact E].
Qed.

Lemma strip_by_idem (s : string) :
  PyStr.strip_by space (PyStr.strip_by space s) = PyStr.strip_by space s.
Proof.
  unfold PyStr.strip_by.
  pose proof (lstrip_by_head s) as Hd.
  destruct (PyStr.lstrip_by space s) as [|c r]; [reflexivity|].
  rewrite (rstrip_by_head c r Hd). simpl. rewrite Hd.
  rewrite (rstrip_by_head c _ Hd). now rewrite rstrip_by_idem.
Qed.

End Strip.

Lemma strip_idem (s : string) : PyStr.strip (PyStr.strip s) = PyStr.strip s.
Proof. apply strip_by_idem. Qed.

(** ** Indexing *)

Lemma index_nth {A : Type} (l : list A) (i : Z) (x : A) :
  0 <= i -> nth_error l (Z.to_nat i) = Some x -> PyVal.index l i = Ok x.
Proof.
  intros Hi E. unfold PyVal.index.
  assert (L : (Z.to_nat i < List.length l)%nat)
    by (apply nth_error_Some; congruence).
  replace (i <? 0) with false by (symmetry; apply Z.ltb_ge; lia).
  replace ((i <? 0) || (Z.of_nat (List.length l) <=? i)) with false.
  - now rewrite E.
  - symmetry. apply orb_false_iff. split; [apply Z.ltb_ge|apply Z.leb_gt]; lia.
Qed.

Lemma enumerate_from_nth {A : Type} (l : list A) (k : Z) (j : nat) :
  nth_error (enumerate_from k l) j
  = option_map (fun x => (k + Z.of_nat j, x)) (nth_error l j).
Proof.
  revert k j. induction l as [|x l IH]; intros k j.
  - now destruct j.
  - destruct j as [|j]; simpl.
    + now rewrite Z.add_0_r.
    + rewrite IH. destruct (nth_error l j); simpl; [|reflexivity].
      do 2 f_equal. lia.
Qed.

Lemma enumerate_from_numbers {A : Type} (l : list A) (k : Z) :
  List.map (fun ip => fst ip + 1) (enumerate_from k l)
  = List.map (fun j => k + Z.of_nat j) (seq 1 (List.length l)).
Proof.
  revert k. induction l as [|x l IH]; intros k; [reflexivity|].
  cbn [enumerate_from List.map List.length seq fst].
  f_equal; try lia.
  rewrite IH, <- (seq_shift (List.length l) 1), map_map.
  apply map_ext. intros j. lia.
Qed.

Section StoreMore.

Context `{Hashlib} `{Fitz} `{Tesseract}.

Lemma page_entry_number (dpi : Z) (ip : Z * page) :
  pr_page (page_entry dpi ip) = fst ip + 1.
Proof. reflexivity. Qed.

Lemma get_page_text_in_range (store : doc_store) (ps : list page_record)
  (n : Z) (r : page_record) :
  pages store = Some ps -> 1 <= n ->
  nth_error ps (Z.to_nat (n - 1)) = Some r ->
  get_page_text store n = Ok (pr_text r).
Proof.
  intros P Hn E. unfold get_page_text. rewrite P.
  assert (L : (Z.to_nat (n - 1) < List.length ps)%nat)
    by (apply nth_error_Some; congruence).
  destruct ps as [|r0 ps]; [simpl in L; lia|].
  replace ((n <? 1) || (list_len (r0 :: ps) <? n)) with false.
  - rewrite (index_nth _ _ r) by (try exact E; lia). reflexivity.
  - symmetry. apply orb_false_iff. unfold list_len.
    split; apply Z.ltb_ge; lia.
Qed.

Lemma ocr_page_in_range (store : doc_store) (ims : list image)
  (n : Z) (img : image) :
  images store = Some ims -> 1 <= n ->
  nth_error ims (Z.to_nat (n - 1)) = Some img ->
  ocr_page store n = Ok (image_to_string (preprocess_for_ocr img) "--psm 6").
Proof.
  intros P Hn E. unfold ocr_page. rewrite P.
  assert (L : (Z.to_nat (n - 1) < List.length ims)%nat)
    by (apply nth_error_Some; congruence).
  destruct ims as [|r0 ims]; [simpl in L; lia|].
  replace ((n <? 1) || (list_len (r0 :: ims) <? n)) with false.
  - rewrite (index_nth _ _ img) by (try exact E; lia). reflexivity.
  - symmetry. apply orb_false_iff. unfold list_len.
    split; apply Z.ltb_ge; lia.
Qed.

Lemma fresh_store_page (b : list byte) (doc : list page) (dpi n : Z) (p : page) :
  1 <= n -> nth_error doc (Z.to_nat (n - 1)) = Some p ->
  exists ps ims,
    pages (fresh_store b doc dpi) = Some ps
    /\ images (fresh_store b doc dpi) = Some ims
    /\ nth_error ps (Z.to_nat (n - 1)) = Some (page_entry dpi (n - 1, p))
    /\ nth_error ims (Z.to_nat (n - 1)) = Some (page_to_image p dpi).
Proof.
  intros Hn E. unfold fresh_store. rewrite process_pages_eq. cbn.
  do 2 eexists. split; [reflexivity|]. split; [reflexivity|].
  rewrite !nth_error_map, enumerate_from_nth, E. cbn.
  rewrite Z2Nat.id by lia.
  split; reflexivity.
Qed.

(** X1: after an upload that processed a document, [get_page_text(n)]
    returns, for a page number in range, the text extracted from page [n]
    of that document. *)
Theorem get_page_text_after_upload (store : doc_store) (b : list byte)
  (doc : list page) (dpi n : Z) (p : page) :
  doc_id store <> Some (compute_doc_id b) -> fitz_open b = Ok doc ->
  1 <= n -> nth_error doc (Z.to_nat (n - 1)) = Some p ->
  exists store' trace,
    upload store b dpi = Ok (store', trace)
    /\ get_page_text store' n
       = Ok (fst (extract_text_from_page p (page_to_image p dpi))).
Proof.
  intros Miss Open Hn E.
  exists (fresh_store b doc dpi), (ls_trace (process_pages doc dpi)).
  split; [now apply upload_miss|].
  destruct (fresh_store_page b doc dpi n p Hn E) as (ps & ims & P & _ & Np & _).
  now rewrite (get_page_text_in_range _ ps n _ P Hn Np).
Qed.

(** X2: after an upload that processed a document, [ocr_page(n)] returns,
    for a page number in range, the OCR output on the preprocessed rendering
    of page [n]; for a page that was stored with [used_ocr = true] this is
    the text [get_page_text(n)] returns. *)
Theorem ocr_page_after_upload (store : doc_store) (b : list byte)
  (doc : list page) (dpi n : Z) (p : page) :
  doc_id store <> Some (compute_doc_id b) -> fitz_open b = Ok doc ->
  1 <= n -> nth_error doc (Z.to_nat (n - 1)) = Some p ->
  exists store' trace,
    upload store b dpi = Ok (store', trace)
    /\ ocr_page store' n
       = Ok (image_to_string (preprocess_for_ocr (page_to_image p dpi)) "--psm 6")
    /\ (snd (extract_text_from_page p (page_to_image p dpi)) = true ->
        ocr_page store' n = get_page_text store' n).
Proof.
  intros Miss Open Hn E.
  exists (fresh_store b doc dpi), (ls_trace (process_pages doc dpi)).
  split; [now apply upload_miss|].
  destruct (fresh_store_page b doc dpi n p Hn E) as (ps & ims & P & I & Np & Ni).
  rewrite (ocr_page_in_range _ ims n _ I Hn Ni).
  split; [reflexivity|].
  intros U. rewrite (get_page_text_in_range _ ps n _ P Hn Np).
  unfold page_entry. cbn [pr_text snd].
  revert U. unfold extract_text_from_page.
  destruct (30 <=? PyStr.len (PyStr.strip (or_empty (get_text p "text"))));
    cbn; [discriminate|reflexivity].
Qed.

Lemma fresh_store_invariant (b : list byte) (doc : list page) (dpi : Z) :
  exists ps ims,
    pages (fresh_store b doc dpi) = Some ps
    /\ images (fresh_store b doc dpi) = Some ims
    /\ List.length ps = List.length doc
    /\ List.length ims = List.length doc
    /\ List.map pr_page ps = page_numbers (List.length ps)
    /\ full_text (fresh_store b doc dpi)
       = Some (PyStr.join (PyStr.nl ++ PyStr.nl) (List.map pr_text ps)).
Proof.
  unfold fresh_store. rewrite process_pages_eq. cbn.
  do 2 eexists. split; [reflexivity|]. split; [reflexivity|].
  rewrite !length_map, enumerate_from_length.
  split; [reflexivity|]. split; [reflexivity|]. split.
  - rewrite map_map.
    rewrite (map_ext _ (fun ip => fst ip + 1) (page_entry_number dpi)).
    rewrite enumerate_from_numbers. unfold page_numbers.
    apply map_ext. intros j. lia.
  - now rewrite map_map.
Qed.

(** X3: the store is all or nothing.  Whatever uploads came before, either
    none of its four fields is set, or all are: then there are as many images
    as pages, the pages are numbered 1, 2, ..., N in order, and [full_text] is
    the page texts joined by a blank line. *)
Theorem store_invariant (store : doc_store) :
  reachable store ->
  (doc_id store = None /\ pages store = None
   /\ images store = None /\ full_text store = None)
  \/ exists id ps ims,
       doc_id store = Some id
       /\ pages store = Some ps
       /\ images store = Some ims
       /\ List.length ims = List.length ps
       /\ List.map pr_page ps = page_numbers (List.length ps)
       /\ full_text store
          = Some (PyStr.join (PyStr.nl ++ PyStr.nl) (List.map pr_text ps)).
Proof.
  intros R. destruct (reachable_shape store R) as [->|(b & doc & dpi & ->)].
  - left. repeat split.
  - right.
    destruct (fresh_store_invariant b doc dpi) as (ps & ims & P & I & L1 & L2 & N & T).
    exists (compute_doc_id b), ps, ims.
    split; [reflexivity|]. split; [exact P|]. split; [exact I|].
    split; [congruence|]. split; [exact N|exact T].
Qed.

(** X4: a page stored with [used_ocr = false] holds at least 30 characters
    of text without white space at either end. *)
Theorem text_layer_pages_are_trimmed (store : doc_store) (ps : list page_record)
  (r : page_record) :
  reachable store -> pages store = Some ps -> In r ps ->
  pr_used_ocr r = false ->
  30 <= PyStr.len (pr_text r) /\ PyStr.strip (pr_text r) = pr_text r.
Proof.
  intros R P I U.
  destruct (reachable_shape store R) as [->|(b & doc & dpi & ->)]; [discriminate|].
  unfold fresh_store in P. rewrite process_pages_eq in P. cbn in P.
  injection P as <-. apply in_map_iff in I. destruct I as (ip & <- & _).
  revert U. unfold page_entry. cbn [pr_used_ocr pr_text].
  unfold extract_text_from_page.
  destruct (30 <=? PyStr.len (PyStr.strip (or_empty (get_text (snd ip) "text"))))
    eqn:L; cbn; [|discriminate].
  intros _. split; [now apply Z.leb_le|apply strip_idem].
Qed.

Lemma preview_loop_entries (dpi : Z) (suffix : list page) :
  forall (pre : list image),
    preview_loop
      (List.map (page_entry dpi) (enumerate_from (list_len pre) suffix))
      (Some (pre ++ List.map (fun ip => page_to_image (snd ip) dpi)
                      (enumerate_from (list_len pre) suffix))%list)
    = Ok (List.map (preview_entry dpi) (enumerate_from (list_len pre) suffix)).
Proof.
  induction suffix as [|x suffix IH]; intros pre; [reflexivity|].
  cbn [enumerate_from List.map preview_loop].
  rewrite page_entry_number. cbn [fst snd].
  rewrite (index_nth _ _ (page_to_image x dpi)).
  - cbn [bind].
    specialize (IH (pre ++ [page_to_image x dpi])%list).
    replace (list_len (pre ++ [page_to_image x dpi])) with (list_len pre + 1) in IH
      by (unfold list_len; rewrite length_app; simpl; lia).
    rewrite <- app_assoc in IH. cbn [app] in IH. rewrite IH.
    reflexivity.
  - unfold list_len. lia.
  - replace (Z.to_nat (list_len pre + 1 - 1)) with (List.length pre)
      by (unfold list_len; lia).
    rewrite nth_error_app2 by lia. now rewrite Nat.sub_diag.
Qed.

(** X5: the page preview never indexes out of range.  On any store that
    holds pages it yields one row per page, in page order, and the row of a
    page shows that page's text next to that page's image. *)
Theorem preview_rows_match_pages (store : doc_store) (ps : list page_record) :
  reachable store -> pages store = Some ps ->
  exists rows,
    preview store = Ok rows
    /\ List.map row_text rows = List.map pr_text ps
    /\ Some (List.map row_image rows) = images store
    /\ List.map row_caption rows
       = List.map (fun n => "Page " ++ PyStr.str_int n) (page_numbers (List.length ps)).
Proof.
  intros R P.
  destruct (reachable_shape store R) as [->|(b & doc & dpi & ->)]; [discriminate|].
  exists (List.map (preview_entry dpi) (enumerate_from 0 doc)).
  unfold preview. unfold fresh_store in *. rewrite process_pages_eq in *.
  cbn in P |- *. injection P as <-.
  split; [apply (preview_loop_entries dpi doc [])|].
  rewrite !map_map. split; [reflexivity|]. split; [reflexivity|].
  rewrite length_map, enumerate_from_length. unfold page_numbers.
  rewrite map_map.
  transitivity (List.map (fun n => "Page " ++ PyStr.str_int n)
                  (List.map (fun ip : Z * page => fst ip + 1) (enumerate_from 0 doc))).
  - now rewrite map_map.
  - rewrite enumerate_from_numbers, !map_map. apply map_ext. intros j.
    now rewrite Z.add_0_l.
Qed.

End StoreMore.

(** ** More on the output normaliser *)

Lemma store_same (d : list (string * json)) (k : string) (v : json) :
  PyVal.lookup d k = Some v -> PyVal.store d k v = d.
Proof.
  induction d as [|[k0 v0] d IH]; simpl; [discriminate|].
  destruct (String.eqb k0 k).
  - intros E. now injection E as ->.
  - intros E. now rewrite (IH E).
Qed.

Lemma store_store (d : list (string * json)) (k : string) (v w : json) :
  PyVal.store (PyVal.store d k v) k w = PyVal.store d k w.
Proof.
  induction d as [|[k0 v0] d IH]; simpl.
  - now rewrite String.eqb_refl.
  - destruct (String.eqb k0 k) eqn:E; simpl; rewrite E; [reflexivity|].
    now rewrite IH.
Qed.

Lemma store_absent (d : list (string * json)) (k : string) (v : json) :
  PyVal.lookup d k = None -> PyVal.store d k v = (d ++ [(k, v)])%list.
Proof.
  induction d as [|[k0 v0] d IH]; simpl; [reflexivity|].
  destruct (String.eqb k0 k); [discriminate|].
  intros E. now rewrite (IH E).
Qed.

Lemma store_truthy (d : list (string * json)) (k : string) (v : json) :
  PyVal.truthy (JObj (PyVal.store d k v)) = true.
Proof.
  destruct d as [|[k0 v0] d]; simpl; [reflexivity|].
  now destruct (String.eqb k0 k).
Qed.

Lemma updated_same (f : json) (k : string) (node : json) :
  member f k = Some node \/ member f k = None -> updated f k node = f.
Proof.
  unfold updated, PyVal.has_key.
  destruct f as [| | | | | |d]; try reflexivity. simpl.
  intros [E|E]; rewrite E; [|reflexivity].
  simpl. now rewrite (store_same d k node E).
Qed.

Lemma updated_is_dict (f : json) (k : string) (node : json) :
  PyVal.is_dict (updated f k node) = PyVal.is_dict f.
Proof.
  unfold updated. destruct (PyVal.has_key f k); [|reflexivity].
  now destruct f.
Qed.

Lemma coerce_number_float_or_null (c : option spec_float) :
  coerce_number (PyVal.of_opt_float c) = Ok c.
Proof. now destruct c. Qed.

Lemma coerce_value_idem (node node' : json) :
  coerce_value node = Ok node' -> coerce_value node' = Ok node'.
Proof.
  unfold coerce_value.
  destruct node as [| | | | | |d]; simpl;
    try (intros E; injection E as <-; reflexivity).
  destruct (coerce_number
              match PyVal.lookup d "value" with Some v => v | None => JNull end)
    as [c|e]; simpl; [|discriminate].
  intros E. injection E as <-. simpl.
  rewrite lookup_store. simpl.
  rewrite coerce_number_float_or_null. simpl.
  now rewrite store_store.
Qed.


Section NormaliserMore.

Context `{CLib}.

Lemma fill_iso_idem (node node' : json) :
  fill_iso node = Ok node' -> fill_iso node' = Ok node'.
Proof.
  intros F. assert (G := F). revert G. unfold fill_iso at 1.
  destruct (PyVal.truthy node) eqn:T; cbn [negb];
    [|intros E; injection E as <-; exact F].
  destruct node as [| | | | | |d]; cbn [PyVal.get bind]; try discriminate.
  destruct (PyVal.lookup d "value") as [v|] eqn:V.
  2:{ cbn. intros E. injection E as <-. exact F. }
  destruct (PyVal.truthy v) eqn:Tv; cbn [negb];
    [|intros E; injection E as <-; exact F].
  assert (Set_ : forall X,
    X = PyVal.of_opt_str (normalize_date_to_iso v) ->
    fill_iso (JObj (PyVal.store d "value_iso" X))
    = Ok (JObj (PyVal.store d "value_iso" X))).
  { intros X HX. unfold fill_iso. rewrite store_truthy. cbn [negb PyVal.get bind].
    rewrite !lookup_store. cbn [String.eqb Ascii.eqb Bool.eqb].
    rewrite V, Tv. cbn [negb].
    destruct (PyVal.truthy X); [reflexivity|].
    cbn [PyVal.setitem]. rewrite store_store. now rewrite <- HX. }
  destruct (PyVal.lookup d "value_iso") as [iso|] eqn:I.
  - destruct (PyVal.truthy iso) eqn:Ti.
    + intros E. injection E as <-. exact F.
    + intros E. injection E as <-. now apply Set_.
  - cbn [PyVal.truthy]. intros E. injection E as <-. now apply Set_.
Qed.

Lemma node_fix_idem (k : string) (node node' : json) :
  node_fix k node = Ok node' -> node_fix k node' = Ok node'.
Proof.
  unfold node_fix. destruct (is_date_field k);
    [apply fill_iso_idem|apply coerce_value_idem].
Qed.

Lemma coerce_loop_is_dict (ks : list string) :
  forall (fi f' : json) (oe : option exn),
    coerce_loop ks fi = (f', oe) -> PyVal.is_dict f' = PyVal.is_dict fi.
Proof.
  induction ks as [|k ks IH]; intros fi f' oe E; simpl in E.
  - now injection E as <- _.
  - destruct (PyVal.get fi k JNull) as [node|e]; [|now injection E as <- _].
    destruct (coerce_value node) as [node'|e]; [|now injection E as <- _].
    rewrite (IH _ _ _ E). apply updated_is_dict.
Qed.

Lemma normalize_fields_is_dict (f f' : json) (oe : option exn) :
  normalize_fields f = (f', oe) ->
  PyVal.is_dict f' = PyVal.is_dict f /\ (oe = None -> PyVal.is_dict f = true).
Proof.
  unfold normalize_fields.
  destruct f as [| | | | | |d];
    try (cbn; intros E; injection E as <- <-; split; [reflexivity|discriminate]).
  cbn [PyVal.get].
  destruct (fill_iso _) as [inv'|e]; [|intros E; injection E as <- _; now split].
  destruct (fill_iso _) as [due'|e].
  - intros E. apply coerce_loop_is_dict in E.
    rewrite E, !updated_is_dict. now split.
  - intros E. injection E as <- _. rewrite updated_is_dict. now split.
Qed.

(** A mapping on which the block has nothing left to do. *)
Lemma coerce_loop_settled (ks : list string) (f : json) :
  PyVal.is_dict f = true ->
  (forall k node, In k ks -> member f k = Some node -> coerce_value node = Ok node) ->
  coerce_loop ks f = (f, None).
Proof.
  intros D Fix. induction ks as [|k ks IH]; [reflexivity|].
  cbn [coerce_loop].
  destruct f as [| | | | | |d]; try discriminate. cbn [PyVal.get].
  destruct (PyVal.lookup d k) as [node|] eqn:L.
  - rewrite (Fix k node (or_introl eq_refl) L).
    rewrite (updated_same (JObj d) k node (or_introl L)).
    apply IH. intros k' node' I M. apply (Fix k' node'); [now right|exact M].
  - cbn. rewrite (updated_same (JObj d) k JNull (or_intror L)).
    apply IH. intros k' node' I M. apply (Fix k' node'); [now right|exact M].
Qed.

Lemma normalize_fields_settled (f : json) :
  PyVal.is_dict f = true ->
  (forall k node, In k date_fields \/ In k number_fields ->
     member f k = Some node -> node_fix k node = Ok node) ->
  normalize_fields f = (f, None).
Proof.
  intros D Fix. unfold normalize_fields.
  destruct f as [| | | | | |d]; try discriminate. cbn [PyVal.get].
  assert (Date : forall k, In k date_fields ->
    exists node,
      fill_iso match PyVal.lookup d k with Some v => v | None => JObj [] end = Ok node
      /\ updated (JObj d) k node = JObj d).
  { intros k I. destruct (PyVal.lookup d k) as [node|] eqn:L.
    - exists node. split.
      + pose proof (Fix k node (or_introl I) L) as Q. unfold node_fix in Q.
        now rewrite (proj2 (is_date_field_In k) I) in Q.
      + apply updated_same. now left.
    - exists (JObj []). split; [reflexivity|]. apply updated_same. now right. }
  destruct (Date "invoice_date") as (inv' & F1 & U1); [now left|].
  destruct (Date "due_date") as (due' & F2 & U2); [right; now left|].
  rewrite F1, F2, U1, U2.
  apply coerce_loop_settled; [reflexivity|].
  intros k node I M.
  pose proof (Fix k node (or_intror I) M) as Q. unfold node_fix in Q.
  now rewrite (number_field_not_date k (proj2 (is_number_field_In k) I)) in Q.
Qed.

Lemma normalize_fields_result_settled (f f' : json) :
  normalize_fields f = (f', None) -> normalize_fields f' = (f', None).
Proof.
  intros E.
  destruct (normalize_fields_is_dict f f' None E) as [D1 D2].
  destruct (normalize_fields_inv f f' None E) as (done & I & Sound & Complete).
  apply normalize_fields_settled.
  - rewrite D1. now apply D2.
  - intros k node' K M.
    destruct (I k) as [Q _]. specialize (Q (Complete eq_refl k K)).
    unfold node_normalised in Q.
    destruct (member f k) as [node|]; [|congruence].
    destruct Q as (node'' & M' & F). rewrite M in M'. injection M' as <-.
    now apply (node_fix_idem k node).
Qed.

(** X7: the normaliser is idempotent.  Applied to what it returned without
    raising, it returns the same object again and does not raise. *)
Theorem normalize_output_idempotent (ef ef' : json) :
  normalize_output ef = (ef', None) -> normalize_output ef' = (ef', None).
Proof.
  unfold normalize_output at 1.
  destruct ef as [| | | | | |d]; try discriminate. cbn [PyVal.get].
  destruct (normalize_fields
              match PyVal.lookup d "fields" with Some v => v | None => JObj [] end)
    as [f' [e|]] eqn:NF; [discriminate|].
  intros E. injection E as <-.
  unfold normalize_output. cbn [PyVal.setitem PyVal.get].
  rewrite lookup_store, String.eqb_refl.
  rewrite (normalize_fields_result_settled _ _ NF).
  cbn [PyVal.setitem]. now rewrite store_store.
Qed.

(** X8: an answer object without a ["fields"] member gets an empty one as
    its last member; nothing else changes and nothing is raised. *)
Theorem normalize_output_adds_fields (d : list (string * json)) :
  PyVal.lookup d "fields" = None ->
  normalize_output (JObj d) = (JObj (d ++ [("fields", JObj [])]), None).
Proof.
  intros L. unfold normalize_output. cbn [PyVal.get]. rewrite L.
  rewrite normalize_fields_empty. cbn [PyVal.setitem].
  now rewrite (store_absent d "fields" (JObj []) L).
Qed.

(** X9: when ["fields"] is there but is not an object, the normaliser
    raises the attribute error that names its type and leaves the answer as
    it was. *)
Theorem normalize_output_fields_not_dict (ef f : json) :
  member ef "fields" = Some f -> PyVal.is_dict f = false ->
  normalize_output ef
  = (ef, Some (AttributeError
                 ("'" ++ PyVal.type_name f ++ "' object has no attribute 'get'"))).
Proof.
  intros M D. unfold normalize_output.
  rewrite (get_of_member ef "fields" (JObj []) f M).
  assert (N : normalize_fields f = (f, Some (PyVal.no_attribute f "get")))
    by (destruct f; try discriminate; reflexivity).
  rewrite N. rewrite (updated_same ef "fields" f (or_introl M)).
  destruct f; try discriminate; reflexivity.
Qed.

(** X10: an [invoice_date] given as a bare truthy value instead of an
    object stops the normaliser at once: it raises the attribute error that
    names the value's type, and the answer, its numeric fields included, is
    left as it was. *)
Theorem normalize_output_bare_invoice_date (ef f node : json) :
  member ef "fields" = Some f -> member f "invoice_date" = Some node ->
  PyVal.truthy node = true -> PyVal.is_dict node = false ->
  normalize_output ef
  = (ef, Some (AttributeError
                 ("'" ++ PyVal.type_name node ++ "' object has no attribute 'get'"))).
Proof.
  intros M Mi T D. unfold normalize_output.
  rewrite (get_of_member ef "fields" (JObj []) f M).
  assert (N : normalize_fields f = (f, Some (PyVal.no_attribute node "get"))).
  { unfold normalize_fields.
    rewrite (get_of_member f "invoice_date" (JObj []) node Mi).
    destruct f as [| | | | | |d]; try discriminate. cbn [PyVal.get].
    unfold fill_iso. rewrite T. cbn [negb].
    destruct node; try discriminate; reflexivity. }
  rewrite N. rewrite (updated_same ef "fields" f (or_introl M)).
  destruct node; try discriminate; reflexivity.
Qed.


End NormaliserMore.

(** ** More on the extraction run *)

Section RunMore.

Context {host : AgentHost} {decoder : JsonDecoder} {clib : CLib}.


(** X11: without a non-empty key in the environment and in the secrets
    file, a run ends before the agent is asked: the error is the
    configuration message, [extraction] stays [{}] and there is no raw
    answer. *)
Theorem run_without_api_key (task : string) :
  env_api_key = None \/ env_api_key = Some "" ->
  secrets_api_key = None \/ secrets_api_key = Some "" ->
  extraction_run true task
  = mkrun (JObj []) None
      (Some "ANTHROPIC_API_KEY not set. Set it as an environment variable or in .streamlit/secrets.toml").
Proof.
  intros E S. unfold extraction_run, build_agent, get_anthropic_key.
  destruct E as [-> | ->]; destruct S as [-> | ->]; reflexivity.
Qed.

(** X12: when the fence-stripped answer does not decode, the normaliser is
    not run: [extraction] stays [{}], the raw answer is kept as it came, and
    the error is the "invalid JSON" message for a [JSONDecodeError] and the
    text of the exception for any other. *)
Theorem run_on_undecodable_answer (task text key : string) (e : exn) :
  get_anthropic_key = Some key -> key <> "" ->
  agent_answer task = Ok text ->
  json_loads (extract_json text) = Raise e ->
  extraction_run true task
  = mkrun (JObj []) (Some text)
      (Some match e with
            | JSONDecodeError _ =>
                "Claude did not return valid JSON. See agent_output_raw for details."
            | _ => str_exn e
            end).
Proof.
  intros K NE A L. unfold extraction_run.
  rewrite (build_agent_with_key key K NE), A, L.
  now destruct e.
Qed.


End RunMore.

(** ** Dates, in general *)

Lemma In_digits10 (a : Z) : 0 <= a <= 9 -> In a digits10.
Proof.
  intros Ha.
  assert (C : a = 0 \/ a = 1 \/ a = 2 \/ a = 3 \/ a = 4 \/ a = 5 \/ a = 6
              \/ a = 7 \/ a = 8 \/ a = 9) by lia.
  unfold digits10. simpl. intuition.
Qed.

Lemma digit_char_isdigit (a : Z) :
  In a digits10 -> PyStr.isdigit (digit_char a) = true.
Proof.
  intros I. unfold digits10 in I.
  repeat (destruct I as [<-|I]; [reflexivity|]). destruct I.
Qed.

Lemma isdigit_not_space (c : ascii) :
  PyStr.isdigit c = true -> PyStr.isspace c = false.
Proof.
  unfold PyStr.isdigit, PyStr.isspace. cbv zeta. intros D.
  apply andb_true_iff in D. destruct D as [D1 D2].
  apply Nat.leb_le in D1, D2.
  repeat (apply orb_false_iff; split);
    try (apply andb_false_iff);
    try (apply Nat.eqb_neq; lia).
  - right. apply Nat.leb_gt. lia.
  - right. apply Nat.leb_gt. lia.
Qed.

Lemma all_two_digit_ok :
  forallb (fun a => forallb (two_digit_ok a) digits10) digits10 = true.
Proof. vm_compute. reflexivity. Qed.

Lemma all_four_digit_ok :
  forallb (fun a => forallb (fun b => forallb (fun c =>
    forallb (four_digit_ok a b c) digits10) digits10) digits10) digits10 = true.
Proof. vm_compute. reflexivity. Qed.

(** The two digits of a number below 100. *)
Lemma two_digits (n : Z) :
  0 <= n <= 99 ->
  exists a b,
    Datetime.zero_pad 2 n = String a (String b "")
    /\ PyStr.isdigit a = true /\ PyStr.isdigit b = true
    /\ PyNum.int_of_string (String a (String b "")) = Some n.
Proof.
  intros Hn.
  pose proof all_two_digit_ok as T. rewrite forallb_forall in T.
  assert (Ia : In (n / 10) digits10)
    by (apply In_digits10; Z.div_mod_to_equations; lia).
  assert (Ib : In (n mod 10) digits10)
    by (apply In_digits10; Z.div_mod_to_equations; lia).
  specialize (T _ Ia). rewrite forallb_forall in T. specialize (T _ Ib).
  unfold two_digit_ok in T. cbv zeta in T.
  replace (10 * (n / 10) + n mod 10) with n in T
    by (Z.div_mod_to_equations; lia).
  apply andb_true_iff in T. destruct T as [T1 T2].
  apply String.eqb_eq in T1.
  exists (digit_char (n / 10)), (digit_char (n mod 10)).
  split; [exact T1|]. split; [now apply digit_char_isdigit|].
  split; [now apply digit_char_isdigit|].
  destruct (PyNum.int_of_string _) as [k|]; [|discriminate].
  apply Z.eqb_eq in T2. now subst.
Qed.

(** The four digits of a number below 10000. *)
Lemma four_digits (n : Z) :
  0 <= n <= 9999 ->
  exists a b c d,
    Datetime.zero_pad 4 n = String a (String b (String c (String d "")))
    /\ PyStr.isdigit a = true /\ PyStr.isdigit b = true
    /\ PyStr.isdigit c = true /\ PyStr.isdigit d = true
    /\ PyNum.int_of_string (String a (String b (String c (String d "")))) = Some n
    /\ (1000 <= n -> PyStr.str_int n = Datetime.zero_pad 4 n).
Proof.
  intros Hn.
  pose proof all_four_digit_ok as T. rewrite forallb_forall in T.
  assert (Ia : In (n / 1000) digits10)
    by (apply In_digits10; Z.div_mod_to_equations; lia).
  assert (Ib : In (n / 100 mod 10) digits10)
    by (apply In_digits10; Z.div_mod_to_equations; lia).
  assert (Ic : In (n / 10 mod 10) digits10)
    by (apply In_digits10; Z.div_mod_to_equations; lia).
  assert (Id : In (n mod 10) digits10)
    by (apply In_digits10; Z.div_mod_to_equations; lia).
  specialize (T _ Ia). rewrite forallb_forall in T.
  specialize (T _ Ib). rewrite forallb_forall in T.
  specialize (T _ Ic). rewrite forallb_forall in T.
  specialize (T _ Id).
  unfold four_digit_ok in T. cbv zeta in T.
  replace (1000 * (n / 1000) + 100 * (n / 100 mod 10) + 10 * (n / 10 mod 10) + n mod 10)
    with n in T by (Z.div_mod_to_equations; lia).
  apply andb_true_iff in T. destruct T as [T T3].
  apply andb_true_iff in T. destruct T as [T1 T2].
  apply String.eqb_eq in T1.
  exists (digit_char (n / 1000)), (digit_char (n / 100 mod 10)),
         (digit_char (n / 10 mod 10)), (digit_char (n mod 10)).
  split; [exact T1|].
  do 4 (split; [now apply digit_char_isdigit|]).
  split.
  - destruct (PyNum.int_of_string _) as [k|]; [|discriminate].
    apply Z.eqb_eq in T2. now subst.
  - intros Big. rewrite T1.
    apply orb_true_iff in T3. destruct T3 as [T3|T3].
    + apply Z.ltb_lt in T3. lia.
    + now apply String.eqb_eq in T3.
Qed.

Lemma int_zero_pad_2 (n : Z) :
  0 <= n <= 99 -> PyNum.int_of_string (Datetime.zero_pad 2 n) = Some n.
Proof.
  intros Hn. destruct (two_digits n Hn) as (a & b & E & _ & _ & I).
  now rewrite E.
Qed.

Lemma int_zero_pad_4 (n : Z) :
  0 <= n <= 9999 -> PyNum.int_of_string (Datetime.zero_pad 4 n) = Some n.
Proof.
  intros Hn. destruct (four_digits n Hn) as (a & b & c & d & E & _ & _ & _ & _ & I & _).
  now rewrite E.
Qed.

Lemma consumed_2 (a b : ascii) (rest : string) :
  Re.consumed (String a (String b rest)) rest = String a (String b "").
Proof. apply (consumed_app (String a (String b "")) rest). Qed.

Lemma consumed_4 (a b c d : ascii) (rest : string) :
  Re.consumed (String a (String b (String c (String d rest)))) rest
  = String a (String b (String c (String d ""))).
Proof. apply (consumed_app (String a (String b (String c (String d "")))) rest). Qed.

Lemma valid_date_bounds (y m d : Z) :
  Datetime.valid_date y m d = true ->
  1 <= y <= 9999 /\ 1 <= m <= 12 /\ 1 <= d <= 31.
Proof.
  unfold Datetime.valid_date. intros V.
  repeat (apply andb_true_iff in V; destruct V as [V ?]).
  assert (Datetime.days_in_month y m <= 31).
  { unfold Datetime.days_in_month.
    destruct (m =? 2); [destruct (Datetime.is_leap y); lia|].
    destruct ((m =? 4) || (m =? 6) || (m =? 9) || (m =? 11)); lia. }
  lia.
Qed.

Ltac pad_literal :=
  repeat match goal with
  | |- context [Datetime.zero_pad 2 ?n] =>
      let s := eval vm_compute in (Datetime.zero_pad 2 n) in
      change (Datetime.zero_pad 2 n) with s
  end.

Section Directives.

Context {R : Type}.

(** [%m] matches the two digits of a month. *)
Lemma month_matches (rx : Re.regex) (m : Z) (rest : string) (cs : Re.caps)
  (k : string -> Re.caps -> option R) (x : R) :
  Datetime.directive "m" = Some rx -> 1 <= m <= 12 ->
  k rest (("m", Datetime.zero_pad 2 m) :: cs) = Some x ->
  Re.rmatch true rx (Datetime.zero_pad 2 m ++ rest) cs k = Some x.
Proof.
  intros E Hm. vm_compute in E. injection E as <-.
  assert (C : m = 1 \/ m = 2 \/ m = 3 \/ m = 4 \/ m = 5 \/ m = 6 \/ m = 7
              \/ m = 8 \/ m = 9 \/ m = 10 \/ m = 11 \/ m = 12) by lia.
  repeat (destruct C as [->|C]; [|]); try subst m;
    pad_literal; intros K; cbn -[Re.consumed];
    rewrite consumed_2, K; reflexivity.
Qed.

(** [%d] matches the two digits of a day. *)
Lemma day_matches (rx : Re.regex) (d : Z) (rest : string) (cs : Re.caps)
  (k : string -> Re.caps -> option R) (x : R) :
  Datetime.directive "d" = Some rx -> 1 <= d <= 31 ->
  k rest (("d", Datetime.zero_pad 2 d) :: cs) = Some x ->
  Re.rmatch true rx (Datetime.zero_pad 2 d ++ rest) cs k = Some x.
Proof.
  intros E Hd. vm_compute in E. injection E as <-.
  assert (C : d = 1 \/ d = 2 \/ d = 3 \/ d = 4 \/ d = 5 \/ d = 6 \/ d = 7
              \/ d = 8 \/ d = 9 \/ d = 10 \/ d = 11 \/ d = 12 \/ d = 13
              \/ d = 14 \/ d = 15 \/ d = 16 \/ d = 17 \/ d = 18 \/ d = 19
              \/ d = 20 \/ d = 21 \/ d = 22 \/ d = 23 \/ d = 24 \/ d = 25
              \/ d = 26 \/ d = 27 \/ d = 28 \/ d = 29 \/ d = 30 \/ d = 31) by lia.
  repeat (destruct C as [->|C]; [|]); try subst d;
    pad_literal; intros K; cbn -[Re.consumed];
    rewrite consumed_2, K; reflexivity.
Qed.

(** [%y] takes two digits and [%Y] takes four. *)
Lemma short_year_matches (rx : Re.regex) (a b : ascii) (rest : string)
  (cs : Re.caps) (k : string -> Re.caps -> option R) :
  Datetime.directive "y" = Some rx ->
  PyStr.isdigit a = true -> PyStr.isdigit b = true ->
  Re.rmatch true rx (String a (String b rest)) cs k
  = k rest (("y", String a (String b "")) :: cs).
Proof.
  intros E Da Db. vm_compute in E. injection E as <-.
  cbn [Re.rmatch Re.atom_match]. rewrite Da, Db. now rewrite consumed_2.
Qed.

Lemma long_year_matches (rx : Re.regex) (a b c d : ascii) (rest : string)
  (cs : Re.caps) (k : string -> Re.caps -> option R) :
  Datetime.directive "Y" = Some rx ->
  PyStr.isdigit a = true -> PyStr.isdigit b = true ->
  PyStr.isdigit c = true -> PyStr.isdigit d = true ->
  Re.rmatch true rx (String a (String b (String c (String d rest)))) cs k
  = k rest (("Y", String a (String b (String c (String d "")))) :: cs).
Proof.
  intros E Da Db Dc Dd. vm_compute in E. injection E as <-.
  cbn [Re.rmatch Re.atom_match]. rewrite Da, Db, Dc, Dd. now rewrite consumed_4.
Qed.

(** [%m] followed by a character that no digit matches fails on three
    digits in a row. *)
Lemma month_fails (rx : Re.regex) (a b c : ascii) (rest : string) (cs : Re.caps)
  (k : string -> Re.caps -> option R) :
  Datetime.directive "m" = Some rx ->
  PyStr.isdigit b = true -> PyStr.isdigit c = true ->
  (forall ch s cs', PyStr.isdigit ch = true -> k (String ch s) cs' = None) ->
  Re.rmatch true rx (String a (String b (String c rest))) cs k = None.
Proof.
  intros E Db Dc K. vm_compute in E. injection E as <-.
  cbn [Re.rmatch].
  repeat match goal with
  | |- context [Re.atom_match ?i ?t ?ch] => destruct (Re.atom_match i t ch)
  end; rewrite ?K by assumption; reflexivity.
Qed.

(** [%Y] fails when the third character is not a digit. *)
Lemma long_year_fails (rx : Re.regex) (a b c : ascii) (rest : string) (cs : Re.caps)
  (k : string -> Re.caps -> option R) :
  Datetime.directive "Y" = Some rx -> PyStr.isdigit c = false ->
  Re.rmatch true rx (String a (String b (String c rest))) cs k = None.
Proof.
  intros E Dc. vm_compute in E. injection E as <-.
  cbn [Re.rmatch Re.atom_match]. rewrite Dc.
  destruct (PyStr.isdigit a); [|reflexivity].
  destruct (PyStr.isdigit b); reflexivity.
Qed.

End Directives.

Lemma separator_not_digit (sep ch : ascii) :
  PyStr.lower sep = sep -> (nat_of_ascii sep <? 48)%nat = true ->
  PyStr.isdigit ch = true -> Re.atom_match true (Re.Chr sep) ch = false.
Proof.
  intros L N D. apply Nat.ltb_lt in N. cbn [Re.atom_match].
  rewrite lower_fixes by (try exact L; left; lia).
  apply Ascii.eqb_neq. intros ->.
  unfold PyStr.isdigit in D. cbv zeta in D.
  apply andb_true_iff in D. destruct D as [D _]. apply Nat.leb_le in D. lia.
Qed.

Lemma strip_between (a b : ascii) (s : string) :
  PyStr.isspace a = false -> PyStr.isspace b = false ->
  PyStr.strip (String a (s ++ String b "")) = String a (s ++ String b "").
Proof.
  intros Na Nb. unfold PyStr.strip, PyStr.strip_by.
  cbn [PyStr.lstrip_by]. rewrite Na.
  rewrite (rstrip_by_head PyStr.isspace a _ Na).
  now rewrite (rstrip_keeps_last s b Nb).
Qed.

(** The patterns of the three formats. *)
Lemma pattern_mdy (c : ascii) :
  Datetime.pattern (String "%" (String "m" (String "/" (String "%" (String "d"
     (String "/" (String "%" (String c ""))))))))
  = match Datetime.directive "m", Datetime.directive "d", Datetime.directive c with
    | Some rm, Some rd, Some ry =>
        Some (Re.Seq rm (Re.Seq (Datetime.chr "/") (Re.Seq rd
               (Re.Seq (Datetime.chr "/") (Re.Seq ry Re.Eps)))))
    | _, _, _ => None
    end.
Proof.
  unfold Datetime.pattern. cbn [Datetime.pattern_from].
  change (Ascii.eqb "%" "%") with true. change (Ascii.eqb "/" "%") with false.
  change (PyStr.isspace "/") with false. cbv iota.
  destruct (Datetime.directive c); reflexivity.
Qed.

Lemma pattern_ymd :
  Datetime.pattern "%Y-%m-%d"
  = match Datetime.directive "Y", Datetime.directive "m", Datetime.directive "d" with
    | Some ry, Some rm, Some rd =>
        Some (Re.Seq ry (Re.Seq (Datetime.chr "-") (Re.Seq rm
               (Re.Seq (Datetime.chr "-") (Re.Seq rd Re.Eps)))))
    | _, _, _ => None
    end.
Proof. reflexivity. Qed.

Ltac directives :=
  destruct (Datetime.directive "m") as [rm|] eqn:Em; [|vm_compute in Em; discriminate];
  destruct (Datetime.directive "d") as [rd|] eqn:Ed; [|vm_compute in Ed; discriminate].

Ltac separator :=
  cbn [append Re.rmatch Datetime.chr];
  first [ change (Re.atom_match true (Re.Chr "/") "/") with true
        | change (Re.atom_match true (Re.Chr "-") "-") with true ];
  cbv iota.

Lemma match_mdy_long (y m d : Z) (rm rd ry : Re.regex) :
  Datetime.directive "m" = Some rm -> Datetime.directive "d" = Some rd ->
  Datetime.directive "Y" = Some ry ->
  1 <= y <= 9999 -> 1 <= m <= 12 -> 1 <= d <= 31 ->
  Re.re_match true
    (Re.Seq rm (Re.Seq (Datetime.chr "/") (Re.Seq rd
       (Re.Seq (Datetime.chr "/") (Re.Seq ry Re.Eps)))))
    (mdy_long y m d)
  = Some ("", [("Y", Datetime.zero_pad 4 y); ("d", Datetime.zero_pad 2 d);
               ("m", Datetime.zero_pad 2 m)]).
Proof.
  intros Em Ed Ey Hy Hm Hd. unfold Re.re_match, mdy_long. cbn [Re.rmatch].
  apply (month_matches rm m _ _ _ _ Em Hm). separator.
  apply (day_matches rd d _ _ _ _ Ed Hd). separator.
  destruct (four_digits y) as (a & b & c & e & E & Da & Db & Dc & De & _); [lia|].
  rewrite E. cbn [append].
  now rewrite (long_year_matches ry a b c e _ _ _ Ey Da Db Dc De).
Qed.

Lemma append_empty (s : string) : s ++ "" = s.
Proof. induction s as [|c s IH]; simpl; [reflexivity|now rewrite IH]. Qed.

Lemma match_mdy_long_short_year (y m d : Z) (rm rd ry : Re.regex) :
  Datetime.directive "m" = Some rm -> Datetime.directive "d" = Some rd ->
  Datetime.directive "y" = Some ry ->
  1 <= y <= 9999 -> 1 <= m <= 12 -> 1 <= d <= 31 ->
  exists c e cs,
    Re.re_match true
      (Re.Seq rm (Re.Seq (Datetime.chr "/") (Re.Seq rd
         (Re.Seq (Datetime.chr "/") (Re.Seq ry Re.Eps)))))
      (mdy_long y m d)
    = Some (String c (String e ""), cs).
Proof.
  intros Em Ed Ey Hy Hm Hd.
  destruct (four_digits y) as (a & b & c & e & E & Da & Db & _); [lia|].
  exists c, e. eexists. unfold Re.re_match, mdy_long. cbn [Re.rmatch].
  apply (month_matches rm m _ _ _ _ Em Hm). separator.
  apply (day_matches rd d _ _ _ _ Ed Hd). separator.
  rewrite E. cbn [append].
  rewrite (short_year_matches ry a b _ _ _ Ey Da Db). cbn [Re.rmatch].
  reflexivity.
Qed.

Lemma match_mdy_short (y m d : Z) (rm rd ry : Re.regex) :
  Datetime.directive "m" = Some rm -> Datetime.directive "d" = Some rd ->
  Datetime.directive "y" = Some ry ->
  1 <= m <= 12 -> 1 <= d <= 31 ->
  Re.re_match true
    (Re.Seq rm (Re.Seq (Datetime.chr "/") (Re.Seq rd
       (Re.Seq (Datetime.chr "/") (Re.Seq ry Re.Eps)))))
    (mdy_short y m d)
  = Some ("", [("y", Datetime.zero_pad 2 (y mod 100)); ("d", Datetime.zero_pad 2 d);
               ("m", Datetime.zero_pad 2 m)]).
Proof.
  intros Em Ed Ey Hm Hd. unfold Re.re_match, mdy_short. cbn [Re.rmatch].
  apply (month_matches rm m _ _ _ _ Em Hm). separator.
  apply (day_matches rd d _ _ _ _ Ed Hd). separator.
  destruct (two_digits (y mod 100)) as (a & b & E & Da & Db & _);
    [Z.div_mod_to_equations; lia|].
  rewrite E.
  now rewrite (short_year_matches ry a b _ _ _ Ey Da Db).
Qed.

Lemma match_iso (y m d : Z) (rm rd ry : Re.regex) :
  Datetime.directive "m" = Some rm -> Datetime.directive "d" = Some rd ->
  Datetime.directive "Y" = Some ry ->
  1 <= y <= 9999 -> 1 <= m <= 12 -> 1 <= d <= 31 ->
  Re.re_match true
    (Re.Seq ry (Re.Seq (Datetime.chr "-") (Re.Seq rm
       (Re.Seq (Datetime.chr "-") (Re.Seq rd Re.Eps)))))
    (iso_date y m d)
  = Some ("", [("d", Datetime.zero_pad 2 d); ("m", Datetime.zero_pad 2 m);
               ("Y", Datetime.zero_pad 4 y)]).
Proof.
  intros Em Ed Ey Hy Hm Hd. unfold Re.re_match, iso_date. cbn [Re.rmatch].
  destruct (four_digits y) as (a & b & c & e & E & Da & Db & Dc & De & _); [lia|].
  rewrite E. cbn [append].
  rewrite (long_year_matches ry a b c e _ _ _ Ey Da Db Dc De). separator.
  apply (month_matches rm m _ _ _ _ Em Hm). separator.
  rewrite <- (append_empty (Datetime.zero_pad 2 d)) at 1.
  now apply (day_matches rd d _ _ _ _ Ed Hd).
Qed.

(** A text that starts with three digits matches no format that starts
    with [%m/]. *)
Lemma match_iso_mdy (y m d : Z) (rm rest : Re.regex) :
  Datetime.directive "m" = Some rm -> 1 <= y <= 9999 ->
  Re.re_match true (Re.Seq rm (Re.Seq (Datetime.chr "/") rest)) (iso_date y m d)
  = None.
Proof.
  intros Em Hy. unfold Re.re_match, iso_date. cbn [Re.rmatch].
  destruct (four_digits y) as (a & b & c & e & E & Da & Db & Dc & De & _); [lia|].
  rewrite E. cbn [append].
  apply (month_fails rm a b c _ _ _ Em Db Dc).
  intros ch s cs' D. cbn [Re.rmatch Datetime.chr].
  now rewrite (separator_not_digit "/" ch eq_refl eq_refl D).
Qed.

(** A text whose third character is a slash matches no format that starts
    with [%Y]. *)
Lemma match_mdy_iso (m : Z) (tail : string) (ry rest : Re.regex) :
  Datetime.directive "Y" = Some ry -> 1 <= m <= 12 ->
  Re.re_match true (Re.Seq ry rest) (Datetime.zero_pad 2 m ++ "/" ++ tail) = None.
Proof.
  intros Ey Hm. unfold Re.re_match. cbn [Re.rmatch].
  destruct (two_digits m) as (a & b & E & _); [lia|].
  rewrite E. cbn [append].
  now apply (long_year_fails ry a b "/").
Qed.

Ltac groups side :=
  cbn [rev app fold_left Datetime.set_group];
  repeat (first [rewrite int_zero_pad_2 by side | rewrite int_zero_pad_4 by side];
          cbn [fold_left Datetime.set_group String.eqb Ascii.eqb Bool.eqb
               Datetime.f_year Datetime.f_month Datetime.f_day]).

Lemma strptime_mdy_long (y m d : Z) :
  1 <= y <= 9999 -> 1 <= m <= 12 -> 1 <= d <= 31 ->
  Datetime.strptime (mdy_long y m d) "%m/%d/%Y"
  = (if Datetime.valid_date y m d then Some (Datetime.mkdate y m d) else None)
  /\ Datetime.strptime (mdy_long y m d) "%m/%d/%y" = None
  /\ Datetime.strptime (mdy_long y m d) "%Y-%m-%d" = None.
Proof.
  intros Hy Hm Hd. unfold Datetime.strptime.
  rewrite !pattern_mdy, pattern_ymd. directives.
  destruct (Datetime.directive "Y") as [rY|] eqn:EY; [|vm_compute in EY; discriminate].
  destruct (Datetime.directive "y") as [ry|] eqn:Ey; [|vm_compute in Ey; discriminate].
  split; [|split].
  - rewrite (match_mdy_long y m d rm rd rY Em Ed EY Hy Hm Hd).
    groups lia. reflexivity.
  - destruct (match_mdy_long_short_year y m d rm rd ry Em Ed Ey Hy Hm Hd)
      as (c & e & cs & ->). reflexivity.
  - unfold mdy_long. now rewrite (match_mdy_iso m _ rY _ EY Hm).
Qed.

Lemma strptime_iso (y m d : Z) :
  1 <= y <= 9999 -> 1 <= m <= 12 -> 1 <= d <= 31 ->
  Datetime.strptime (iso_date y m d) "%Y-%m-%d"
  = (if Datetime.valid_date y m d then Some (Datetime.mkdate y m d) else None)
  /\ Datetime.strptime (iso_date y m d) "%m/%d/%y" = None
  /\ Datetime.strptime (iso_date y m d) "%m/%d/%Y" = None.
Proof.
  intros Hy Hm Hd. unfold Datetime.strptime.
  rewrite !pattern_mdy, pattern_ymd. directives.
  destruct (Datetime.directive "Y") as [rY|] eqn:EY; [|vm_compute in EY; discriminate].
  destruct (Datetime.directive "y") as [ry|] eqn:Ey; [|vm_compute in Ey; discriminate].
  split; [|split].
  - rewrite (match_iso y m d rm rd rY Em Ed EY Hy Hm Hd).
    groups lia. reflexivity.
  - now rewrite (match_iso_mdy y m d rm _ Em Hy).
  - now rewrite (match_iso_mdy y m d rm _ Em Hy).
Qed.

(** The century of a two-digit year: 69..99 are 1969..1999 and 00..68 are
    2000..2068. *)
Lemma strptime_mdy_short (y m d : Z) :
  1969 <= y <= 2068 -> 1 <= m <= 12 -> 1 <= d <= 31 ->
  Datetime.strptime (mdy_short y m d) "%m/%d/%y"
  = (if Datetime.valid_date y m d then Some (Datetime.mkdate y m d) else None).
Proof.
  intros Hy Hm Hd. unfold Datetime.strptime.
  rewrite !pattern_mdy. directives.
  destruct (Datetime.directive "y") as [ry|] eqn:Ey; [|vm_compute in Ey; discriminate].
  rewrite (match_mdy_short y m d rm rd ry Em Ed Ey Hm Hd).
  groups ltac:(try lia; Z.div_mod_to_equations; lia).
  replace (if y mod 100 <=? 68 then y mod 100 + 2000 else y mod 100 + 1900) with y.
  - reflexivity.
  - destruct (y mod 100 <=? 68) eqn:C;
      [apply Z.leb_le in C|apply Z.leb_gt in C]; Z.div_mod_to_equations; lia.
Qed.

(** The renderings start and end with a digit. *)
Lemma renderings_shape (y m d : Z) :
  0 <= y <= 9999 -> 0 <= m <= 99 -> 0 <= d <= 99 ->
  forall r, r = mdy_short y m d \/ r = mdy_long y m d \/ r = iso_date y m d ->
  exists a s b,
    r = String a (s ++ String b "")
    /\ PyStr.isspace a = false /\ PyStr.isspace b = false.
Proof.
  intros Hy Hm Hd r Hr.
  destruct (four_digits y Hy) as (y1 & y2 & y3 & y4 & Ey & Y1 & Y2 & Y3 & Y4 & _).
  destruct (two_digits (y mod 100)) as (c1 & c2 & Ec & C1 & C2 & _);
    [Z.div_mod_to_equations; lia|].
  destruct (two_digits m Hm) as (m1 & m2 & Em & M1 & M2 & _).
  destruct (two_digits d Hd) as (d1 & d2 & Ed & D1 & D2 & _).
  apply isdigit_not_space in Y1, Y4, C2, M1, D2.
  destruct Hr as [->|[->| ->]].
  - exists m1, (String m2 (String "/" (String d1 (String d2 (String "/"
              (String c1 "")))))), c2.
    unfold mdy_short. rewrite Ec, Em, Ed. now repeat split.
  - exists m1, (String m2 (String "/" (String d1 (String d2 (String "/"
              (String y1 (String y2 (String y3 "")))))))), y4.
    unfold mdy_long. rewrite Ey, Em, Ed. now repeat split.
  - exists y1, (String y2 (String y3 (String y4 (String "-" (String m1
              (String m2 (String "-" (String d1 "")))))))), d2.
    unfold iso_date. rewrite Ey, Em, Ed. now repeat split.
Qed.

Section DatesMore.

Context `{CLib}.

Lemma normalize_rendering (y m d : Z) (r : string) :
  0 <= y <= 9999 -> 0 <= m <= 99 -> 0 <= d <= 99 ->
  r = mdy_short y m d \/ r = mdy_long y m d \/ r = iso_date y m d ->
  normalize_date_to_iso (JStr r) = first_format r date_formats.
Proof.
  intros Hy Hm Hd Hr.
  destruct (renderings_shape y m d Hy Hm Hd r Hr) as (a & s & b & E & Na & Nb).
  unfold normalize_date_to_iso. rewrite E.
  cbn [PyVal.truthy PyVal.is_str negb orb].
  now rewrite (strip_between a b s Na Nb).
Qed.

Lemma strftime_iso (y m d : Z) :
  0 <= y <= 9999 -> 1000 <= y \/ strftime_pads_year = true ->
  Datetime.strftime_ymd strftime_pads_year (Datetime.mkdate y m d) = iso_date y m d.
Proof.
  intros Hy P. unfold Datetime.strftime_ymd, iso_date.
  cbn [Datetime.year Datetime.month Datetime.day].
  destruct strftime_pads_year; [reflexivity|].
  destruct P as [P|P]; [|discriminate].
  destruct (four_digits y Hy) as (? & ? & ? & ? & _ & _ & _ & _ & _ & _ & S).
  now rewrite (S P).
Qed.

(** X14: a valid date written as MM/DD/YYYY or as YYYY-MM-DD normalises to
    YYYY-MM-DD, for every year from 1000 on (and for every year when the C
    library pads [%Y]); in particular the function leaves its own results
    unchanged. *)
Theorem normalize_date_long_and_iso (y m d : Z) :
  Datetime.valid_date y m d = true ->
  1000 <= y \/ strftime_pads_year = true ->
  normalize_date_to_iso (JStr (mdy_long y m d)) = Some (iso_date y m d)
  /\ normalize_date_to_iso (JStr (iso_date y m d)) = Some (iso_date y m d).
Proof.
  intros V P. destruct (valid_date_bounds y m d V) as (Hy & Hm & Hd).
  destruct (strptime_mdy_long y m d Hy Hm Hd) as (L2 & L1 & _).
  destruct (strptime_iso y m d Hy Hm Hd) as (I3 & I1 & I2).
  rewrite V in L2, I3.
  split.
  - rewrite (normalize_rendering y m d) by (auto; lia).
    unfold date_formats. rewrite !first_format_cons, L1, L2.
    now rewrite strftime_iso by (auto; lia).
  - rewrite (normalize_rendering y m d) by (auto; lia).
    unfold date_formats. rewrite !first_format_cons, I1, I2, I3.
    now rewrite strftime_iso by (auto; lia).
Qed.

(** X15: a valid date from 1969 to 2068 written as MM/DD/YY normalises to
    YYYY-MM-DD: the two digits 69..99 are read as 1969..1999 and 00..68 as
    2000..2068. *)
Theorem normalize_date_short (y m d : Z) :
  Datetime.valid_date y m d = true -> 1969 <= y <= 2068 ->
  normalize_date_to_iso (JStr (mdy_short y m d)) = Some (iso_date y m d).
Proof.
  intros V Hy. destruct (valid_date_bounds y m d V) as (_ & Hm & Hd).
  pose proof (strptime_mdy_short y m d Hy Hm Hd) as S. rewrite V in S.
  rewrite (normalize_rendering y m d) by (auto; lia).
  unfold date_formats. rewrite first_format_cons, S.
  now rewrite strftime_iso by (auto; lia).
Qed.

(** X16: a day that its month does not have gives null, in both spellings
    with a four-digit year: 02/30/2024, 2023-02-29 and 04/31/2024 are not
    dates. *)
Theorem normalize_date_rejects_impossible_day (y m d : Z) :
  1 <= y <= 9999 -> 1 <= m <= 12 -> 1 <= d <= 31 ->
  Datetime.valid_date y m d = false ->
  normalize_date_to_iso (JStr (mdy_long y m d)) = None
  /\ normalize_date_to_iso (JStr (iso_date y m d)) = None.
Proof.
  intros Hy Hm Hd V.
  destruct (strptime_mdy_long y m d Hy Hm Hd) as (L2 & L1 & L3).
  destruct (strptime_iso y m d Hy Hm Hd) as (I3 & I1 & I2).
  rewrite V in L2, I3.
  split.
  - rewrite (normalize_rendering y m d) by (auto; lia).
    unfold date_formats. now rewrite !first_format_cons, L1, L2, L3.
  - rewrite (normalize_rendering y m d) by (auto; lia).
    unfold date_formats. now rewrite !first_format_cons, I1, I2, I3.
Qed.

End DatesMore.

(** ** More on the fence pattern *)

Lemma fence_pattern_parts :
  fence_pattern
  = Re.Seq (Re.lit "```")
      (Re.Seq (Re.Opt (Re.lit "json")) (Re.Seq (Re.Star Re.Space) object_group)).
Proof. reflexivity. Qed.

Lemma starts_with_app (p s : string) :
  PyStr.starts_with p s = true -> exists s', s = p ++ s'.
Proof.
  revert s. induction p as [|a p IH]; intros s; simpl.
  - intros _. now exists s.
  - destruct s as [|b s]; [discriminate|]. intros E.
    apply andb_true_iff in E. destruct E as [E1 E2].
    apply Ascii.eqb_eq in E1. subst b.
    destruct (IH s E2) as [s' ->]. now exists s'.
Qed.

Lemma lstrip_app (a b : string) :
  PyStr.lstrip_by PyStr.isspace a <> "" ->
  PyStr.lstrip_by PyStr.isspace (a ++ b) = PyStr.lstrip_by PyStr.isspace a ++ b.
Proof.
  induction a as [|c a IH]; simpl; [congruence|].
  destruct (PyStr.isspace c); [exact IH|reflexivity].
Qed.

Lemma lstrip_spaces (ws s : string) :
  all_space ws = true ->
  PyStr.lstrip_by PyStr.isspace (ws ++ s) = PyStr.lstrip_by PyStr.isspace s.
Proof.
  induction ws as [|c ws IH]; simpl; [reflexivity|].
  intros E. apply andb_true_iff in E. destruct E as [-> E]. now apply IH.
Qed.

Lemma closes_fence_app (a b : string) :
  closes_fence a = true -> closes_fence (a ++ b) = true.
Proof.
  intros C. destruct (closes_fence_lstrip a C) as [r L].
  unfold closes_fence. rewrite lstrip_app by (rewrite L; discriminate).
  rewrite L. reflexivity.
Qed.

Lemma has_close_app (p s : string) :
  has_close s = true -> has_close (p ++ s) = true.
Proof.
  intros H. induction p as [|c p IH]; simpl; [exact H|].
  rewrite IH. apply orb_true_r.
Qed.

(** The object the lazy group stops at holds no closing brace that closes
    a fence. *)
Lemma no_early_close_object (body rest : string) :
  no_early_close body ("}" ++ rest) = true ->
  has_close ("{" ++ body ++ "}") = false.
Proof.
  intros N. cbn [append has_close].
  change (Ascii.eqb "{" "}") with false. cbn [andb orb].
  induction body as [|c body IH].
  - reflexivity.
  - cbn [no_early_close] in N. apply andb_true_iff in N. destruct N as [N1 N2].
    cbn [append has_close]. rewrite (IH N2), orb_false_r.
    destruct (Ascii.eqb c "}"); [|reflexivity].
    apply negb_true_iff in N1. cbn [andb].
    destruct (closes_fence (body ++ "}")) eqn:C; [|reflexivity].
    apply (closes_fence_app _ rest) in C.
    rewrite append_assoc in C. cbn [append] in *. congruence.
Qed.

Lemma no_early_close_intro (body tail : string) :
  (forall p q, body = p ++ String "}" q -> closes_fence (q ++ tail) = false) ->
  no_early_close body tail = true.
Proof.
  induction body as [|c body IH]; intros H; [reflexivity|].
  cbn [no_early_close]. apply andb_true_iff. split.
  - destruct (Ascii.eqb c "}") eqn:E; [|reflexivity].
    apply Ascii.eqb_eq in E. subst c.
    now rewrite (H "" body eq_refl).
  - apply IH. intros p q E. apply (H (String c p) q). simpl. now rewrite E.
Qed.

Lemma strip_decompose (s : string) :
  exists l r, s = l ++ PyStr.strip s ++ r.
Proof.
  assert (L : forall s, exists l, s = l ++ PyStr.lstrip_by PyStr.isspace s).
  { intros t. induction t as [|c t [l IH]]; [now exists ""|].
    simpl. destruct (PyStr.isspace c).
    - exists (String c l). simpl. now rewrite <- IH.
    - now exists "". }
  assert (Rt : forall s, exists r, s = PyStr.rstrip_by PyStr.isspace s ++ r).
  { intros t. induction t as [|c t [r IH]]; [now exists ""|].
    simpl. destruct (PyStr.rstrip_by PyStr.isspace t) as [|d x] eqn:E.
    - destruct (PyStr.isspace c).
      + now exists (String c t).
      + exists t. reflexivity.
    - exists r. simpl. simpl in IH. now rewrite <- IH. }
  destruct (L s) as [l El].
  destruct (Rt (PyStr.lstrip_by PyStr.isspace s)) as [r Er].
  exists l, r. unfold PyStr.strip, PyStr.strip_by.
  now rewrite <- Er.
Qed.

Lemma lower_string_cons (c : ascii) (s : string) :
  PyNum.lower_string (String c s) = String (PyStr.lower c) (PyNum.lower_string s).
Proof. reflexivity. Qed.

Section PatternsMore.

Context {R : Type}.

Lemma star_greedy_space_inv (ic : bool) (s : string) (k : string -> option R) (x : R) :
  Re.star_greedy ic Re.Space s k = Some x ->
  exists ws s', s = ws ++ s' /\ all_space ws = true /\ k s' = Some x.
Proof.
  induction s as [|c s IH]; simpl.
  - intros E. now exists "", "".
  - destruct (PyStr.isspace c) eqn:Sp.
    + destruct (Re.star_greedy ic Re.Space s k) as [y|] eqn:G.
      * intros E. injection E as <-.
        destruct (IH eq_refl) as (ws & s' & -> & A & K).
        exists (String c ws), s'. simpl. now rewrite Sp.
      * intros E. now exists "", (String c s).
    + intros E. now exists "", (String c s).
Qed.

Lemma star_lazy_dot_inv (ic : bool) (s : string) (k : string -> option R) (x : R) :
  Re.star_lazy ic Re.Dot s k = Some x ->
  exists body rest,
    s = body ++ rest /\ k rest = Some x
    /\ (forall p q, body = p ++ q -> q <> "" -> k (q ++ rest) = None).
Proof.
  induction s as [|c s IH]; rewrite star_lazy_unfold.
  - destruct (k "") as [y|] eqn:K; [|discriminate].
    intros E. injection E as <-. exists "", "". repeat split; [exact K|].
    intros p q E. destruct p; destruct q; try discriminate. congruence.
  - destruct (k (String c s)) as [y|] eqn:K.
    + intros E. injection E as <-. exists "", (String c s).
      repeat split; [exact K|].
      intros p q E. destruct p; destruct q; try discriminate. congruence.
    + cbn [Re.atom_match]. intros E.
      destruct (IH E) as (body & rest & -> & Here & Early).
      exists (String c body), rest. repeat split; [exact Here|].
      intros p q E' NE. destruct p as [|c' p].
      * simpl in E'. subst q. exact K.
      * simpl in E'. injection E' as _ E'. now apply (Early p q).
Qed.

Lemma rmatch_lit_inv (ic : bool) (p : string) :
  forall (s : string) (cs : Re.caps) (k : string -> Re.caps -> option R) (x : R),
    Re.rmatch ic (Re.lit p) s cs k = Some x ->
    exists p' s', s = p' ++ s' /\ k s' cs = Some x.
Proof.
  induction p as [|a p IH]; intros s cs k x; simpl.
  - intros E. now exists "", s.
  - destruct s as [|c s]; [discriminate|].
    destruct (if ic then _ else _); [|discriminate].
    intros E. destruct (IH _ _ _ _ E) as (p' & s' & -> & K).
    now exists (String c p'), s'.
Qed.

(** A literal matches a text that differs from it in case only. *)
Lemma rmatch_lit_nocase (p : string) :
  forall (q s : string) (cs : Re.caps) (k : string -> Re.caps -> option R),
    PyNum.lower_string q = PyNum.lower_string p ->
    Re.rmatch true (Re.lit p) (q ++ s) cs k = k s cs.
Proof.
  induction p as [|a p IH]; intros q s cs k E.
  - destruct q; [reflexivity|discriminate].
  - destruct q as [|b q]; [discriminate|].
    rewrite !lower_string_cons in E. injection E as E1 E2.
    cbn [Re.lit Re.rmatch append Re.atom_match].
    rewrite E1, Ascii.eqb_refl. now apply IH.
Qed.

Lemma backquote_match (c : ascii) :
  Re.atom_match true (Re.Chr "`") c = Ascii.eqb "`" c.
Proof.
  cbn [Re.atom_match]. apply lower_fixes; [reflexivity|].
  left. change (nat_of_ascii "`") with 96%nat. lia.
Qed.

Lemma brace_match (b c : ascii) :
  b = "{"%char \/ b = "}"%char -> Re.atom_match true (Re.Chr b) c = Ascii.eqb b c.
Proof.
  intros B. cbn [Re.atom_match]. apply lower_fixes.
  - destruct B as [-> | ->]; reflexivity.
  - right. destruct B as [-> | ->];
      [change (nat_of_ascii "{") with 123%nat|change (nat_of_ascii "}") with 125%nat];
      lia.
Qed.

Lemma fence_inv (s : string) (cs : Re.caps) (k : string -> Re.caps -> option R) (x : R) :
  Re.rmatch true (Re.lit "```") s cs k = Some x ->
  exists s', s = "```" ++ s' /\ k s' cs = Some x.
Proof.
  intros E. destruct (PyStr.starts_with "```" s) eqn:S.
  - destruct (starts_with_app _ _ S) as [s' ->]. exists s'. split; [reflexivity|].
    now rewrite rmatch_lit in E.
  - now rewrite rmatch_fence_fail in E.
Qed.

(** After the object: optional white space and the closing fence. *)
Lemma fence_tail_fails (s : string) (cs : Re.caps)
  (k : string -> Re.caps -> option R) :
  closes_fence s = false ->
  Re.star_greedy true Re.Space s (fun s' => Re.rmatch true (Re.lit "```") s' cs k)
  = None.
Proof.
  intros C. apply star_greedy_none.
  - intros c s' Sp. cbn [Re.rmatch Re.lit]. rewrite backquote_match.
    replace (Ascii.eqb "`" c) with false; [reflexivity|].
    symmetry. apply Ascii.eqb_neq. intros <-. discriminate.
  - now apply rmatch_fence_fail.
Qed.

Lemma fence_tail_matches (s : string) (cs : Re.caps)
  (k : string -> Re.caps -> option R) :
  closes_fence s = true ->
  exists rest,
    PyStr.lstrip_by PyStr.isspace s = "```" ++ rest
    /\ forall x, k rest cs = Some x ->
         Re.star_greedy true Re.Space s
           (fun s' => Re.rmatch true (Re.lit "```") s' cs k) = Some x.
Proof.
  intros C. destruct (closes_fence_lstrip s C) as [rest L].
  exists rest. split; [exact L|]. intros x K.
  apply star_greedy_lstrip. now rewrite L, rmatch_lit.
Qed.

End PatternsMore.

Lemma consumed_object (body rest : string) :
  Re.consumed (String "{" (body ++ String "}" rest)) rest = "{" ++ body ++ "}".
Proof.
  replace (String "{" (body ++ String "}" rest)) with (("{" ++ body ++ "}") ++ rest)
    by (cbn [append]; now rewrite append_assoc).
  apply consumed_app.
Qed.

(** What a match of the object group looks like. *)
Lemma object_group_inv (s rest' : string) (cs cs' : Re.caps) :
  Re.rmatch true object_group s cs (fun s' c => Some (s', c)) = Some (rest', cs') ->
  exists body rest,
    s = "{" ++ body ++ "}" ++ rest
    /\ no_early_close body ("}" ++ rest) = true
    /\ closes_fence rest = true
    /\ cs' = ("1", "{" ++ body ++ "}") :: cs.
Proof.
  unfold object_group. cbn [Re.rmatch].
  destruct s as [|c s]; [discriminate|].
  rewrite (brace_match "{" c) by now left.
  destruct (Ascii.eqb "{" c) eqn:A; [|discriminate].
  apply Ascii.eqb_eq in A. subst c. intros E.
  apply star_lazy_dot_inv in E. destruct E as (body & r & -> & Here & Early).
  destruct r as [|c rest]; [discriminate|].
  rewrite (brace_match "}" c) in Here by now right.
  destruct (Ascii.eqb "}" c) eqn:B; [|discriminate].
  apply Ascii.eqb_eq in B. subst c.
  exists body, rest. split; [reflexivity|].
  assert (C : closes_fence rest = true).
  { destruct (closes_fence rest) eqn:C; [reflexivity|].
    now rewrite (fence_tail_fails rest _ _ C) in Here. }
  split; [|split; [exact C|]].
  - apply no_early_close_intro. intros p q E.
    specialize (Early p (String "}" q) E ltac:(discriminate)).
    cbn [append] in Early. rewrite (brace_match "}" "}") in Early by now right.
    rewrite Ascii.eqb_refl in Early.
    destruct (closes_fence (q ++ "}" ++ rest)) eqn:Q; [|reflexivity].
    destruct (fence_tail_matches (q ++ "}" ++ rest)
                (("1", Re.consumed (String "{" (body ++ String "}" rest))
                         (q ++ String "}" rest)) :: cs)
                (fun s' c => Some (s', c)) Q) as (r' & _ & M).
    cbn [append] in M. rewrite (M _ eq_refl) in Early. discriminate.
  - apply star_greedy_space_inv in Here. destruct Here as (ws & s' & _ & _ & Here).
    apply rmatch_lit_inv in Here. destruct Here as (p' & s'' & _ & Here).
    injection Here as _ <-. now rewrite consumed_object.
Qed.

Lemma object_group_matches (body rest rest' : string) (cs : Re.caps) :
  no_early_close body ("}" ++ rest) = true ->
  PyStr.lstrip_by PyStr.isspace rest = "```" ++ rest' ->
  Re.rmatch true object_group ("{" ++ body ++ "}" ++ rest) cs
    (fun s' c => Some (s', c))
  = Some (rest', ("1", "{" ++ body ++ "}") :: cs).
Proof.
  intros NE Close. unfold object_group. cbn [Re.rmatch append].
  rewrite (brace_match "{" "{") by now left. rewrite Ascii.eqb_refl.
  apply star_lazy_dot.
  - intros p q E Hq. destruct q as [|c q]; [contradiction|].
    cbn [append]. rewrite (brace_match "}" c) by now right.
    destruct (Ascii.eqb "}" c) eqn:C; [|reflexivity].
    apply Ascii.eqb_eq in C. subst c.
    rewrite E in NE. apply no_early_close_suffix in NE.
    cbn [no_early_close] in NE. rewrite Ascii.eqb_refl in NE.
    apply andb_true_iff in NE. destruct NE as [NE _].
    apply negb_true_iff in NE. now apply fence_tail_fails.
  - cbn [append]. rewrite (brace_match "}" "}") by now right.
    rewrite Ascii.eqb_refl.
    apply star_greedy_lstrip. rewrite Close, rmatch_lit.
    now rewrite consumed_object.
Qed.

(** What a match of the whole pattern looks like. *)
Lemma fence_match_inv (s rest' : string) (cs : Re.caps) :
  Re.re_match true fence_pattern s = Some (rest', cs) ->
  exists pre body rest,
    s = pre ++ "{" ++ body ++ "}" ++ rest
    /\ no_early_close body ("}" ++ rest) = true
    /\ closes_fence rest = true
    /\ cs = [("1", "{" ++ body ++ "}")].
Proof.
  unfold Re.re_match. rewrite fence_pattern_parts. unfold Re.Opt.
  cbn [Re.rmatch]. intros E.
  apply rmatch_lit_inv in E. destruct E as (p1 & s1 & -> & E).
  assert (T : exists p2 s2,
             s1 = p2 ++ s2
             /\ Re.star_greedy true Re.Space s2
                  (fun s' => Re.rmatch true object_group s' []
                               (fun s'' c => Some (s'', c)))
                = Some (rest', cs)).
  { destruct (Re.rmatch true (Re.lit "json") s1 [] _) as [y|] eqn:J.
    - injection E as ->. apply rmatch_lit_inv in J.
      destruct J as (p2 & s2 & -> & J). now exists p2, s2.
    - now exists "", s1. }
  destruct T as (p2 & s2 & -> & T).
  apply star_greedy_space_inv in T. destruct T as (ws & s3 & -> & _ & T).
  apply object_group_inv in T. destruct T as (body & rest & -> & N & C & ->).
  exists (p1 ++ p2 ++ ws), body, rest.
  split; [now rewrite !append_assoc|]. now repeat split.
Qed.

Lemma fence_search_inv (t rest' : string) (cs : Re.caps) :
  Re.re_search true fence_pattern t = Some (rest', cs) ->
  exists pre body rest,
    t = pre ++ "{" ++ body ++ "}" ++ rest
    /\ no_early_close body ("}" ++ rest) = true
    /\ closes_fence rest = true
    /\ cs = [("1", "{" ++ body ++ "}")].
Proof.
  induction t as [|c t IH]; cbn [Re.re_search].
  - destruct (Re.re_match true fence_pattern "") as [[r c]|] eqn:M; [|discriminate].
    intros E. injection E as -> ->. now apply fence_match_inv in M.
  - destruct (Re.re_match true fence_pattern (String c t)) as [[r c']|] eqn:M.
    + intros E. injection E as -> ->. now apply fence_match_inv in M.
    + intros E. destruct (IH E) as (pre & body & rest & -> & N & C & ->).
      now exists (String c pre), body, rest.
Qed.

(** Without a closing brace that closes a fence, the pattern is found
    nowhere. *)
Lemma fence_search_none (t : string) :
  has_close t = false -> Re.re_search true fence_pattern t = None.
Proof.
  intros H.
  destruct (Re.re_search true fence_pattern t) as [[r cs]|] eqn:S; [|reflexivity].
  destruct (fence_search_inv _ _ _ S) as (pre & body & rest & -> & _ & C & _).
  rewrite !has_close_app in H; [discriminate|].
  apply (has_close_app "{"). apply has_close_app.
  cbn [append has_close]. now rewrite Ascii.eqb_refl, C.
Qed.

(** ** Text after a match does not undo it *)

Section Extension.

Context {R : Type}.

Variable ic : bool.
Variable t : string.

Lemma star_greedy_here (a : Re.atom) (s : string) (k : string -> option R) :
  k s <> None -> Re.star_greedy ic a s k <> None.
Proof.
  intros K. destruct s as [|c s]; simpl; [exact K|].
  destruct (Re.atom_match ic a c); [|exact K].
  destruct (Re.star_greedy ic a s k); [discriminate|exact K].
Qed.

Lemma star_greedy_ext (a : Re.atom) (s : string) (k k' : string -> option R) :
  (forall s', k s' <> None -> k' (s' ++ t) <> None) ->
  Re.star_greedy ic a s k <> None -> Re.star_greedy ic a (s ++ t) k' <> None.
Proof.
  intros H. induction s as [|c s IH].
  - intros N. apply star_greedy_here. now apply (H "").
  - cbn [Re.star_greedy append].
    destruct (Re.atom_match ic a c); [|apply (H (String c s))].
    destruct (Re.star_greedy ic a (s ++ t) k') eqn:E'; [discriminate|].
    destruct (Re.star_greedy ic a s k) eqn:E.
    + intros _. exfalso. apply IH; [discriminate|reflexivity].
    + apply (H (String c s)).
Qed.

Lemma star_lazy_ext (a : Re.atom) (s : string) (k k' : string -> option R) :
  (forall s', k s' <> None -> k' (s' ++ t) <> None) ->
  Re.star_lazy ic a s k <> None -> Re.star_lazy ic a (s ++ t) k' <> None.
Proof.
  intros H. induction s as [|c s IH];
    rewrite (star_lazy_unfold ic a _ k), (star_lazy_unfold ic a (_ ++ t) k').
  - destruct (k "") eqn:K; [|congruence]. intros _.
    destruct (k' ("" ++ t)) eqn:K'; [discriminate|].
    exfalso. apply (H ""); [rewrite K; discriminate|exact K'].
  - destruct (k' (String c s ++ t)) eqn:K'; [discriminate|].
    destruct (k (String c s)) eqn:K.
    + intros _. exfalso. apply (H (String c s)); [rewrite K; discriminate|exact K'].
    + cbn [append]. destruct (Re.atom_match ic a c); [exact IH|congruence].
Qed.

Lemma rmatch_ext (r : Re.regex) :
  forall (s : string) (cs cs' : Re.caps) (k k' : string -> Re.caps -> option R),
    (forall s' c c', k s' c <> None -> k' (s' ++ t) c' <> None) ->
    Re.rmatch ic r s cs k <> None -> Re.rmatch ic r (s ++ t) cs' k' <> None.
Proof.
  induction r as [|a|r1 IH1 r2 IH2|r1 IH1 r2 IH2|a|a|name r IH];
    intros s cs cs' k k' H; cbn [Re.rmatch].
  - apply H.
  - destruct s as [|c s]; [congruence|]. cbn [append].
    destruct (Re.atom_match ic a c); [apply H|congruence].
  - apply IH1. intros s' c c'. now apply IH2.
  - destruct (Re.rmatch ic r1 (s ++ t) cs' k') eqn:E'; [discriminate|].
    destruct (Re.rmatch ic r1 s cs k) eqn:E.
    + intros _. exfalso.
      apply (IH1 s cs cs' k k' H); [rewrite E; discriminate|exact E'].
    + now apply IH2.
  - apply star_greedy_ext. intros s'. apply H.
  - apply star_lazy_ext. intros s'. apply H.
  - apply IH. intros s' c c'. apply H.
Qed.

End Extension.

Lemma re_match_ext (ic : bool) (t : string) (r : Re.regex) (s : string) :
  Re.re_match ic r s <> None -> Re.re_match ic r (s ++ t) <> None.
Proof. unfold Re.re_match. apply rmatch_ext. discriminate. Qed.

Lemma re_search_here (ic : bool) (r : Re.regex) (s : string) :
  Re.re_match ic r s <> None -> Re.re_search ic r s <> None.
Proof.
  intros M. destruct s; cbn [Re.re_search];
    destruct (Re.re_match ic r _); congruence.
Qed.

Lemma re_search_ext_r (ic : bool) (r : Re.regex) (s t : string) :
  Re.re_search ic r s <> None -> Re.re_search ic r (s ++ t) <> None.
Proof.
  induction s as [|c s IH].
  - cbn [Re.re_search]. destruct (Re.re_match ic r "") eqn:M; [|congruence].
    intros _. apply re_search_here.
    apply (re_match_ext ic t r ""). rewrite M. discriminate.
  - cbn [Re.re_search append].
    destruct (Re.re_match ic r (String c (s ++ t))) eqn:M'; [discriminate|].
    destruct (Re.re_match ic r (String c s)) eqn:M.
    + intros _. exfalso.
      apply (re_match_ext ic t r (String c s)); [rewrite M; discriminate|exact M'].
    + exact IH.
Qed.

Lemma re_search_ext_l (ic : bool) (r : Re.regex) (l s : string) :
  Re.re_search ic r s <> None -> Re.re_search ic r (l ++ s) <> None.
Proof.
  intros N. induction l as [|c l IH]; [exact N|].
  cbn [Re.re_search append].
  now destruct (Re.re_match ic r (String c (l ++ s))).
Qed.

(** A pattern that is found nowhere in a text is found nowhere in the
    trimmed text. *)
Lemma re_search_strip (ic : bool) (r : Re.regex) (s : string) :
  Re.re_search ic r s = None -> Re.re_search ic r (PyStr.strip s) = None.
Proof.
  intros N. destruct (strip_decompose s) as (l & t & E).
  destruct (Re.re_search ic r (PyStr.strip s)) eqn:S; [|reflexivity].
  exfalso. rewrite E in N. revert N.
  apply re_search_ext_l, re_search_ext_r. rewrite S. discriminate.
Qed.

(** ** [extract_json], in general *)

Lemma extract_json_search_none (text : string) :
  Re.re_search true fence_pattern text = None ->
  extract_json text = PyStr.strip text.
Proof.
  intros N. unfold extract_json. rewrite N. now destruct text.
Qed.

(** X17: a text in which no closing brace is followed by optional white
    space and three backquotes, so in particular a text without a fence, is
    trimmed and nothing else. *)
Theorem extract_json_without_fenced_object (text : string) :
  has_close text = false -> extract_json text = PyStr.strip text.
Proof.
  intros H. apply extract_json_search_none. now apply fence_search_none.
Qed.

(** X18: [extract_json] is idempotent: what it returns, it returns
    unchanged. *)
Theorem extract_json_idempotent (text : string) :
  extract_json (extract_json text) = extract_json text.
Proof.
  destruct (Re.re_search true fence_pattern text) as [[r cs]|] eqn:S.
  - destruct (fence_search_inv _ _ _ S) as (pre & body & rest & E & N & _ & ->).
    assert (X : extract_json text = "{" ++ body ++ "}").
    { unfold extract_json. rewrite S.
      cbn [Re.group String.eqb Ascii.eqb Bool.eqb].
      rewrite strip_object. destruct text; [|reflexivity].
      destruct pre; discriminate. }
    rewrite X. rewrite extract_json_search_none; [apply strip_object|].
    apply fence_search_none. now apply (no_early_close_object body rest).
  - rewrite (extract_json_search_none text S).
    rewrite extract_json_search_none; [apply strip_idem|].
    now apply re_search_strip.
Qed.

Lemma tag_not_space (c : ascii) :
  PyStr.isspace c = true -> Re.atom_match true (Re.Chr "j") c = false.
Proof.
  destruct c as [[|] [|] [|] [|] [|] [|] [|] [|]]; vm_compute; intros E;
    first [reflexivity|discriminate E].
Qed.

(** Without a tag, the optional [json] of the pattern matches nothing. *)
Lemma tag_absent {R : Type} (ws s : string) (cs : Re.caps)
  (k : string -> Re.caps -> option R) :
  all_space ws = true ->
  Re.rmatch true (Re.lit "json") (ws ++ "{" ++ s) cs k = None.
Proof.
  intros W. cbn [Re.lit Re.rmatch]. destruct ws as [|c ws]; [reflexivity|].
  cbn [all_space] in W. apply andb_true_iff in W. destruct W as [W _].
  cbn [append]. now rewrite (tag_not_space c W).
Qed.

Lemma no_backquote_search (pre s : string) :
  no_backquote pre = true ->
  Re.re_search true fence_pattern (pre ++ s) = Re.re_search true fence_pattern s.
Proof.
  induction pre as [|c pre IH]; [reflexivity|].
  cbn [no_backquote]. intros E. apply andb_true_iff in E. destruct E as [E1 E2].
  cbn [append Re.re_search].
  replace (Re.re_match true fence_pattern (String c (pre ++ s))) with
    (@None (string * Re.caps)); [now apply IH|].
  symmetry. unfold Re.re_match, fence_pattern. cbn [Re.rmatch].
  apply rmatch_fence_fail. cbn [PyStr.starts_with].
  apply negb_true_iff in E1. rewrite Ascii.eqb_sym in E1. now rewrite E1.
Qed.

(** X19: prose before the fence, the language tag [json] in any case or no
    tag at all, white space between the tag and the object and any text after
    the closing fence are dropped: the result is the object. *)
Theorem extract_json_fence_in_prose (pre lang ws body rest : string) :
  no_backquote pre = true -> is_json_tag lang = true -> all_space ws = true ->
  no_early_close body ("}" ++ rest) = true -> closes_fence rest = true ->
  extract_json (pre ++ "```" ++ lang ++ ws ++ "{" ++ body ++ "}" ++ rest)
  = "{" ++ body ++ "}".
Proof.
  intros P L W N C.
  destruct (closes_fence_lstrip rest C) as [rest' Close].
  assert (G : forall cs,
    Re.star_greedy true Re.Space (ws ++ "{" ++ body ++ "}" ++ rest)
      (fun s' => Re.rmatch true object_group s' cs (fun s'' c => Some (s'', c)))
    = Some (rest', ("1", "{" ++ body ++ "}") :: cs)).
  { intros cs. apply star_greedy_lstrip. rewrite (lstrip_spaces ws _ W).
    change (PyStr.lstrip_by PyStr.isspace ("{" ++ body ++ "}" ++ rest))
      with ("{" ++ body ++ "}" ++ rest).
    now apply object_group_matches. }
  assert (M : Re.re_match true fence_pattern
                ("```" ++ lang ++ ws ++ "{" ++ body ++ "}" ++ rest)
              = Some (rest', [("1", "{" ++ body ++ "}")])).
  { unfold Re.re_match. rewrite fence_pattern_parts. unfold Re.Opt.
    cbn [Re.rmatch]. rewrite rmatch_lit.
    unfold is_json_tag in L. apply orb_true_iff in L. destruct L as [L|L].
    - apply String.eqb_eq in L. subst lang.
      change ("" ++ ws ++ "{" ++ body ++ "}" ++ rest)
        with (ws ++ "{" ++ body ++ "}" ++ rest).
      now rewrite (tag_absent ws _ _ _ W), G.
    - apply String.eqb_eq in L.
      rewrite (rmatch_lit_nocase "json" lang) by exact L. now rewrite G. }
  assert (S : Re.re_search true fence_pattern
                (pre ++ "```" ++ lang ++ ws ++ "{" ++ body ++ "}" ++ rest)
              = Some (rest', [("1", "{" ++ body ++ "}")])).
  { rewrite (no_backquote_search pre _ P). cbn [append Re.re_search] in *.
    now rewrite M. }
  unfold extract_json. rewrite S.
  cbn [Re.group String.eqb Ascii.eqb Bool.eqb]. rewrite strip_object.
  destruct pre; reflexivity.
Qed.

(** ** Numbers, in general *)

(** X20: [coerce_number] raises for nothing but an integer too large for a
    float; for every other value it returns a float or null. *)
Theorem coerce_number_raises_only_on_huge_int (x : json) :
  (exists c, coerce_number x = Ok c)
  \/ (exists n, x = JInt n /\ fits_float n = false
        /\ coerce_number x
           = Raise (OverflowError "int too large to convert to float")).
Proof.
  destruct x as [|b|n|f|s|l|d]; try (left; eexists; reflexivity).
  - left. destruct b; eexists; vm_compute; reflexivity.
  - destruct (fits_float n) eqn:F.
    + left. eexists. now apply coerce_number_int.
    + right. exists n. split; [reflexivity|]. split; [exact F|].
      unfold coerce_number, PyNum.float_of_int. unfold fits_float in F.
      destruct (PyNum.round_int n); try discriminate. reflexivity.
Qed.

(** ** The payload *)

Section PayloadMore.

Context `{Hashlib} `{Fitz} `{Tesseract}.

(** X21: the payload built after a successful upload never has a null
    [text] or [pages]: the pages are numbered 1, 2, ..., N and the text is
    their texts joined by a blank line, whatever the run did. *)
Theorem payload_after_upload (store store' : doc_store) (b : list byte) (dpi : Z)
  (trace : list event) (r : run_result) (temperature : spec_float) :
  reachable store -> upload store b dpi = Ok (store', trace) ->
  exists ps,
    out_pages (final_payload store' r temperature) = Some ps
    /\ List.map pr_page ps = page_numbers (List.length ps)
    /\ out_text (final_payload store' r temperature)
       = Some (PyStr.join (PyStr.nl ++ PyStr.nl) (List.map pr_text ps))
    /\ out_extraction (final_payload store' r temperature) = extracted_fields r
    /\ out_error (final_payload store' r temperature) = error_msg r.
Proof.
  intros Rs U.
  assert (Rs' : reachable store') by (now apply (reach_upload store b dpi store' trace)).
  destruct (upload_post _ _ _ _ _ U) as [_ P].
  destruct (reachable_shape store' Rs') as [->|(b' & doc & dpi' & ->)];
    [now contradiction P|].
  destruct (fresh_store_invariant b' doc dpi') as (ps & ims & Ps & _ & _ & _ & N & T).
  exists ps. cbn [final_payload out_pages out_text out_extraction out_error].
  now repeat split.
Qed.

End PayloadMore.

(** ** The further statements on sample inputs *)

Lemma get_page_text_after_upload_witness :
  exists store' trace,
    upload DOC_STORE Example.two_pages 200 = Ok (store', trace)
    /\ get_page_text store' 2 = Ok "#".
Proof.
  exact (get_page_text_after_upload DOC_STORE Example.two_pages
           Example.two_pages_doc 200 2 "x"
           ltac:(discriminate) eq_refl ltac:(lia) eq_refl).
Defined.

Lemma ocr_page_after_upload_witness :
  exists store' trace,
    upload DOC_STORE Example.two_pages 200 = Ok (store', trace)
    /\ ocr_page store' 2 = Ok "#"
    /\ ocr_page store' 2 = get_page_text store' 2.
Proof.
  destruct (ocr_page_after_upload DOC_STORE Example.two_pages
              Example.two_pages_doc 200 2 "x"
              ltac:(discriminate) eq_refl ltac:(lia) eq_refl)
    as (store' & trace & U & O & G).
  exists store', trace. split; [exact U|]. split; [exact O|exact (G eq_refl)].
Defined.

Lemma store_invariant_witness :
  exists id ps ims,
    doc_id (fresh_store Example.two_pages Example.two_pages_doc 200) = Some id
    /\ pages (fresh_store Example.two_pages Example.two_pages_doc 200) = Some ps
    /\ images (fresh_store Example.two_pages Example.two_pages_doc 200) = Some ims
    /\ List.length ims = List.length ps
    /\ List.map pr_page ps = page_numbers (List.length ps)
    /\ full_text (fresh_store Example.two_pages Example.two_pages_doc 200)
       = Some (PyStr.join (PyStr.nl ++ PyStr.nl) (List.map pr_text ps)).
Proof.
  destruct (store_invariant _ reachable_two_pages) as [(E & _)|S].
  - discriminate E.
  - exact S.
Defined.

Lemma text_layer_pages_are_trimmed_witness :
  30 <= PyStr.len "Invoice 0001 for ACME Corporation, total due"
  /\ PyStr.strip "Invoice 0001 for ACME Corporation, total due"
     = "Invoice 0001 for ACME Corporation, total due".
Proof.
  exact (text_layer_pages_are_trimmed
           (fresh_store Example.two_pages Example.two_pages_doc 200)
           [mkpage 1 false "Invoice 0001 for ACME Corporation, total due";
            mkpage 2 true "#"]
           (mkpage 1 false "Invoice 0001 for ACME Corporation, total due")
           reachable_two_pages eq_refl (or_introl eq_refl) eq_refl).
Defined.

Lemma preview_rows_match_pages_witness :
  exists rows,
    preview (fresh_store Example.two_pages Example.two_pages_doc 200) = Ok rows
    /\ List.map row_text rows
       = ["Invoice 0001 for ACME Corporation, total due"; "#"]
    /\ Some (List.map row_image rows)
       = images (fresh_store Example.two_pages Example.two_pages_doc 200)
    /\ List.map row_caption rows = ["Page 1"; "Page 2"].
Proof.
  exact (preview_rows_match_pages
           (fresh_store Example.two_pages Example.two_pages_doc 200)
           [mkpage 1 false "Invoice 0001 for ACME Corporation, total due";
            mkpage 2 true "#"]
           reachable_two_pages eq_refl).
Defined.

Lemma normalize_output_idempotent_witness :
  normalize_output (fst (normalize_output Example.small_invoice))
  = (fst (normalize_output Example.small_invoice), None).
Proof.
  apply (normalize_output_idempotent Example.small_invoice).
  vm_compute. reflexivity.
Defined.

Lemma normalize_output_adds_fields_witness :
  normalize_output (JObj [("document_type", JStr "invoice")])
  = (JObj [("document_type", JStr "invoice"); ("fields", JObj [])], None).
Proof.
  exact (normalize_output_adds_fields [("document_type", JStr "invoice")] eq_refl).
Defined.

Lemma normalize_output_fields_not_dict_witness :
  normalize_output (JObj [("fields", JList [])])
  = (JObj [("fields", JList [])],
     Some (AttributeError "'list' object has no attribute 'get'")).
Proof.
  exact (normalize_output_fields_not_dict (JObj [("fields", JList [])]) (JList [])
           eq_refl eq_refl).
Defined.

Lemma normalize_output_bare_invoice_date_witness :
  normalize_output
    (JObj [("fields", JObj [("invoice_date", JStr "03/15/24");
                            ("tax", JObj [("value", JStr "1")])])])
  = (JObj [("fields", JObj [("invoice_date", JStr "03/15/24");
                            ("tax", JObj [("value", JStr "1")])])],
     Some (AttributeError "'str' object has no attribute 'get'")).
Proof.
  exact (normalize_output_bare_invoice_date
           (JObj [("fields", JObj [("invoice_date", JStr "03/15/24");
                                   ("tax", JObj [("value", JStr "1")])])])
           (JObj [("invoice_date", JStr "03/15/24");
                  ("tax", JObj [("value", JStr "1")])])
           (JStr "03/15/24") eq_refl eq_refl eq_refl eq_refl).
Defined.

Lemma run_without_api_key_witness :
  extraction_run (H := keyless_agent) true "Extract invoice fields from the document."
  = mkrun (JObj []) None
      (Some "ANTHROPIC_API_KEY not set. Set it as an environment variable or in .streamlit/secrets.toml").
Proof.
  exact (run_without_api_key (host := keyless_agent)
           "Extract invoice fields from the document."
           (or_intror eq_refl) (or_introl eq_refl)).
Defined.

Lemma run_on_undecodable_answer_witness :
  extraction_run true "not json"
  = mkrun (JObj []) (Some "not json")
      (Some "Claude did not return valid JSON. See agent_output_raw for details.").
Proof.
  exact (run_on_undecodable_answer "not json" "not json" "sk-ant-sample"
           (JSONDecodeError "Expecting value")
           eq_refl ltac:(discriminate) eq_refl eq_refl).
Defined.


Lemma normalize_date_long_and_iso_witness :
  normalize_date_to_iso (JStr "03/15/2024") = Some "2024-03-15"
  /\ normalize_date_to_iso (JStr "2024-03-15") = Some "2024-03-15".
Proof.
  exact (normalize_date_long_and_iso 2024 3 15 eq_refl (or_introl (ltac:(lia) : 1000 <= 2024))).
Defined.

Lemma normalize_date_short_witness :
  normalize_date_to_iso (JStr "12/31/99") = Some "1999-12-31".
Proof.
  exact (normalize_date_short 1999 12 31 eq_refl ltac:(lia)).
Defined.

Lemma normalize_date_rejects_impossible_day_witness :
  normalize_date_to_iso (JStr "02/30/2024") = None
  /\ normalize_date_to_iso (JStr "2024-02-30") = None.
Proof.
  exact (normalize_date_rejects_impossible_day 2024 2 30
           ltac:(lia) ltac:(lia) ltac:(lia) eq_refl).
Defined.

Lemma extract_json_without_fenced_object_witness :
  extract_json (" ```text" ++ PyStr.nl ++ "no object }" ++ PyStr.nl ++ "done``` ")
  = "```text" ++ PyStr.nl ++ "no object }" ++ PyStr.nl ++ "done```".
Proof.
  exact (extract_json_without_fenced_object
           (" ```text" ++ PyStr.nl ++ "no object }" ++ PyStr.nl ++ "done``` ")
           eq_refl).
Defined.

Lemma extract_json_fence_in_prose_witness :
  extract_json ("Here it is: " ++ "```" ++ "JSON" ++ PyStr.nl
                ++ "{" ++ (Example.key "a" ++ ": 1") ++ "}"
                ++ (PyStr.nl ++ "```" ++ " Done."))
  = "{" ++ (Example.key "a" ++ ": 1") ++ "}".
Proof.
  exact (extract_json_fence_in_prose "Here it is: " "JSON" PyStr.nl
           (Example.key "a" ++ ": 1") (PyStr.nl ++ "```" ++ " Done.")
           eq_refl eq_refl eq_refl eq_refl eq_refl).
Defined.

Lemma payload_after_upload_witness :
  exists ps,
    out_pages (final_payload
                 (fresh_store Example.two_pages Example.two_pages_doc 200)
                 (extraction_run false "") (S754_zero false)) = Some ps
    /\ List.map pr_page ps = page_numbers (List.length ps)
    /\ out_text (final_payload
                   (fresh_store Example.two_pages Example.two_pages_doc 200)
                   (extraction_run false "") (S754_zero false))
       = Some (PyStr.join (PyStr.nl ++ PyStr.nl) (List.map pr_text ps))
    /\ out_extraction (final_payload
                   (fresh_store Example.two_pages Example.two_pages_doc 200)
                   (extraction_run false "") (S754_zero false)) = JObj []
    /\ out_error (final_payload
                   (fresh_store Example.two_pages Example.two_pages_doc 200)
                   (extraction_run false "") (S754_zero false)) = None.
Proof.
  exact (payload_after_upload DOC_STORE
           (fresh_store Example.two_pages Example.two_pages_doc 200)
           Example.two_pages 200 [Rendered 1 200; Rendered 2 200; Recognised 2]
           (extraction_run false "") (S754_zero false) reach_init eq_refl).
Defined.

(** * The normaliser as a whole, the library calls, early years *)

(** ** The Output Normalizer, as a whole *)



Section NormaliserStated.

Context `{CLib}.














End NormaliserStated.

Section NormaliserWhole.

Context `{CLib}.




End NormaliserWhole.


(** A string under [invoice_date] stops the run at the first step: the
    other fields are left as the agent gave them. *)
Lemma normalizer_stops_at_invoice_date `{CLib} :
  normalize_output
    (JObj [("fields",
       JObj [("invoice_date", JStr "03/15/24");
             ("due_date", JObj [("value", JStr "03/15/24")]);
             ("tax", JObj [("value", JStr "$5")])])])
  = (JObj [("fields",
       JObj [("invoice_date", JStr "03/15/24");
             ("due_date", JObj [("value", JStr "03/15/24")]);
             ("tax", JObj [("value", JStr "$5")])])],
     Some (PyVal.no_attribute (JStr "03/15/24") "get")).
Proof. reflexivity. Qed.

(** An integer too large for a float under [tax] stops the run at the third
    step: the date filled before it stays, [total] is not coerced. *)
Lemma normalizer_stops_at_tax `{CLib} :
  normalize_output
    (JObj [("fields",
       JObj [("invoice_date", JObj [("value", JStr "03/15/24")]);
             ("tax", JObj [("value", JInt (10 ^ 400))]);
             ("total", JObj [("value", JStr "$5")])])])
  = (JObj [("fields",
       JObj [("invoice_date", JObj [("value", JStr "03/15/24");
                                    ("value_iso", JStr "2024-03-15")]);
             ("tax", JObj [("value", JInt (10 ^ 400))]);
             ("total", JObj [("value", JStr "$5")])])],
     Some (OverflowError "int too large to convert to float")).
Proof. destruct H as [[|]]; vm_compute; reflexivity. Qed.

(** ** The library calls of a run *)

Section LoggedCalls.

Context `{Hashlib} `{Fitz} `{Tesseract}.

Lemma logged_page_to_image (p : page) (dpi : Z) :
  Logged.page_to_image p dpi = (page_to_image p dpi, [GetPixmap p dpi]).
Proof. reflexivity. Qed.

(** The OCR engine is called in the branch that returns [used_ocr = true],
    and nowhere else. *)
Lemma logged_extract_text_from_page (p : page) (img : image) :
  Logged.extract_text_from_page p img
  = (extract_text_from_page p img,
     if 30 <=? PyStr.len (PyStr.strip (or_empty (get_text p "text"))) then []
     else [ImageToString (preprocess_for_ocr img) "--psm 6"]).
Proof.
  unfold Logged.extract_text_from_page, extract_text_from_page.
  now destruct (30 <=? PyStr.len (PyStr.strip (or_empty (get_text p "text")))).
Qed.

Lemma logged_loop_body (dpi : Z) (acc : Logged.loop_state) (ip : Z * page) :
  Logged.loop_body dpi acc ip =
  {| Logged.ls_pages := Logged.ls_pages acc ++ [page_entry dpi ip];
     Logged.ls_images := Logged.ls_images acc ++ [page_to_image (snd ip) dpi];
     Logged.ls_parts := Logged.ls_parts acc ++ [pr_text (page_entry dpi ip)];
     Logged.ls_calls := Logged.ls_calls acc ++ page_calls dpi (snd ip) |}.
Proof.
  destruct ip as [i p]. unfold Logged.loop_body.
  rewrite logged_page_to_image, logged_extract_text_from_page.
  unfold page_entry, page_calls. cbn [fst snd app].
  now destruct (extract_text_from_page p (page_to_image p dpi)) as [text used_ocr].
Qed.

Lemma logged_fold (dpi : Z) (l : list (Z * page)) (acc : Logged.loop_state) :
  fold_left (Logged.loop_body dpi) l acc =
  {| Logged.ls_pages := Logged.ls_pages acc ++ List.map (page_entry dpi) l;
     Logged.ls_images :=
       Logged.ls_images acc ++ List.map (fun ip => page_to_image (snd ip) dpi) l;
     Logged.ls_parts :=
       Logged.ls_parts acc ++ List.map (fun ip => pr_text (page_entry dpi ip)) l;
     Logged.ls_calls :=
       Logged.ls_calls acc ++ flat_map (fun ip => page_calls dpi (snd ip)) l |}.
Proof.
  revert acc. induction l as [|ip l IH]; intros acc; cbn [fold_left List.map flat_map].
  - rewrite !app_nil_r. now destruct acc.
  - rewrite IH, logged_loop_body. cbn. now rewrite <- !app_assoc.
Qed.

Lemma flat_map_enumerate {A B : Type} (f : A -> list B) (l : list A) (i : Z) :
  flat_map (fun ip => f (snd ip)) (enumerate_from i l) = flat_map f l.
Proof.
  revert i. induction l as [|x l IH]; intros i; [reflexivity|].
  cbn [enumerate_from flat_map snd]. now rewrite IH.
Qed.

Lemma logged_process_pages (doc : list page) (dpi : Z) :
  Logged.ls_pages (Logged.process_pages doc dpi) = ls_pages (process_pages doc dpi)
  /\ Logged.ls_images (Logged.process_pages doc dpi) = ls_images (process_pages doc dpi)
  /\ Logged.ls_parts (Logged.process_pages doc dpi) = ls_parts (process_pages doc dpi)
  /\ Logged.ls_calls (Logged.process_pages doc dpi) = flat_map (page_calls dpi) doc.
Proof.
  unfold Logged.process_pages. rewrite logged_fold, process_pages_eq. cbn.
  now rewrite flat_map_enumerate.
Qed.

(** The logged handler leaves the store the handler leaves. *)
Lemma logged_upload_store (store : doc_store) (b : list byte) (dpi : Z) :
  match Logged.upload store b dpi, upload store b dpi with
  | Ok (s, _), Ok (s', _) => s = s'
  | Raise e, Raise e' => e = e'
  | _, _ => False
  end.
Proof.
  unfold Logged.upload, upload.
  destruct (negb (opt_string_eqb (doc_id store) (Some (compute_doc_id b)))
            || is_none (pages store)); [|reflexivity].
  destruct (fitz_open b) as [doc|e]; cbn [bind]; [|reflexivity].
  destruct (logged_process_pages doc dpi) as (-> & -> & -> & _). reflexivity.
Qed.

Lemma logged_upload_miss (store : doc_store) (b : list byte) (dpi : Z)
  (doc : list page) :
  doc_id store <> Some (compute_doc_id b) -> fitz_open b = Ok doc ->
  Logged.upload store b dpi
  = Ok (fresh_store b doc dpi, flat_map (page_calls dpi) doc).
Proof.
  intros Hid Hopen. unfold Logged.upload.
  destruct (opt_string_eqb (doc_id store) (Some (compute_doc_id b))) eqn:E.
  - apply opt_string_eqb_eq in E. contradiction.
  - cbn [negb orb]. rewrite Hopen. cbn [bind]. unfold fresh_store.
    destruct (logged_process_pages doc dpi) as (-> & -> & -> & ->). reflexivity.
Qed.

Lemma rendered_once (dpi : Z) (doc : list page) :
  List.length (List.filter is_get_pixmap (flat_map (page_calls dpi) doc))
  = List.length doc.
Proof.
  induction doc as [|p doc IH]; [reflexivity|].
  cbn [flat_map]. unfold page_calls at 1.
  cbn [app List.filter is_get_pixmap List.length].
  destruct (30 <=? PyStr.len (PyStr.strip (or_empty (get_text p "text"))));
    cbn; now rewrite IH.
Qed.

Lemma used_ocr_flags (dpi : Z) (doc : list page) (i : Z) :
  List.map pr_used_ocr (List.map (page_entry dpi) (enumerate_from i doc))
  = List.map (fun p => negb (30 <=? PyStr.len
                               (PyStr.strip (or_empty (get_text p "text"))))) doc.
Proof.
  revert i. induction doc as [|p doc IH]; intros i; [reflexivity|].
  cbn [enumerate_from List.map]. rewrite IH. f_equal.
  unfold page_entry, extract_text_from_page. cbn [snd fst].
  now destruct (30 <=? PyStr.len (PyStr.strip (or_empty (get_text p "text")))).
Qed.

(** X6: an upload that processes a document calls the renderer once per
    page, in page order and at the requested DPI, and calls the OCR engine for
    the pages whose trimmed text layer has fewer than 30 characters and for no
    other: each time right after that page was rendered, on its preprocessed
    rendering.  These are the pages it stores with [used_ocr = true]. *)
Theorem upload_work (store : doc_store) (b : list byte) (doc : list page) (dpi : Z) :
  doc_id store <> Some (compute_doc_id b) -> fitz_open b = Ok doc ->
  exists store' ps,
    Logged.upload store b dpi = Ok (store', flat_map (page_calls dpi) doc)
    /\ List.length (List.filter is_get_pixmap (flat_map (page_calls dpi) doc))
       = List.length doc
    /\ pages store' = Some ps
    /\ List.map pr_used_ocr ps
       = List.map (fun p => negb (30 <=? PyStr.len
                                    (PyStr.strip (or_empty (get_text p "text")))))
           doc.
Proof.
  intros Miss Open.
  exists (fresh_store b doc dpi), (ls_pages (process_pages doc dpi)).
  split; [now apply logged_upload_miss|]. split; [apply rendered_once|].
  split; [reflexivity|].
  rewrite process_pages_eq. cbn [ls_pages]. apply used_ocr_flags.
Qed.

(** C3: the code does not do what the claim says.  Every run of the script
    binds [DOC_STORE] anew before the handler reads it, so the handler never
    finds the digest of an earlier upload: a run with an uploaded file renders
    every page of the document, also when the run before it had the same
    bytes, and it renders at the DPI of this run. *)
Theorem rerun_renders_again (left_behind : doc_store) (b : list byte)
  (doc : list page) (dpi dpi' : Z) :
  fitz_open b = Ok doc ->
  exists first second,
    Logged.script_run left_behind (Some b) dpi
    = Ok (first, flat_map (page_calls dpi) doc)
    /\ doc_id first = Some (compute_doc_id b)
    /\ Logged.script_run first (Some b) dpi'
       = Ok (second, flat_map (page_calls dpi') doc)
    /\ List.length (List.filter is_get_pixmap (flat_map (page_calls dpi') doc))
       = List.length doc.
Proof.
  intros Open.
  exists (fresh_store b doc dpi), (fresh_store b doc dpi').
  unfold Logged.script_run.
  split; [apply logged_upload_miss; [discriminate|exact Open]|].
  split; [reflexivity|].
  split; [apply logged_upload_miss; [discriminate|exact Open]|].
  apply rendered_once.
Qed.

End LoggedCalls.

Lemma upload_work_witness :
  exists store' ps,
    Logged.upload DOC_STORE Example.two_pages 200
    = Ok (store',
          [GetPixmap "Invoice 0001 for ACME Corporation, total due" 200;
           GetPixmap "x" 200;
           ImageToString [0] "--psm 6"])
    /\ List.length (List.filter is_get_pixmap
         [GetPixmap "Invoice 0001 for ACME Corporation, total due" 200;
          GetPixmap "x" 200;
          ImageToString [0] "--psm 6"]) = 2%nat
    /\ pages store' = Some ps
    /\ List.map pr_used_ocr ps = [false; true].
Proof.
  exact (upload_work DOC_STORE Example.two_pages Example.two_pages_doc 200
           ltac:(discriminate) eq_refl).
Defined.

Lemma rerun_renders_again_witness :
  exists first second,
    Logged.script_run DOC_STORE (Some Example.two_pages) 200
    = Ok (first,
          [GetPixmap "Invoice 0001 for ACME Corporation, total due" 200;
           GetPixmap "x" 200;
           ImageToString [0] "--psm 6"])
    /\ doc_id first = Some (compute_doc_id Example.two_pages)
    /\ Logged.script_run first (Some Example.two_pages) 200
       = Ok (second,
             [GetPixmap "Invoice 0001 for ACME Corporation, total due" 200;
              GetPixmap "x" 200;
              ImageToString [0] "--psm 6"])
    /\ List.length (List.filter is_get_pixmap
         [GetPixmap "Invoice 0001 for ACME Corporation, total due" 200;
          GetPixmap "x" 200;
          ImageToString [0] "--psm 6"]) = 2%nat.
Proof.
  exact (rerun_renders_again DOC_STORE Example.two_pages Example.two_pages_doc
           200 200 eq_refl).
Defined.

(** ** Years below 1000 *)

Lemma all_three_digit_ok :
  forallb (fun a => forallb (fun b => forallb (three_digit_ok a b) digits10)
                      digits10) digits10 = true.
Proof. vm_compute. reflexivity. Qed.

Lemma short_year_text (y : Z) :
  0 <= y < 1000 -> (String.length (PyStr.str_int y) <= 3)%nat.
Proof.
  intros Hy.
  pose proof all_three_digit_ok as T. rewrite forallb_forall in T.
  assert (Ia : In (y / 100) digits10)
    by (apply In_digits10; Z.div_mod_to_equations; lia).
  assert (Ib : In (y / 10 mod 10) digits10)
    by (apply In_digits10; Z.div_mod_to_equations; lia).
  assert (Ic : In (y mod 10) digits10)
    by (apply In_digits10; Z.div_mod_to_equations; lia).
  specialize (T _ Ia). rewrite forallb_forall in T.
  specialize (T _ Ib). rewrite forallb_forall in T.
  specialize (T _ Ic). unfold three_digit_ok in T.
  replace (100 * (y / 100) + 10 * (y / 10 mod 10) + y mod 10) with y in T
    by (Z.div_mod_to_equations; lia).
  now apply Nat.leb_le in T.
Qed.

Lemma zero_pad_2_length (n : Z) :
  0 <= n <= 99 -> String.length (Datetime.zero_pad 2 n) = 2%nat.
Proof.
  intros Hn. destruct (two_digits n Hn) as (a & b & -> & _). reflexivity.
Qed.

(** The calendar of [strptime]: leap years every fourth year, but for the
    centuries that 400 does not divide. *)
Lemma normalize_date_calendar_examples `{CLib} :
  normalize_date_to_iso (JStr "02/29/2024") <> None
  /\ normalize_date_to_iso (JStr "02/29/2023") = None
  /\ normalize_date_to_iso (JStr "1900-02-29") = None
  /\ normalize_date_to_iso (JStr "2000-02-29") <> None
  /\ normalize_date_to_iso (JStr "04/31/2024") = None
  /\ normalize_date_to_iso (JStr "12/31/2024") <> None
  /\ normalize_date_to_iso (JStr "13/01/2024") = None.
Proof.
  destruct H as [[|]]; repeat split; vm_compute; congruence.
Qed.

(** C4: the code does not do what the claim says for years below 1000.
    Where the C library's [strftime] does not pad [%Y], a valid date of such a
    year, in either spelling with a four-digit year, comes back with the year
    unpadded, in fewer than the ten characters of YYYY-MM-DD. *)
Theorem normalize_date_year_below_1000 `{CLib} (y m d : Z) :
  strftime_pads_year = false ->
  Datetime.valid_date y m d = true -> y < 1000 ->
  normalize_date_to_iso (JStr (iso_date y m d))
  = Some (PyStr.str_int y ++ "-" ++ Datetime.zero_pad 2 m ++ "-"
          ++ Datetime.zero_pad 2 d)
  /\ normalize_date_to_iso (JStr (mdy_long y m d))
     = Some (PyStr.str_int y ++ "-" ++ Datetime.zero_pad 2 m ++ "-"
             ++ Datetime.zero_pad 2 d)
  /\ (String.length (PyStr.str_int y ++ "-" ++ Datetime.zero_pad 2 m ++ "-"
                     ++ Datetime.zero_pad 2 d) < 10)%nat.
Proof.
  intros P V Small. destruct (valid_date_bounds y m d V) as (Hy & Hm & Hd).
  destruct (strptime_mdy_long y m d Hy Hm Hd) as (L2 & L1 & _).
  destruct (strptime_iso y m d Hy Hm Hd) as (I3 & I1 & I2).
  rewrite V in L2, I3.
  assert (S : Datetime.strftime_ymd strftime_pads_year (Datetime.mkdate y m d)
              = PyStr.str_int y ++ "-" ++ Datetime.zero_pad 2 m ++ "-"
                ++ Datetime.zero_pad 2 d)
    by (unfold Datetime.strftime_ymd; now rewrite P).
  split; [|split].
  - rewrite (normalize_rendering y m d) by (auto; lia).
    unfold date_formats. now rewrite !first_format_cons, I1, I2, I3, S.
  - rewrite (normalize_rendering y m d) by (auto; lia).
    unfold date_formats. now rewrite !first_format_cons, L1, L2, S.
  - rewrite !length_append, !zero_pad_2_length by lia.
    pose proof (short_year_text y ltac:(lia)). cbn [String.length]. lia.
Qed.

Lemma normalize_date_year_below_1000_witness :
  normalize_date_to_iso (JStr "0999-12-31") = Some "999-12-31"
  /\ normalize_date_to_iso (JStr "12/31/0999") = Some "999-12-31"
  /\ (String.length "999-12-31" < 10)%nat.
Proof.
  exact (normalize_date_year_below_1000 999 12 31 eq_refl eq_refl
           (ltac:(lia) : 999 < 1000)).
Defined.
